(** * TheMoroScanner: address classification and market-data resolution

    A shallow embedding of [main.py]: the three address patterns and the
    scan that [on_message] runs over a message, the two resolvers
    [get_solana_token_data] and [get_evm_token_data] with their fallback
    chains, [format_percentage] and [format_number], the message handler
    itself, and the test command.

    Conventions.
    - Text is [string]; a character is identified with its code point, in
      the range below 256 that [ascii] offers.
    - JSON payloads and Python dictionaries are values of [value]; a
      dictionary is a [gmap string value].
    - Python floats are the binary64 floats of [PrimFloat].
    - A Python exception is a value of [exn]; code that may raise returns
      in [exc], and code that also talks to the network or to the chat
      platform is a tree of requests, [prog].
    - The [print] calls, which only write to the log, are left out. *)

From Stdlib Require Import ZArith String Ascii List Bool Lia Floats.
From stdpp Require Import gmap strings fin_maps pretty.
Import ListNotations.

Local Open Scope string_scope.
Local Open Scope list_scope.

#[local] Arguments String.append !s1 s2 : simpl nomatch.

(** ** Characters and character classes *)

Definition code (c : ascii) : N := N_of_ascii c.

Definition in_range (lo hi c : ascii) : bool :=
  ((code lo <=? code c) && (code c <=? code hi))%N.

(** [[1-9A-HJ-NP-Za-km-z]] *)
Definition is_base58 (c : ascii) : bool :=
  in_range "1" "9" c || in_range "A" "H" c || in_range "J" "N" c
  || in_range "P" "Z" c || in_range "a" "k" c || in_range "m" "z" c.

(** [[a-fA-F0-9]] *)
Definition is_hex (c : ascii) : bool :=
  in_range "a" "f" c || in_range "A" "F" c || in_range "0" "9" c.

(** [\s] on text, which is also what [str.strip()] removes: the code
    points below 256 that Python counts as white space. *)
Definition is_space (c : ascii) : bool :=
  ((9 <=? code c) && (code c <=? 13) || (28 <=? code c) && (code c <=? 32)
   || (code c =? 133) || (code c =? 160))%N.

(** [[^\s]] *)
Definition not_space (c : ascii) : bool := negb (is_space c).

(** [[s]] *)
Definition is_s (c : ascii) : bool := Ascii.eqb c "s".

(** ** The fragment of [re] that the three patterns use

    A pattern is a sequence of atoms: a literal character, or a character
    class under a greedy bounded repetition. Matching is Python's
    backtracking search: a repetition takes as many characters as it can
    and gives them back one at a time when the rest of the pattern fails. *)

Inductive atom : Type :=
| Lit (c : ascii)
| Rep (cls : ascii -> bool) (lo : nat) (hi : option nat).

Definition regex := list atom.

Definition may_take (hi : option nat) : bool :=
  match hi with Some O => false | _ => true end.

Definition one_less (hi : option nat) : option nat :=
  match hi with Some n => Some (pred n) | None => None end.

(** [rep cls lo hi s k]: the text matched by [cls{lo,hi}] followed by
    whatever [k] matches after it, at the start of [s]. *)
Fixpoint rep (cls : ascii -> bool) (lo : nat) (hi : option nat) (s : string)
    (k : string -> option string) : option string :=
  let stop := match lo with O => k s | S _ => None end in
  match s with
  | String c s' =>
      if cls c && may_take hi then
        match rep cls (pred lo) (one_less hi) s' k with
        | Some m => Some (String c m)
        | None => stop
        end
      else stop
  | EmptyString => stop
  end.

(** [match_here r k s]: the text that [r] matches at the start of [s],
    where [k] decides whether what is left of [s] is acceptable. *)
Fixpoint match_here (r : regex) (k : string -> option string) (s : string)
    : option string :=
  match r with
  | [] => k s
  | Lit c :: r' =>
      match s with
      | String c' s' =>
          if Ascii.eqb c c' then
            match match_here r' k s' with
            | Some m => Some (String c' m)
            | None => None
            end
          else None
      | EmptyString => None
      end
  | Rep cls lo hi :: r' => rep cls lo hi s (match_here r' k)
  end.

(** A search accepts any remainder; [re.fullmatch] accepts the empty one. *)
Definition anywhere (rest : string) : option string := Some "".

Definition at_end (rest : string) : option string :=
  match rest with EmptyString => Some "" | String _ _ => None end.

(** [re.fullmatch(pattern, s)], as the truth value the source tests. *)
Definition fullmatch (r : regex) (s : string) : bool :=
  match match_here r at_end s with Some _ => true | None => false end.

(** [re.findall(pattern, s)] for a pattern without groups: the matches,
    leftmost first, none overlapping. After a match of [n] characters the
    next [n - 1] positions are skipped. The three patterns never match the
    empty string; an empty match would move on by one character. *)
Fixpoint findall_from (r : regex) (skip : nat) (s : string) : list string :=
  match s with
  | EmptyString =>
      match skip, match_here r anywhere "" with
      | O, Some m => [m]
      | _, _ => []
      end
  | String c s' =>
      match skip with
      | S n => findall_from r n s'
      | O =>
          match match_here r anywhere s with
          | Some m => m :: findall_from r (pred (String.length m)) s'
          | None => findall_from r 0 s'
          end
      end
  end.

Definition findall (r : regex) (s : string) : list string := findall_from r 0 s.

(** ** ADDRESS_PATTERNS (main.py, lines 29-33)

    A Python dictionary keeps its keys in insertion order, and
    [on_message] walks it with [items()]: the order is part of the model. *)

(** [[1-9A-HJ-NP-Za-km-z]{32,44}] *)
Definition solana_pattern : regex := [Rep is_base58 32 (Some 44)].

(** [0x[a-fA-F0-9]{40}] *)
Definition evm_pattern : regex := [Lit "0"; Lit "x"; Rep is_hex 40 (Some 40)].

(** [http[s]?://[^\s]+] *)
Definition url_pattern : regex :=
  [Lit "h"; Lit "t"; Lit "t"; Lit "p"; Rep is_s 0 (Some 1);
   Lit ":"; Lit "/"; Lit "/"; Rep not_space 1 None].

Definition ADDRESS_PATTERNS : list (string * regex) :=
  [("solana", solana_pattern); ("evm", evm_pattern); ("url", url_pattern)].

(** ** detect_address_type (main.py, lines 252-261) *)

Definition detect_address_type (address : string) : string :=
  if fullmatch solana_pattern address then "Solana"
  else if fullmatch evm_pattern address then "EVM (Ethereum/BSC)"
  else if fullmatch url_pattern address then "URL"
  else "Unknown".

(** ** The scan of [on_message] (main.py, lines 275-282) *)

Fixpoint lstrip (s : string) : string :=
  match s with
  | String c s' => if is_space c then lstrip s' else s
  | EmptyString => EmptyString
  end.

Fixpoint rstrip (s : string) : string :=
  match s with
  | String c s' =>
      match rstrip s' with
      | EmptyString => if is_space c then EmptyString else String c EmptyString
      | t => String c t
      end
  | EmptyString => EmptyString
  end.

(** [str.strip()] *)
Definition strip (s : string) : string := rstrip (lstrip s).

(** The loop over [ADDRESS_PATTERNS.items()] that fills [found]. *)
Definition find_addresses (content : string) : list (string * string) :=
  flat_map
    (fun '(key, pattern) =>
       map (fun m => (m, detect_address_type m)) (findall pattern content))
    ADDRESS_PATTERNS.

(** [content = message.content.strip()] followed by the loop. *)
Definition scan (text : string) : list (string * string) :=
  find_addresses (strip text).

(** ** Python values

    What [response.json()] can return, and what the resolvers keep in
    [token_data]. [json] reads a JSON integer as an [int] and a JSON real
    as a [float]. *)

#[warnings="-register-all"]
Inductive value : Type :=
| VNone
| VBool (b : bool)
| VInt (z : Z)
| VFloat (f : float)
| VStr (s : string)
| VList (l : list value)
| VDict (d : gmap string value).

(** A dictionary display [{k1: v1, ...}] with distinct keys. *)
Definition dict (items : list (string * value)) : gmap string value :=
  list_to_map items.

(** The exceptions that the modelled code can meet; all of them derive
    from [Exception]. *)
Inductive exn : Type :=
| AttributeError
| TypeError
| ValueError
| OverflowError
| KeyError
| UnboundLocalError
| ClientError (reason : string)
| HTTPException (reason : string).

Inductive exc (A : Type) : Type :=
| Ok (a : A)
| Raise (e : exn).

Arguments Ok {A} a.
Arguments Raise {A} e.

Definition exc_bind {A B : Type} (x : exc A) (f : A -> exc B) : exc B :=
  match x with
  | Ok a => f a
  | Raise e => Raise e
  end.

Declare Scope exc_scope.
Delimit Scope exc_scope with exc.
Bind Scope exc_scope with exc.
Notation "x ← y ; z" := (exc_bind y (fun x => z))
  (at level 20, y at level 100, z at level 200, only parsing) : exc_scope.
Local Open Scope exc_scope.

(** What Python itself supplies and this development does not redo: the
    parser behind [float(str)] ([None] stands for [ValueError]), the
    [.Nf] and [+.Nf] format specifications, and [str()] of a value or of
    an exception inside an f-string. *)
Class PyBuiltins : Type := {
  float_of_str : string -> option float;
  format_fixed : nat -> float -> string;
  format_signed_fixed : nat -> float -> string;
  py_str : value -> string;
  exn_str : exn -> string;
  py_str_of_str : forall s : string, py_str (VStr s) = s
}.

(** [float(n)] for an [int]: the nearest binary64 float, ties to even;
    [None] stands for the [OverflowError] of an integer too large. *)
Definition float_of_int (z : Z) : option float :=
  match binary_normalize prec emax z 0 false with
  | S754_infinity _ => None
  | x => Some (SF2Prim x)
  end.

(** Truth value of an object, as [if x], [x and ...], [x or ...] test it. *)
Definition py_truthy (v : value) : bool :=
  match v with
  | VNone => false
  | VBool b => b
  | VInt z => negb (z =? 0)%Z
  | VFloat f => negb (f =? 0)%float
  | VStr s => negb (String.eqb s "")
  | VList l => match l with [] => false | _ :: _ => true end
  | VDict d => negb (bool_decide (d = ∅))
  end.

(** [x or d] *)
Definition py_or (x d : value) : value := if py_truthy x then x else d.

(** [x.get(key, default)]: only a dictionary has the method. *)
Definition py_get (x : value) (key : string) (default : value) : exc value :=
  match x with
  | VDict d => Ok (match d !! key with Some v => v | None => default end)
  | _ => Raise AttributeError
  end.

(** [x[key]] on a dictionary of the program's own. *)
Definition py_item (d : gmap string value) (key : string) : exc value :=
  match d !! key with Some v => Ok v | None => Raise KeyError end.

(** [d.get(key)] and [d.get(key, default)] on a dictionary of the
    program's own. *)
Definition dict_get (d : gmap string value) (key : string) (default : value)
    : value :=
  match d !! key with Some v => v | None => default end.

(** [d.update(fields)]: the new fields win. *)
Definition py_update (d fields : gmap string value) : gmap string value :=
  fields ∪ d.

(** [len(x)] *)
Definition py_len (x : value) : exc nat :=
  match x with
  | VStr s => Ok (String.length s)
  | VList l => Ok (List.length l)
  | VDict d => Ok (size d)
  | _ => Raise TypeError
  end.

(** The items that a [for] loop, or [max], draws from [x]: the elements
    of a list, the keys of a dictionary, the characters of a string. The
    keys come in the order of the map, not in insertion order: the
    resolvers only ever call [get] on such a key, which raises. *)
Definition py_iter (x : value) : exc (list value) :=
  match x with
  | VStr s => Ok (map (fun c => VStr (String c "")) (list_ascii_of_string s))
  | VList l => Ok l
  | VDict d => Ok (map (fun kv => VStr (fst kv)) (map_to_list d))
  | _ => Raise TypeError
  end.

Fixpoint is_prefix (p s : string) : bool :=
  match p, s with
  | EmptyString, _ => true
  | String a p', String b s' => Ascii.eqb a b && is_prefix p' s'
  | String _ _, EmptyString => false
  end.

Fixpoint is_infix (p s : string) : bool :=
  is_prefix p s
  || match s with String _ s' => is_infix p s' | EmptyString => false end.

(** [key in x] for a string [key]. *)
Definition py_in (key : string) (x : value) : exc bool :=
  match x with
  | VStr s => Ok (is_infix key s)
  | VList l =>
      Ok (existsb (fun v => match v with VStr s => String.eqb s key | _ => false end) l)
  | VDict d => Ok (bool_decide (is_Some (d !! key)))
  | _ => Raise TypeError
  end.

(** [x == s] for a string literal [s]. *)
Definition py_eq_str (x : value) (s : string) : bool :=
  match x with VStr t => String.eqb t s | _ => false end.

(** [x == 0], [x > 0], [x < 0], [x != 0] against the integer literal. *)
Definition py_eq_zero (x : value) : bool :=
  match x with
  | VBool b => negb b
  | VInt z => (z =? 0)%Z
  | VFloat f => (f =? 0)%float
  | _ => false
  end.

Definition py_gt_zero (x : value) : exc bool :=
  match x with
  | VBool b => Ok b
  | VInt z => Ok (0 <? z)%Z
  | VFloat f => Ok (0 <? f)%float
  | _ => Raise TypeError
  end.

Definition py_lt_zero (x : value) : exc bool :=
  match x with
  | VBool b => Ok false
  | VInt z => Ok (z <? 0)%Z
  | VFloat f => Ok (f <? 0)%float
  | _ => Raise TypeError
  end.

Section Builtins.
Context `{PyBuiltins}.

(** [float(x)] *)
Definition py_float (x : value) : exc float :=
  match x with
  | VNone => Raise TypeError
  | VBool b => Ok (if b then 1 else 0)%float
  | VInt z =>
      match float_of_int z with Some f => Ok f | None => Raise OverflowError end
  | VFloat f => Ok f
  | VStr s =>
      match float_of_str s with Some f => Ok f | None => Raise ValueError end
  | VList _ | VDict _ => Raise TypeError
  end.

(** The number behind [f"{x:.2f}"]: a format specification of type [f]
    takes a number, not a string. *)
Definition py_number (x : value) : exc float :=
  match x with
  | VBool b => Ok (if b then 1 else 0)%float
  | VInt z =>
      match float_of_int z with Some f => Ok f | None => Raise OverflowError end
  | VFloat f => Ok f
  | VStr _ => Raise ValueError
  | _ => Raise TypeError
  end.

(** [max(items, key=key)]: the first item is the candidate, and a later
    item replaces it when its key is greater. *)
Fixpoint max_loop (key : value -> exc float) (best : value) (best_key : float)
    (rest : list value) : exc value :=
  match rest with
  | [] => Ok best
  | p :: rest' =>
      k ← key p;
      if (best_key <? k)%float then max_loop key p k rest'
      else max_loop key best best_key rest'
  end.

Definition py_max (key : value -> exc float) (items : list value) : exc value :=
  match items with
  | [] => Raise ValueError
  | p :: rest => k ← key p; max_loop key p k rest
  end.

(** ** format_percentage (main.py, lines 36-45) *)

Definition format_percentage (v : value) : exc string :=
  match v with
  | VNone => Ok "0.00%"
  | _ =>
      if py_eq_zero v then Ok "0.00%"
      else
        x ← py_number v;
        let formatted := format_signed_fixed 2 x +:+ "%" in
        rising ← py_gt_zero v;
        Ok (if rising then "🟢 " +:+ formatted else "🔴 " +:+ formatted)
  end.

(** ** format_number (main.py, lines 48-66)

    The [try] with a bare [except] turns any exception of [float(num)]
    into the sentinel. *)

Definition format_number (num : value) : string :=
  match num with
  | VNone => "N/A"
  | _ =>
      if py_eq_zero num then "N/A"
      else
        match py_float num with
        | Ok num =>
            if (1000000000 <=? num)%float then
              "$" +:+ format_fixed 2 (num / 1000000000)%float +:+ "B"
            else if (1000000 <=? num)%float then
              "$" +:+ format_fixed 2 (num / 1000000)%float +:+ "M"
            else if (1000 <=? num)%float then
              "$" +:+ format_fixed 2 (num / 1000)%float +:+ "K"
            else if (1 <=? num)%float then
              "$" +:+ format_fixed 4 num
            else
              "$" +:+ format_fixed 8 num
        | Raise _ => "N/A"
        end
  end.

End Builtins.

(** ** Requests to the outside world

    [session.get(url)] either raises (no connection, timeout) or yields a
    response with a status, whose [json()] may raise in its turn. The chat
    platform takes a new message ([channel.send]) or an edit of an earlier
    one ([Message.edit]); either call may raise. *)

Record response : Type := { status : Z; json : exc value }.

Record field : Type := { field_name : string; field_value : string; inline : bool }.

Record embed : Type := {
  title : string;
  description : string;
  color : Z;
  fields : list field;
  footer : option (string * option string);
  timestamped : bool
}.

Inductive outgoing : Type :=
| WithEmbed (e : embed)
| WithContent (text : string).

(** A message that the platform has accepted. *)
Definition sent_message := nat.

Inductive prog (A : Type) : Type :=
| Ret (a : A)
| Throw (e : exn)
| HttpGet (url : string) (k : exc response -> prog A)
| ChannelSend (m : outgoing) (k : exc sent_message -> prog A)
| MessageEdit (target : sent_message) (m : outgoing) (k : exc unit -> prog A)
| ProcessCommands (k : exc unit -> prog A).

Arguments Ret {A} a.
Arguments Throw {A} e.
Arguments HttpGet {A} url k.
Arguments ChannelSend {A} m k.
Arguments MessageEdit {A} target m k.
Arguments ProcessCommands {A} k.

Fixpoint bind {A B : Type} (p : prog A) (f : A -> prog B) : prog B :=
  match p with
  | Ret a => f a
  | Throw e => Throw e
  | HttpGet url k => HttpGet url (fun r => bind (k r) f)
  | ChannelSend m k => ChannelSend m (fun r => bind (k r) f)
  | MessageEdit t m k => MessageEdit t m (fun r => bind (k r) f)
  | ProcessCommands k => ProcessCommands (fun r => bind (k r) f)
  end.

(** [try: p except Exception as e: h e] *)
Fixpoint try_except {A : Type} (p : prog A) (h : exn -> prog A) : prog A :=
  match p with
  | Ret a => Ret a
  | Throw e => h e
  | HttpGet url k => HttpGet url (fun r => try_except (k r) h)
  | ChannelSend m k => ChannelSend m (fun r => try_except (k r) h)
  | MessageEdit t m k => MessageEdit t m (fun r => try_except (k r) h)
  | ProcessCommands k => ProcessCommands (fun r => try_except (k r) h)
  end.

(** A pure step inside a request tree: its exception becomes the tree's. *)
Definition lift {A : Type} (x : exc A) : prog A :=
  match x with Ok a => Ret a | Raise e => Throw e end.

Definition session_get (url : string) : prog response := HttpGet url lift.
Definition channel_send (m : outgoing) : prog sent_message := ChannelSend m lift.
Definition message_edit (target : sent_message) (m : outgoing) : prog unit :=
  MessageEdit target m lift.
Definition process_commands : prog unit := ProcessCommands lift.

Declare Scope prog_scope.
Delimit Scope prog_scope with prog.
Bind Scope prog_scope with prog.
Notation "x ← y ; z" := (bind y (fun x => z))
  (at level 20, y at level 100, z at level 200, only parsing) : prog_scope.

(** *** Running a tree against a world

    The world answers each request; its answer may depend on how many
    requests came before, so the same URL can be answered differently the
    second time. The run records the requests in order. *)

Record world : Type := {
  http : nat -> string -> exc response;
  platform_send : nat -> outgoing -> exc sent_message;
  platform_edit : nat -> sent_message -> outgoing -> exc unit;
  platform_commands : nat -> exc unit
}.

Inductive event : Type :=
| Requested (url : string)
| Sent (m : outgoing)
| Edited (target : sent_message) (m : outgoing)
| CommandsProcessed.

Fixpoint run_from {A : Type} (w : world) (n : nat) (p : prog A)
    : list event * exc A :=
  match p with
  | Ret a => ([], Ok a)
  | Throw e => ([], Raise e)
  | HttpGet url k =>
      let '(t, r) := run_from w (S n) (k (http w n url)) in
      (Requested url :: t, r)
  | ChannelSend m k =>
      let '(t, r) := run_from w (S n) (k (platform_send w n m)) in
      (Sent m :: t, r)
  | MessageEdit target m k =>
      let '(t, r) := run_from w (S n) (k (platform_edit w n target m)) in
      (Edited target m :: t, r)
  | ProcessCommands k =>
      let '(t, r) := run_from w (S n) (k (platform_commands w n)) in
      (CommandsProcessed :: t, r)
  end.

Definition run {A : Type} (w : world) (p : prog A) : list event * exc A :=
  run_from w 0 p.

Definition is_request (e : event) : bool :=
  match e with Requested _ => true | _ => false end.

(** ** The resolvers *)

Section Resolvers.
Context `{PyBuiltins}.

(** [float(x.get(key, 0) or 0)] *)
Definition number_at (x : value) (key : string) : exc value :=
  v ← py_get x key (VInt 0);
  f ← py_float (py_or v (VInt 0));
  Ok (VFloat f).

(** [float(x.get(outer, {}).get(inner, 0) or 0)] *)
Definition number_in (x : value) (outer inner : string) : exc value :=
  d ← py_get x outer (VDict ∅);
  number_at d inner.

(** The key of [max]:
    [lambda p: float(p.get('liquidity', {}).get('usd', 0) or 0)] *)
Definition liquidity_usd (p : value) : exc float :=
  d ← py_get p "liquidity" (VDict ∅);
  v ← py_get d "usd" (VInt 0);
  py_float (py_or v (VInt 0)).

(** [pairs and len(pairs) > 0] *)
Definition has_pairs (pairs : value) : exc bool :=
  if py_truthy pairs then n ← py_len pairs; Ok (0 <? n)%nat else Ok false.

(** The most liquid pair of a DexScreener payload, when it lists any. *)
Definition most_liquid_pair (data : value) : exc (option value) :=
  pairs ← py_get data "pairs" (VList []);
  some ← has_pairs pairs;
  if some then
    items ← py_iter pairs;
    pair_ ← py_max liquidity_usd items;
    Ok (Some pair_)
  else Ok None.

(** main.py, lines 103-115: the fields read from the chosen pair. *)
Definition solana_pair_fields (pair_ : value) : exc (gmap string value) :=
  base_token ← py_get pair_ "baseToken" (VDict ∅);
  name ← py_get base_token "name" (VStr "Unknown Token");
  symbol ← py_get base_token "symbol" (VStr "UNKNOWN");
  price ← number_at pair_ "priceUsd";
  volume24h ← number_in pair_ "volume" "h24";
  liquidity ← number_in pair_ "liquidity" "usd";
  fdv ← number_at pair_ "fdv";
  marketCap ← number_at pair_ "marketCap";
  priceChange24h ← number_in pair_ "priceChange" "h24";
  priceChange1h ← number_in pair_ "priceChange" "h1";
  Ok (dict [("name", name); ("symbol", symbol); ("price", price);
            ("volume24h", volume24h); ("liquidity", liquidity);
            ("fdv", fdv); ("marketCap", marketCap);
            ("priceChange24h", priceChange24h);
            ("priceChange1h", priceChange1h);
            ("success", VBool true)]).

(** main.py, lines 96-115: what the DexScreener payload contributes to a
    Solana record; [None] when it lists no pair. *)
Definition solana_dex_fields (data : value) : exc (option (gmap string value)) :=
  best ← most_liquid_pair data;
  match best with
  | Some pair_ => new ← solana_pair_fields pair_; Ok (Some new)
  | None => Ok None
  end.

(** main.py, lines 129-136: the Jupiter payload. *)
Definition jupiter_fields (address : string) (data : value)
    : exc (option (gmap string value)) :=
  prices ← py_get data "data" (VDict ∅);
  price_data ← py_get prices address VNone;
  if py_truthy price_data then
    v ← py_get price_data "price" (VInt 0);
    price ← py_float v;
    Ok (Some (dict [("price", VFloat price); ("success", VBool true)]))
  else Ok None.

(** main.py, lines 151-156: the Solscan payload. *)
Definition solscan_fields (data : value) : exc (option (gmap string value)) :=
  named ← (if py_truthy data then py_in "name" data else Ok false);
  if named then
    name ← py_get data "name" (VStr "Unknown Token");
    symbol ← py_get data "symbol" (VStr "UNKNOWN");
    Ok (Some (dict [("name", name); ("symbol", symbol)]))
  else Ok None.

(** main.py, lines 203-214: as for Solana, without [fdv]. *)
Definition evm_pair_fields (pair_ : value) : exc (gmap string value) :=
  base_token ← py_get pair_ "baseToken" (VDict ∅);
  name ← py_get base_token "name" (VStr "Unknown Token");
  symbol ← py_get base_token "symbol" (VStr "UNKNOWN");
  price ← number_at pair_ "priceUsd";
  volume24h ← number_in pair_ "volume" "h24";
  liquidity ← number_in pair_ "liquidity" "usd";
  marketCap ← number_at pair_ "marketCap";
  priceChange24h ← number_in pair_ "priceChange" "h24";
  priceChange1h ← number_in pair_ "priceChange" "h1";
  Ok (dict [("name", name); ("symbol", symbol); ("price", price);
            ("volume24h", volume24h); ("liquidity", liquidity);
            ("marketCap", marketCap);
            ("priceChange24h", priceChange24h);
            ("priceChange1h", priceChange1h);
            ("success", VBool true)]).

(** main.py, lines 196-214 *)
Definition evm_dex_fields (data : value) : exc (option (gmap string value)) :=
  best ← most_liquid_pair data;
  match best with
  | Some pair_ => new ← evm_pair_fields pair_; Ok (Some new)
  | None => Ok None
  end.

(** [str.lower()], on code points below 256: the letters A-Z and the
    capital letters of Latin-1 move up by 32. *)
Definition lower_char (c : ascii) : ascii :=
  if ((65 <=? code c) && (code c <=? 90)
      || (192 <=? code c) && (code c <=? 222) && negb (code c =? 215))%N
  then ascii_of_N (code c + 32) else c.

Fixpoint lower (s : string) : string :=
  match s with
  | String c s' => String (lower_char c) (lower s')
  | EmptyString => EmptyString
  end.

(** main.py, lines 232-238: the fields read from a CoinGecko record. *)
Definition coingecko_record_fields (token_info : value)
    : exc (gmap string value) :=
  v ← py_get token_info "usd" (VInt 0);
  price ← py_float v;
  priceChange24h ← number_at token_info "usd_24h_change";
  volume24h ← number_at token_info "usd_24h_vol";
  marketCap ← number_at token_info "usd_market_cap";
  Ok (dict [("price", VFloat price);
            ("priceChange24h", priceChange24h);
            ("volume24h", volume24h); ("marketCap", marketCap);
            ("success", VBool true)]).

(** main.py, lines 228-238: the CoinGecko payload. *)
Definition coingecko_fields (address : string) (data : value)
    : exc (option (gmap string value)) :=
  token_info ← py_get data (lower address) VNone;
  if py_truthy token_info then
    new ← coingecko_record_fields token_info;
    Ok (Some new)
  else Ok None.

Definition dexscreener_url (address : string) : string :=
  "https://api.dexscreener.com/latest/dex/tokens/" +:+ address.

Definition jupiter_url (address : string) : string :=
  "https://price.jup.ag/v4/price?ids=" +:+ address.

Definition solscan_url (address : string) : string :=
  "https://public-api.solscan.io/token/meta?tokenAddress=" +:+ address.

Definition coingecko_url (address : string) : string :=
  "https://api.coingecko.com/api/v3/simple/token_price/ethereum?contract_addresses="
  +:+ address
  +:+ "&vs_currencies=usd&include_24hr_change=true&include_24hr_vol=true&include_market_cap=true".

Local Open Scope prog_scope.

(** One source, as every [try] block of the resolvers has it:

    [try: response = get(url); if response.status == 200: data = json();
    token_data.update(fields(data)) except Exception: pass]

    The dictionary display is evaluated before [update] runs, so an
    exception leaves [token_data] as it was. *)
Definition consult (url : string)
    (fields : value -> exc (option (gmap string value)))
    (token_data : gmap string value) : prog (gmap string value) :=
  try_except
    (response ← session_get url;
     if (status response =? 200)%Z then
       data ← lift (json response);
       found ← lift (fields data);
       Ret (match found with
            | Some new => py_update token_data new
            | None => token_data
            end)
     else Ret token_data)
    (fun _ => Ret token_data).

Definition solana_defaults : gmap string value :=
  dict [("name", VStr "Unknown Token"); ("symbol", VStr "UNKNOWN");
        ("price", VInt 0); ("volume24h", VInt 0); ("priceChange24h", VInt 0);
        ("priceChange1h", VInt 0); ("liquidity", VInt 0); ("fdv", VInt 0);
        ("marketCap", VInt 0); ("success", VBool false)].

Definition evm_defaults : gmap string value :=
  dict [("name", VStr "Unknown Token"); ("symbol", VStr "UNKNOWN");
        ("price", VInt 0); ("volume24h", VInt 0); ("priceChange24h", VInt 0);
        ("priceChange1h", VInt 0); ("liquidity", VInt 0);
        ("marketCap", VInt 0); ("success", VBool false)].

(** What the outermost [except] of either resolver returns. *)
Definition resolver_failed : gmap string value :=
  dict [("success", VBool false); ("name", VStr "Unknown Token");
        ("symbol", VStr "UNKNOWN")].

(** *** get_solana_token_data (main.py, lines 69-167) *)
Definition get_solana_token_data (address : string) : prog (gmap string value) :=
  try_except
    (let token_data := solana_defaults in
     token_data ← consult (dexscreener_url address) solana_dex_fields token_data;
     token_data ←
       (if negb (py_truthy (dict_get token_data "success" VNone))
        then consult (jupiter_url address) (jupiter_fields address) token_data
        else Ret token_data);
     name ← lift (py_item token_data "name");
     token_data ←
       (if py_eq_str name "Unknown Token"
        then consult (solscan_url address) solscan_fields token_data
        else Ret token_data);
     Ret token_data)
    (fun _ => Ret resolver_failed).

(** *** get_evm_token_data (main.py, lines 170-249) *)
Definition get_evm_token_data (address : string) : prog (gmap string value) :=
  try_except
    (let token_data := evm_defaults in
     token_data ← consult (dexscreener_url address) evm_dex_fields token_data;
     token_data ←
       (if negb (py_truthy (dict_get token_data "success" VNone))
        then consult (coingecko_url address) (coingecko_fields address) token_data
        else Ret token_data);
     Ret token_data)
    (fun _ => Ret resolver_failed).

End Resolvers.

(** ** on_message (main.py, lines 270-519) *)

Record message : Type := {
  author_is_bot : bool;
  content : string;
  author_display_name : string;
  author_avatar_url : option string
}.

Definition nl : string := String (ascii_of_nat 10) "".

(** Text written over several lines of a Python literal with [\n]. *)
Fixpoint lines (l : list string) : string :=
  match l with
  | [] => ""
  | [x] => x
  | x :: rest => x +:+ nl +:+ lines rest
  end.

(** [s[:n]] and [s[-n:]] for a positive [n]. *)
Definition py_first (n : nat) (s : string) : string := substring 0 n s.
Definition py_last (n : nat) (s : string) : string :=
  substring (String.length s - n) n s.

Section Handler.
Context `{PyBuiltins}.

Definition loading_embed (address addr_type : string) : embed :=
  {| title := "🔄 Fetching Real-Time Token Data...";
     description :=
       "**Address:** `" +:+ py_first 20 address +:+ "..." +:+ py_last 10 address
       +:+ "`" +:+ nl +:+ "**Chain:** " +:+ addr_type;
     color := 0xffaa00;
     fields := [ {| field_name := "⏳ Status";
                    field_value := "Scanning multiple APIs for live data...";
                    inline := false |} ];
     footer := None;
     timestamped := false |}.

(** [if v > 0: text += label + format_number(v)] *)
Definition add_if_positive (v : value) (label : string) (text : string)
    : exc string :=
  up ← py_gt_zero v;
  Ok (if up then text +:+ nl +:+ label +:+ format_number v else text).

(** [if v != 0: text += label + format_percentage(v) + "\n"] *)
Definition add_if_nonzero (v : value) (label : string) (text : string)
    : exc string :=
  if negb (py_eq_zero v) then
    shown ← format_percentage v;
    Ok (text +:+ label +:+ shown +:+ nl)
  else Ok text.

Definition performance_field (token_data : gmap string value) : exc field :=
  let change24h := dict_get token_data "priceChange24h" (VInt 0) in
  let change1h := dict_get token_data "priceChange1h" (VInt 0) in
  perf_info ← add_if_nonzero change1h "🕐 **1H:** " "";
  perf_info ← add_if_nonzero change24h "📅 **24H:** " perf_info;
  Ok {| field_name := "⏰ Performance";
        field_value := perf_info +:+ "📆 **7D:** Coming soon";
        inline := true |}.

Definition live_data_field : field :=
  {| field_name := "✅ Data Status";
     field_value := lines ["🟢 **Live Data Found**"; "📊 Multiple APIs verified";
                           "⚡ Real-time pricing"];
     inline := true |}.

Definition reasons_field : field :=
  {| field_name := "ℹ️ Possible Reasons";
     field_value := lines ["🔸 Very new token"; "🔸 Low trading volume";
                           "🔸 Not listed on DEXs"; "🔸 Invalid contract address"];
     inline := true |}.

Definition no_data_field : field :=
  {| field_name := "❌ Data Status";
     field_value := lines ["🔴 **No Live Data**"; "📊 Token not found in APIs";
                           "⚠️ Verify contract address"];
     inline := true |}.

(** main.py, lines 330-411 *)
Definition solana_fields (address : string) (token_data : gmap string value)
    : exc (list field) :=
  data ←
    (if py_truthy (dict_get token_data "success" VNone) then
       let price := dict_get token_data "price" (VInt 0) in
       let volume := dict_get token_data "volume24h" (VInt 0) in
       let liquidity := dict_get token_data "liquidity" (VInt 0) in
       let fdv := dict_get token_data "fdv" (VInt 0) in
       let mcap := dict_get token_data "marketCap" (VInt 0) in
       let price_info := "💵 **Price:** " +:+ format_number price in
       price_info ← add_if_positive mcap "🏆 **MCap:** " price_info;
       price_info ← add_if_positive fdv "🔥 **FDV:** " price_info;
       price_info ← add_if_positive liquidity "🏊 **Liquidity:** " price_info;
       price_info ← add_if_positive volume "📈 **Volume 24h:** " price_info;
       performance ← performance_field token_data;
       Ok [ {| field_name := "💰 Market Data"; field_value := price_info;
               inline := true |};
            performance; live_data_field ]
     else
       Ok [ {| field_name := "💰 Market Data";
               field_value := lines ["💵 **Price:** Not Available";
                                     "🔥 **FDV:** Not Available";
                                     "🏊 **Liquidity:** Not Available";
                                     "📈 **Volume:** Not Available"];
               inline := true |};
            reasons_field; no_data_field ]);
  Ok (data ++
      [ {| field_name := "🛡️ Safety Reminders";
           field_value := lines ["⚠️ **Always verify contracts**";
                                 "🔒 **Check for mint/freeze authority**";
                                 "💧 **Verify liquidity is locked**";
                                 "🚨 **DYOR before investing**"];
           inline := false |};
        {| field_name := "🔗 Quick Access";
           field_value :=
             "[📊 Solscan](https://solscan.io/token/" +:+ address +:+ ") • "
             +:+ "[🐦 Birdeye](https://birdeye.so/token/" +:+ address +:+ ") • "
             +:+ "[📈 DexScreener](https://dexscreener.com/solana/" +:+ address +:+ ") • "
             +:+ "[💹 Jupiter](https://jup.ag/swap/SOL-" +:+ address +:+ ")";
           inline := false |} ]).

(** main.py, lines 413-483 *)
Definition evm_fields (address : string) (token_data : gmap string value)
    : exc (list field) :=
  data ←
    (if py_truthy (dict_get token_data "success" VNone) then
       let price := dict_get token_data "price" (VInt 0) in
       let volume := dict_get token_data "volume24h" (VInt 0) in
       let liquidity := dict_get token_data "liquidity" (VInt 0) in
       let mcap := dict_get token_data "marketCap" (VInt 0) in
       let price_info := "💵 **Price:** " +:+ format_number price in
       price_info ← add_if_positive mcap "🏆 **MCap:** " price_info;
       price_info ← add_if_positive liquidity "🏊 **Liquidity:** " price_info;
       price_info ← add_if_positive volume "📈 **Volume 24h:** " price_info;
       performance ← performance_field token_data;
       Ok [ {| field_name := "💰 Market Data"; field_value := price_info;
               inline := true |};
            performance; live_data_field ]
     else
       Ok [ {| field_name := "💰 Market Data";
               field_value := lines ["💵 **Price:** Not Available";
                                     "🏆 **MCap:** Not Available";
                                     "🏊 **Liquidity:** Not Available";
                                     "📈 **Volume:** Not Available"];
               inline := true |};
            reasons_field; no_data_field ]);
  Ok (data ++
      [ {| field_name := "🔗 Quick Access";
           field_value :=
             "[📊 Etherscan](https://etherscan.io/address/" +:+ address +:+ ") • "
             +:+ "[🛠️ DexTools](https://www.dextools.io/app/en/ether/pair-explorer/"
             +:+ address +:+ ") • "
             +:+ "[📈 DexScreener](https://dexscreener.com/ethereum/" +:+ address +:+ ") • "
             +:+ "[🦄 Uniswap](https://app.uniswap.org/#/tokens/ethereum/" +:+ address +:+ ")";
           inline := false |} ]).

(** main.py, lines 485-490 *)
Definition url_warning : field :=
  {| field_name := "🌐 URL Detected";
     field_value := lines ["⚠️ **Warning:** Web URL detected";
                           "🔒 **Safety:** Always verify domains";
                           "🛡️ **Tip:** Only click official links";
                           "🚨 **Never connect wallet to suspicious sites**"];
     inline := false |}.

(** The [if]/[elif] chain of main.py, lines 330-490. *)
Definition chain_fields (address addr_type : string)
    (token_data : gmap string value) : exc (list field) :=
  if String.eqb addr_type "Solana" then solana_fields address token_data
  else if String.eqb addr_type "EVM (Ethereum/BSC)" then evm_fields address token_data
  else if String.eqb addr_type "URL" then Ok [url_warning]
  else Ok [].

(** main.py, lines 311-506: the embed that replaces the loading message. *)
Definition final_embed (msg : message) (address addr_type : string)
    (token_data : gmap string value) : exc embed :=
  let token_name := dict_get token_data "name" (VStr "Unknown Token") in
  let token_symbol := dict_get token_data "symbol" (VStr "UNKNOWN") in
  let price_change := dict_get token_data "priceChange24h" (VInt 0) in
  up ← py_gt_zero price_change;
  embed_color ←
    (if up then Ok 0x00ff88%Z
     else down ← py_lt_zero price_change;
          Ok (if down then 0xff6b6b else 0x5865f2)%Z);
  chain ← chain_fields address addr_type token_data;
  Ok {| title := "🪙 " +:+ py_str token_name +:+ " (" +:+ py_str token_symbol +:+ ")";
        description :=
          "**Contract:** `" +:+ py_first 25 address +:+ "..."
          +:+ py_last 15 address +:+ "`";
        color := if py_truthy (dict_get token_data "success" VNone)
                 then embed_color else 0x808080;
        fields := chain ++
                  [ {| field_name := "⛓️ Blockchain";
                       field_value := "**" +:+ addr_type +:+ "**";
                       inline := true |} ];
        footer := Some ("👤 Requested by " +:+ author_display_name msg
                        +:+ " • 🤖 Live Token Scanner • 📡 Real-time Data",
                        author_avatar_url msg);
        timestamped := true |}.

Local Open Scope prog_scope.

(** main.py, lines 303-309: which resolver, if any, is asked. *)
Definition fetch_token_data (address addr_type : string)
    : prog (gmap string value) :=
  let token_data := dict [("success", VBool false)] in
  if String.eqb addr_type "Solana" then get_solana_token_data address
  else if String.eqb addr_type "EVM (Ethereum/BSC)" then get_evm_token_data address
  else Ret token_data.

(** main.py, lines 512-517: the handler of the per-address [try].
    [loading_msg] is [None] while the variable is still unbound. *)
Definition report_error (e : exn) (loading_msg : option sent_message)
    (address addr_type : string) : prog unit :=
  try_except
    (match loading_msg with
     | Some m =>
         message_edit m
           (WithContent ("❌ Error processing " +:+ addr_type +:+ " address: `"
                         +:+ address +:+ "`" +:+ nl +:+ "Error: " +:+ exn_str e))
     | None => Throw UnboundLocalError
     end)
    (fun _ =>
       _ ← channel_send
             (WithContent ("❌ Error processing " +:+ addr_type +:+ " address: `"
                           +:+ address +:+ "`"));
       Ret tt).

(** main.py, lines 287-517: one turn of the loop over [found]. The result
    is the binding of [loading_msg] that the next turn starts from. *)
Definition process_address (msg : message) (loading_msg : option sent_message)
    (address addr_type : string) : prog (option sent_message) :=
  ChannelSend (WithEmbed (loading_embed address addr_type))
    (fun sent =>
       match sent with
       | Raise e =>
           _ ← report_error e loading_msg address addr_type;
           Ret loading_msg
       | Ok m =>
           _ ← try_except
                 (token_data ← fetch_token_data address addr_type;
                  e ← lift (final_embed msg address addr_type token_data);
                  message_edit m (WithEmbed e))
                 (fun e => report_error e (Some m) address addr_type);
           Ret (Some m)
       end).

Fixpoint process_found (msg : message) (loading_msg : option sent_message)
    (found : list (string * string)) : prog unit :=
  match found with
  | [] => Ret tt
  | (address, addr_type) :: rest =>
      loading_msg ← process_address msg loading_msg address addr_type;
      process_found msg loading_msg rest
  end.

Definition on_message (msg : message) : prog unit :=
  if author_is_bot msg then Ret tt
  else
    let found := find_addresses (strip (content msg)) in
    _ ← process_found msg None found;
    process_commands.

End Handler.

(** ** test_command (main.py, lines 523-541)

    [ctx.send] is a new message on the channel of the command. The
    argument is [None] when the command is called without one.
    [json.dumps(data, indent=2)] is left to Python: the keys of a
    resolved record are those of the initial record, in its order, so
    the text depends on the entries alone. *)

Section Commands.
Context `{PyBuiltins}.
Variable json_dumps : gmap string value -> string.

Local Open Scope prog_scope.

Definition test_result (data : gmap string value) : outgoing :=
  WithContent ("📊 Test Result: ```json" +:+ nl +:+ json_dumps data +:+ "```").

Definition test_command (address : option string) : prog unit :=
  match address with
  | Some (String _ _ as address) =>
      let addr_type := detect_address_type address in
      _ ← channel_send
            (WithContent ("🧪 Testing " +:+ addr_type +:+ " address: `"
                          +:+ address +:+ "`"));
      if String.eqb addr_type "Solana" then
        data ← get_solana_token_data address;
        _ ← channel_send (test_result data);
        Ret tt
      else if is_prefix "EVM" addr_type then
        data ← get_evm_token_data address;
        _ ← channel_send (test_result data);
        Ret tt
      else
        _ ← channel_send (WithContent "❌ Invalid address type!");
        Ret tt
  | _ =>
      _ ← channel_send
            (WithContent "❌ Please provide a token address to test!");
      Ret tt
  end.

End Commands.

(** ** An implementation of the builtins, to run the model

    [format_fixed] is exact: a finite float is a dyadic rational, and [.Nf]
    rounds it to [N] decimals, ties to even. [float(str)] is implemented
    for plain decimal numerals (an optional sign, digits, an optional
    fraction), correctly rounded; Python reads more than that (exponents,
    [inf], [nan], underscores, surrounding white space). [str()] is
    implemented for [None], booleans, integers and strings. *)

Module Reference.

Definition zeros (n : nat) : string := string_of_list_ascii (repeat "0"%char n).

(** The non-negative rational [num / den] with [n] decimals. *)
Definition fixed_of_ratio (negative : bool) (num den : Z) (n : nat) : string :=
  let scaled := (num * 10 ^ Z.of_nat n)%Z in
  let q := (scaled / den)%Z in
  let r := (scaled mod den)%Z in
  let q := if ((den <? 2 * r) || ((2 * r =? den) && Z.odd q))%Z then (q + 1)%Z else q in
  let digits := pretty (Z.to_N q) in
  let digits := zeros (S n - String.length digits) +:+ digits in
  let whole := String.length digits - n in
  (if negative then "-" else "")
  +:+ substring 0 whole digits
  +:+ (match n with O => "" | S _ => "." +:+ substring whole n digits end).

Definition fixed (n : nat) (f : float) : string :=
  match Prim2SF f with
  | S754_nan => "nan"
  | S754_infinity s => if s then "-inf" else "inf"
  | S754_zero s => fixed_of_ratio s 0 1 n
  | S754_finite s m e =>
      if (0 <=? e)%Z then fixed_of_ratio s (Z.pos m * 2 ^ e) 1 n
      else fixed_of_ratio s (Z.pos m) (2 ^ (- e)) n
  end.

Definition signed_fixed (n : nat) (f : float) : string :=
  match Prim2SF f with
  | S754_infinity true | S754_zero true | S754_finite true _ _ => fixed n f
  | _ => "+" +:+ fixed n f
  end.

Definition is_digit (c : ascii) : bool := in_range "0" "9" c.

Fixpoint all_digits (s : string) : bool :=
  match s with
  | String c s' => is_digit c && all_digits s'
  | EmptyString => true
  end.

Fixpoint digits_value (acc : Z) (s : string) : Z :=
  match s with
  | String c s' => digits_value (10 * acc + Z.of_N (code c - 48)) s'
  | EmptyString => acc
  end.

Fixpoint split_at_dot (s : string) : string * option string :=
  match s with
  | String c s' =>
      if Ascii.eqb c "." then (EmptyString, Some s')
      else let '(a, b) := split_at_dot s' in (String c a, b)
  | EmptyString => (EmptyString, None)
  end.

(** The float nearest to [(-1)^negative * m / 10^d]. *)
Definition nearest (negative : bool) (m : Z) (d : nat) : float :=
  let den := (10 ^ Z.of_nat d)%Z in
  if (m =? 0)%Z then (if negative then neg_zero else zero)
  else
    let k := Z.max 0 (64 + Z.log2 den - Z.log2 m) in
    let q := (m * 2 ^ k / den)%Z in
    let sticky := if ((m * 2 ^ k) mod den =? 0)%Z then 0%Z else 1%Z in
    let mant := (2 * q + sticky)%Z in
    SF2Prim (binary_normalize prec emax (if negative then - mant else mant)%Z
               (- (k + 1))%Z false).

Definition unsigned_float (negative : bool) (s : string) : option float :=
  let '(whole, frac) := split_at_dot s in
  let frac := match frac with Some f => f | None => EmptyString end in
  if all_digits whole && all_digits frac
     && negb (String.eqb (whole +:+ frac) EmptyString)
  then Some (nearest negative (digits_value 0 (whole +:+ frac)) (String.length frac))
  else None.

Definition parse_float (s : string) : option float :=
  match s with
  | String "-" s' => unsigned_float true s'
  | String "+" s' => unsigned_float false s'
  | _ => unsigned_float false s
  end.

Definition str (v : value) : string :=
  match v with
  | VNone => "None"
  | VBool b => if b then "True" else "False"
  | VInt z => pretty z
  | VStr s => s
  | _ => "<object>"
  end.

Definition str_of_exn (e : exn) : string :=
  match e with
  | ClientError reason | HTTPException reason => reason
  | _ => EmptyString
  end.

Definition builtins : PyBuiltins :=
  {| float_of_str := parse_float;
     format_fixed := fixed;
     format_signed_fixed := signed_fixed;
     py_str := str;
     exn_str := str_of_exn;
     py_str_of_str := fun s => eq_refl |}.

End Reference.

(** ** Notions used in the statements *)

Fixpoint all_chars (p : ascii -> bool) (s : string) : bool :=
  match s with
  | String c s' => p c && all_chars p s'
  | EmptyString => true
  end.

Definition within (hi : option nat) (n : nat) : Prop :=
  match hi with Some h => n <= h | None => True end.

(** The language of a pattern: the texts that it matches in full. *)
Inductive matches : regex -> string -> Prop :=
| matches_nil : matches [] ""
| matches_lit c r m : matches r m -> matches (Lit c :: r) (String c m)
| matches_rep cls lo hi r m1 m2 :
    all_chars cls m1 = true -> lo <= String.length m1 ->
    within hi (String.length m1) -> matches r m2 ->
    matches (Rep cls lo hi :: r) (m1 +:+ m2).

(** [ms] are disjoint pieces of [s], met in this order from left to right. *)
Inductive in_text_order : list string -> string -> Prop :=
| in_order_nil s : in_text_order [] s
| in_order_cons pre m rest ms :
    in_text_order ms rest -> in_text_order (m :: ms) (pre +:+ m +:+ rest).

Fixpoint drop_chars (n : nat) (s : string) : string :=
  match n, s with
  | S n', String _ s' => drop_chars n' s'
  | _, _ => s
  end.

(** [s] has [n] characters of the class [p] in a row. *)
Definition has_run (p : ascii -> bool) (n : nat) (s : string) : Prop :=
  exists pre mid post,
    s = pre +:+ mid +:+ post /\ String.length mid = n /\ all_chars p mid = true.

Definition tagged (addr_type : string) (ms : list string) : list (string * string) :=
  map (fun m => (m, addr_type)) ms.

(** What one source contributes to the record: the fields read from its
    payload, and nothing when the request raises, the status is not 200,
    the body is not JSON, the payload cannot be read, or it holds no
    record. *)
Definition contribution (r : exc response)
    (fields : value -> exc (option (gmap string value)))
    : option (gmap string value) :=
  match r with
  | Ok resp =>
      if (status resp =? 200)%Z then
        match json resp with
        | Ok data => match fields data with Ok found => found | Raise _ => None end
        | Raise _ => None
        end
      else None
  | Raise _ => None
  end.

Definition updated (token_data : gmap string value)
    (found : option (gmap string value)) : gmap string value :=
  match found with
  | Some new => py_update token_data new
  | None => token_data
  end.

(** A Python number: what the numeric fields of a record hold. *)
Definition is_number (v : value) : Prop :=
  match v with VInt _ | VFloat _ => True | _ => False end.

(** Position [i] holds the greatest of the keys [ks], and no earlier
    position holds a key as great. *)
Definition first_greatest (ks : list float) (i : nat) (k : float) : Prop :=
  ks !! i = Some k /\
  forall j kj, ks !! j = Some kj ->
    (kj <=? k)%float = true /\ (j < i -> (kj <? k)%float = true).

(** A successful answer with this JSON body. *)
Definition ok_json (data : value) : exc response :=
  Ok {| status := 200; json := Ok data |}.

(** The numeric fields of a record, per chain. *)
Definition solana_numeric_fields : list string :=
  ["price"; "volume24h"; "liquidity"; "fdv"; "marketCap"; "priceChange1h";
   "priceChange24h"].

Definition evm_numeric_fields : list string :=
  ["price"; "volume24h"; "liquidity"; "marketCap"; "priceChange1h";
   "priceChange24h"].

(** A record with its found flag and all of these numeric fields. *)
Definition complete_record (numeric : list string)
    (token_data : gmap string value) : Prop :=
  (exists b, token_data !! "success" = Some (VBool b))
  /\ forall key, In key numeric ->
       exists v, token_data !! key = Some v /\ is_number v.



(** ** Further notions *)

(** [m] is a piece of [s]. *)
Definition piece_of (m s : string) : Prop :=
  exists pre post, s = pre +:+ m +:+ post.

(** Some piece of [s] matches [r] in full. *)
Definition occurs (r : regex) (s : string) : Prop :=
  exists m, piece_of m s /\ matches r m.

(** No atom of the pattern accepts a white-space character, and the
    pattern cannot match without taking a character. *)
Fixpoint solid (r : regex) : Prop :=
  match r with
  | [] => True
  | Lit c :: r' => is_space c = false /\ solid r'
  | Rep cls _ _ :: r' =>
      (forall c, cls c = true -> is_space c = false) /\ solid r'
  end.

Definition takes_a_character (r : regex) : Prop :=
  match r with
  | Lit _ :: _ => True
  | Rep _ (S _) _ :: _ => True
  | _ => False
  end.

(** An answer that carries no JSON object: the request raised, the
    status is not 200, the body is not JSON, or the JSON is a list, a
    string, a number, a boolean or [null]. *)
Definition no_json_object (r : exc response) : Prop :=
  match r with
  | Ok resp =>
      status resp <> 200%Z
      \/ match json resp with Ok (VDict _) => False | _ => True end
  | Raise _ => True
  end.

(** A field of a record that holds what the resolvers put there: the
    initial integer 0 or a float. *)
Definition figure (v : value) : Prop := v = VInt 0 \/ exists f, v = VFloat f.

(** A record as the resolvers leave it: a boolean found flag, and a
    figure under each of these keys. *)
Definition settled_record (numeric : list string)
    (token_data : gmap string value) : Prop :=
  (exists b, token_data !! "success" = Some (VBool b))
  /\ forall key, In key numeric ->
       exists v, token_data !! key = Some v /\ figure v.

(** The found flag and the figures of a record agree: a record that is
    found has a float for its price, and a record that is not found has
    every figure at its initial integer 0. *)
Definition flag_agrees (numeric : list string) (token_data : gmap string value)
    : Prop :=
  (token_data !! "success" = Some (VBool true)
   /\ exists f, token_data !! "price" = Some (VFloat f))
  \/ (token_data !! "success" = Some (VBool false)
      /\ forall key, In key numeric -> token_data !! key = Some (VInt 0)).

(** Two records with the same keys. *)
Definition same_keys (a b : gmap string value) : Prop :=
  forall key, is_Some (a !! key) <-> is_Some (b !! key).

(** The two error reports of [on_message] (main.py, lines 515 and 517):
    the edit that carries the exception, and the plain message sent when
    that edit fails too. *)
Definition error_edit `{PyBuiltins} (e : exn) (address addr_type : string)
    : outgoing :=
  WithContent ("❌ Error processing " +:+ addr_type +:+ " address: `"
               +:+ address +:+ "`" +:+ nl +:+ "Error: " +:+ exn_str e).

Definition error_notice (address addr_type : string) : outgoing :=
  WithContent ("❌ Error processing " +:+ addr_type +:+ " address: `"
               +:+ address +:+ "`").

(** The embeds among the new messages of a run. *)
Fixpoint embeds_sent (t : list event) : list embed :=
  match t with
  | Sent (WithEmbed e) :: t' => e :: embeds_sent t'
  | _ :: t' => embeds_sent t'
  | [] => []
  end.

(** *** Worlds for the examples *)

(** A platform that accepts everything, numbering the messages it takes. *)
Definition world_answering (answers : nat -> string -> exc response) : world :=
  {| http := answers;
     platform_send := fun n _ => Ok n;
     platform_edit := fun _ _ _ => Ok tt;
     platform_commands := fun _ => Ok tt |}.

(** No source can be reached. *)
Definition unreachable : world :=
  world_answering (fun _ _ => Raise (ClientError "Cannot connect to host")).

(** Each URL has one answer; any other URL is not found. *)
Definition serving (pages : list (string * value)) : world :=
  world_answering
    (fun _ url =>
       match list_to_map (M := gmap string value) pages !! url with
       | Some data => ok_json data
       | None => Ok {| status := 404; json := Raise ValueError |}
       end).


(** The platform takes no new message; edits go through. *)
Definition refusing : world :=
  {| http := fun _ _ => Raise (ClientError "Cannot connect to host");
     platform_send := fun _ _ => Raise (HTTPException "503 Service Unavailable");
     platform_edit := fun _ _ _ => Ok tt;
     platform_commands := fun _ => Ok tt |}.

(** Every source answers with an empty JSON list. *)
Definition answering_with_lists : world :=
  world_answering (fun _ _ => ok_json (VList [])).


(** *** Data for the examples *)

Definition solana_address : string := "So11111111111111111111111111111111111111112".
Definition evm_address : string := "0xAbCdEf00000000000000000000000000000000Aa".

Definition thin_pair : value :=
  VDict (dict [("baseToken", VDict (dict [("name", VStr "Moro"); ("symbol", VStr "MORO")]));
               ("priceUsd", VStr "0.5");
               ("liquidity", VDict (dict [("usd", VInt 100)]));
               ("fdv", VInt 1000)]).

Definition deep_pair : value :=
  VDict (dict [("baseToken", VDict (dict [("name", VStr "Moro"); ("symbol", VStr "MORO")]));
               ("priceUsd", VStr "0.75");
               ("volume", VDict (dict [("h24", VFloat 1234.5)]));
               ("liquidity", VDict (dict [("usd", VInt 50000)]));
               ("fdv", VInt 3000);
               ("marketCap", VInt 2000);
               ("priceChange", VDict (dict [("h24", VFloat (-2.5)); ("h1", VFloat 0.25)]))]).

Definition two_pairs : gmap string value :=
  dict [("pairs", VList [thin_pair; deep_pair])].

Definition deep_pair_solana_fields : gmap string value :=
  dict [("name", VStr "Moro"); ("symbol", VStr "MORO"); ("price", VFloat 0.75);
        ("volume24h", VFloat 1234.5); ("liquidity", VFloat 50000);
        ("fdv", VFloat 3000); ("marketCap", VFloat 2000);
        ("priceChange24h", VFloat (-2.5)); ("priceChange1h", VFloat 0.25);
        ("success", VBool true)].

Definition deep_pair_evm_fields : gmap string value :=
  dict [("name", VStr "Moro"); ("symbol", VStr "MORO"); ("price", VFloat 0.75);
        ("volume24h", VFloat 1234.5); ("liquidity", VFloat 50000);
        ("marketCap", VFloat 2000);
        ("priceChange24h", VFloat (-2.5)); ("priceChange1h", VFloat 0.25);
        ("success", VBool true)].

(** A pair whose liquidity entry is [null]. *)
Definition pair_without_liquidity : value :=
  VDict (dict [("baseToken", VDict (dict [("name", VStr "Moro"); ("symbol", VStr "MORO")]));
               ("priceUsd", VStr "0.5"); ("liquidity", VNone)]).

Definition no_pairs : gmap string value := dict [("pairs", VList [])].

Definition zero_price_record : gmap string value :=
  dict [("id", VStr solana_address); ("price", VInt 0)].





Definition own_message : message :=
  {| author_is_bot := true;
     content := "0x00000000000000000000000000000000000000aa";
     author_display_name := "TheMoroScanner";
     author_avatar_url := None |}.

Definition user_message : message :=
  {| author_is_bot := false;
     content := "see https://dex.example/t";
     author_display_name := "moro";
     author_avatar_url := None |}.

(** The embed that the handler builds from the default record
    [{'success': False}]: placeholder title, grey colour, the chain field,
    and before it the fixed URL warning when the type is URL. *)
Definition warning_embed (msg : message) (address addr_type : string) : embed :=
  {| title := "🪙 Unknown Token (UNKNOWN)";
     description :=
       "**Contract:** `" +:+ py_first 25 address +:+ "..."
       +:+ py_last 15 address +:+ "`";
     color := 0x808080;
     fields := (if String.eqb addr_type "URL" then [url_warning] else [])
               ++ [ {| field_name := "⛓️ Blockchain";
                       field_value := "**" +:+ addr_type +:+ "**";
                       inline := true |} ];
     footer := Some ("👤 Requested by " +:+ author_display_name msg
                     +:+ " • 🤖 Live Token Scanner • 📡 Real-time Data",
                     author_avatar_url msg);
     timestamped := true |}.


(** * Proofs *)

(** ** Strings *)

Lemma str_app_nil_l (s : string) : "" +:+ s = s.
Proof. reflexivity. Qed.

Lemma str_app_cons (c : ascii) (a b : string) :
  String c a +:+ b = String c (a +:+ b).
Proof. reflexivity. Qed.

Lemma str_app_nil_r (s : string) : s +:+ "" = s.
Proof. induction s as [|c s IH]; simpl; [reflexivity | f_equal; exact IH]. Qed.

Lemma str_app_assoc (a b c : string) : (a +:+ b) +:+ c = a +:+ (b +:+ c).
Proof. induction a as [|x a IH]; simpl; [reflexivity | f_equal; exact IH]. Qed.

Lemma str_length_app (a b : string) :
  String.length (a +:+ b) = String.length a + String.length b.
Proof. induction a as [|x a IH]; simpl; [reflexivity | f_equal; exact IH]. Qed.

Lemma all_chars_app p (a b : string) :
  all_chars p (a +:+ b) = all_chars p a && all_chars p b.
Proof.
  induction a as [|x a IH]; simpl; [reflexivity |].
  rewrite IH. now rewrite andb_assoc.
Qed.

Lemma rep_sound cls (s : string) : forall lo hi k m,
  rep cls lo hi s k = Some m ->
  exists m1 rest m2,
    s = m1 +:+ rest /\ all_chars cls m1 = true /\ lo <= String.length m1 /\
    within hi (String.length m1) /\ k rest = Some m2 /\ m = m1 +:+ m2.
Proof.
  assert (Hstop : forall lo hi k (t m : string),
            match lo with O => k t | S _ => None end = Some m ->
            exists m1 rest m2,
              t = m1 +:+ rest /\ all_chars cls m1 = true /\
              lo <= String.length m1 /\ within hi (String.length m1) /\
              k rest = Some m2 /\ m = m1 +:+ m2).
  { intros lo hi k t m Hm. destruct lo; [|discriminate].
    exists "", t, m. repeat split; try done.
    destruct hi; simpl; lia. }
  induction s as [|c s IH]; intros lo hi k m Hm; simpl in Hm.
  - eauto.
  - destruct (cls c && may_take hi) eqn:Hc; [|eauto].
    destruct (rep cls (pred lo) (one_less hi) s k) as [m'|] eqn:Hr; [|eauto].
    injection Hm as <-.
    apply IH in Hr as (m1 & rest & m2 & -> & Hall & Hlo & Hhi & Hk & ->).
    apply andb_true_iff in Hc as [Hc Htake].
    exists (String c m1), rest, m2. simpl. rewrite Hc, Hall.
    repeat split; try done; [lia|].
    destruct hi as [[|h]|]; simpl in *; try done. lia.
Qed.

Lemma rep_complete cls (m1 : string) : forall lo hi rest k,
  all_chars cls m1 = true -> lo <= String.length m1 ->
  within hi (String.length m1) -> is_Some (k rest) ->
  is_Some (rep cls lo hi (m1 +:+ rest) k).
Proof.
  induction m1 as [|c m1 IH]; intros lo hi rest k Hall Hlo Hhi Hk; simpl in *.
  - assert (lo = 0) as -> by lia.
    destruct rest as [|c rest]; simpl; [done|].
    destruct (cls c && may_take hi); [|done].
    destruct (rep cls 0 (one_less hi) rest k); [eauto | done].
  - apply andb_true_iff in Hall as [Hc Hall]. rewrite Hc.
    assert (may_take hi = true) as ->.
    { destruct hi as [[|h]|]; simpl in *; try done. lia. }
    simpl.
    destruct (IH (pred lo) (one_less hi) rest k) as [m Hm]; try done; [lia| |].
    + destruct hi as [h|]; simpl in *; [lia | done].
    + rewrite Hm. eauto.
Qed.

Lemma match_here_sound (r : regex) : forall k s m,
  match_here r k s = Some m ->
  exists m1 rest m2,
    s = m1 +:+ rest /\ matches r m1 /\ k rest = Some m2 /\ m = m1 +:+ m2.
Proof.
  induction r as [|[c|cls lo hi] r IH]; intros k s m Hm; simpl in Hm.
  - exists "", s, m. repeat split; try done. constructor.
  - destruct s as [|c' s]; [discriminate|].
    destruct (Ascii.eqb c c') eqn:Hc; [|discriminate].
    apply Ascii.eqb_eq in Hc as <-.
    destruct (match_here r k s) as [m'|] eqn:Hr; [|discriminate].
    injection Hm as <-.
    apply IH in Hr as (m1 & rest & m2 & -> & Hm1 & Hk & ->).
    exists (String c m1), rest, m2. repeat split; try done. now constructor.
  - apply rep_sound in Hm as (a & rest1 & m2' & -> & Hall & Hlo & Hhi & Hk' & ->).
    apply IH in Hk' as (b & rest & m2 & -> & Hb & Hk & ->).
    exists (a +:+ b), rest, m2.
    rewrite !str_app_assoc. repeat split; try done. now constructor.
Qed.

Lemma match_here_complete (r : regex) (m1 : string) :
  matches r m1 -> forall k rest,
  is_Some (k rest) -> is_Some (match_here r k (m1 +:+ rest)).
Proof.
  induction 1 as [|c r m Hm IH|cls lo hi r a b Hall Hlo Hhi Hb IH];
    intros k rest Hk; simpl.
  - done.
  - rewrite Ascii.eqb_refl. destruct (IH k rest Hk) as [m' ->]. eauto.
  - rewrite str_app_assoc. apply rep_complete; auto.
Qed.

Lemma fullmatch_matches (r : regex) (m : string) :
  fullmatch r m = true <-> matches r m.
Proof.
  unfold fullmatch. split.
  - destruct (match_here r at_end m) as [m'|] eqn:Hm; [|discriminate].
    intros _. apply match_here_sound in Hm as (m1 & rest & m2 & -> & Hm1 & Hk & _).
    destruct rest; [|discriminate]. now rewrite str_app_nil_r.
  - intros Hm.
    destruct (match_here_complete r m Hm at_end "") as [m' Hm']; [simpl; eauto|].
    rewrite str_app_nil_r in Hm'. now rewrite Hm'.
Qed.

Lemma search_matches (r : regex) (s m : string) :
  match_here r anywhere s = Some m ->
  matches r m /\ exists rest, s = m +:+ rest.
Proof.
  intros Hm. apply match_here_sound in Hm as (m1 & rest & m2 & -> & Hm1 & Hk & ->).
  injection Hk as <-. rewrite str_app_nil_r. eauto.
Qed.

Lemma search_complete (r : regex) (m rest : string) :
  matches r m -> is_Some (match_here r anywhere (m +:+ rest)).
Proof. intros Hm. apply match_here_complete; [done | simpl; eauto]. Qed.

Lemma all_chars_impl (p q : ascii -> bool) (s : string) :
  (forall c, p c = true -> q c = true) ->
  all_chars p s = true -> all_chars q s = true.
Proof.
  intros Hpq. induction s as [|c s IH]; simpl; [done|].
  intros [Hc Hs]%andb_true_iff. rewrite (Hpq c Hc). auto.
Qed.

Lemma all_chars_inside p (a b : string) c :
  all_chars p (a +:+ String c b) = true -> p c = true.
Proof.
  rewrite all_chars_app. simpl.
  intros [_ [Hc _]%andb_true_iff]%andb_true_iff. exact Hc.
Qed.

Lemma str_split_at (n : nat) : forall s : string,
  n <= String.length s ->
  exists a b, s = a +:+ b /\ String.length a = n.
Proof.
  induction n as [|n IH]; intros s Hn.
  - exists "", s. done.
  - destruct s as [|c s]; simpl in Hn; [lia|].
    destruct (IH s) as (a & b & -> & Ha); [lia|].
    exists (String c a), b. simpl. auto.
Qed.

Lemma drop_chars_app (a b : string) : drop_chars (String.length a) (a +:+ b) = b.
Proof. induction a as [|c a IH]; simpl; [by destruct b | exact IH]. Qed.

Lemma str_app_length_eq (a b : string) :
  String.length (a +:+ b) = String.length a -> b = "".
Proof.
  rewrite str_length_app. destruct b; simpl; [done | lia].
Qed.

(** *** The matches that [findall] lists *)

Lemma in_order_weaken (ms : list string) (pre s : string) :
  in_text_order ms s -> in_text_order ms (pre +:+ s).
Proof.
  intros Hs. destruct Hs as [s|p m rest ms Hms]; [constructor|].
  rewrite <- str_app_assoc. now constructor.
Qed.

Lemma findall_from_in_order (r : regex) (s : string) : forall skip,
  in_text_order (findall_from r skip s) (drop_chars skip s).
Proof.
  induction s as [|c s IH]; intros skip; simpl.
  - destruct skip; [|constructor].
    destruct (match_here r anywhere "") as [m|] eqn:Hm; [|constructor].
    apply search_matches in Hm as [_ [rest Hrest]].
    destruct m; [|discriminate]. 
    apply (in_order_cons "" "" ""). constructor.
  - destruct skip as [|skip]; [|apply IH].
    destruct (match_here r anywhere (String c s)) as [m|] eqn:Hm.
    + apply search_matches in Hm as [_ [rest Hrest]].
      specialize (IH (pred (String.length m))).
      destruct m as [|c' m]; simpl in *.
      * apply (in_order_cons "" "" (String c s)).
        apply (in_order_weaken _ (String c "")) in IH. exact IH.
      * injection Hrest as -> ->. rewrite drop_chars_app in IH.
        apply (in_order_cons "" (String c' m) rest). exact IH.
    + apply (in_order_weaken _ (String c "")), (IH 0).
Qed.

Lemma findall_in_order (r : regex) (s : string) :
  in_text_order (findall r s) s.
Proof. apply (findall_from_in_order r s 0). Qed.

Lemma findall_from_matches (r : regex) (m : string) (s : string) : forall skip,
  In m (findall_from r skip s) -> matches r m.
Proof.
  induction s as [|c s IH]; intros skip; simpl.
  - destruct skip; [|done].
    destruct (match_here r anywhere "") as [m'|] eqn:Hm; [|done].
    intros [<-|[]]. now apply search_matches in Hm.
  - destruct skip as [|skip]; [|apply IH].
    destruct (match_here r anywhere (String c s)) as [m'|] eqn:Hm; [|apply IH].
    intros [<-|Hin]; [now apply search_matches in Hm | eapply IH, Hin].
Qed.

Lemma findall_from_too_short (r : regex) (s : string) : forall skip,
  match_here r anywhere "" = None -> String.length s <= skip ->
  findall_from r skip s = [].
Proof.
  intros skip Hr. revert skip.
  induction s as [|c s IH]; intros skip Hlen; simpl in *.
  - rewrite Hr. by destruct skip.
  - destruct skip; [lia|]. apply IH. lia.
Qed.

(** *** The type that [detect_address_type] gives to each kind of match *)

Ltac invert_matches :=
  repeat match goal with
         | H : matches [] _ |- _ => inversion H; subst; clear H
         | H : matches (_ :: _) _ |- _ => inversion H; subst; clear H
         end.

Lemma solana_match_chars (m : string) :
  matches solana_pattern m -> all_chars is_base58 m = true.
Proof.
  unfold solana_pattern. intros Hm. invert_matches.
  now rewrite str_app_nil_r.
Qed.

Lemma not_solana (m : string) :
  all_chars is_base58 m = false -> fullmatch solana_pattern m = false.
Proof.
  intros Hm. destruct (fullmatch solana_pattern m) eqn:Hf; [|done].
  apply fullmatch_matches, solana_match_chars in Hf. congruence.
Qed.

Lemma detect_solana (m : string) :
  matches solana_pattern m -> detect_address_type m = "Solana".
Proof.
  intros Hm. unfold detect_address_type.
  now rewrite (proj2 (fullmatch_matches _ _) Hm).
Qed.

Lemma evm_match_shape (m : string) :
  matches evm_pattern m ->
  exists h, m = String "0" (String "x" h) /\ String.length h = 40
            /\ all_chars is_hex h = true.
Proof.
  unfold evm_pattern. intros Hm. invert_matches.
  rewrite str_app_nil_r. simpl in *. eexists. split; [done|]. split; [lia|done].
Qed.

Lemma detect_evm (m : string) :
  matches evm_pattern m -> detect_address_type m = "EVM (Ethereum/BSC)".
Proof.
  intros Hm. unfold detect_address_type.
  rewrite (proj2 (fullmatch_matches _ _) Hm).
  apply evm_match_shape in Hm as (h & -> & _).
  now rewrite not_solana.
Qed.

Lemma detect_url (m : string) :
  matches url_pattern m -> detect_address_type m = "URL".
Proof.
  intros Hm. unfold detect_address_type.
  rewrite (proj2 (fullmatch_matches _ _) Hm).
  assert (fullmatch solana_pattern m = false) as ->.
  { apply not_solana. unfold url_pattern in Hm. invert_matches.
    destruct (all_chars is_base58 _) eqn:Hall; [|done].
    simpl in Hall. apply all_chars_inside in Hall. discriminate. }
  assert (fullmatch evm_pattern m = false) as ->; [|done].
  destruct (fullmatch evm_pattern m) eqn:Hf; [|done].
  apply fullmatch_matches, evm_match_shape in Hf as (h & -> & _).
  unfold url_pattern in Hm. inversion Hm.
Qed.

Lemma tag_matches (r : regex) (addr_type : string) (s : string) :
  (forall m, matches r m -> detect_address_type m = addr_type) ->
  map (fun m => (m, detect_address_type m)) (findall r s)
  = tagged addr_type (findall r s).
Proof.
  intros Htag. apply map_ext_in. intros m Hm.
  now rewrite (Htag m (findall_from_matches r m s 0 Hm)).
Qed.

Lemma find_addresses_by_pattern (content : string) :
  find_addresses content
  = tagged "Solana" (findall solana_pattern content)
    ++ tagged "EVM (Ethereum/BSC)" (findall evm_pattern content)
    ++ tagged "URL" (findall url_pattern content).
Proof.
  unfold find_addresses, ADDRESS_PATTERNS. simpl.
  rewrite (tag_matches _ _ _ detect_solana), (tag_matches _ _ _ detect_evm),
    (tag_matches _ _ _ detect_url).
  now rewrite app_nil_r.
Qed.

Lemma lstrip_id (s : string) : all_chars not_space s = true -> lstrip s = s.
Proof.
  destruct s as [|c s]; simpl; [done|].
  unfold not_space. intros [Hc _]%andb_true_iff.
  now apply negb_true_iff in Hc as ->.
Qed.

Lemma rstrip_id (s : string) : all_chars not_space s = true -> rstrip s = s.
Proof.
  induction s as [|c s IH]; simpl; [done|].
  unfold not_space at 1. intros [Hc Hs]%andb_true_iff.
  apply negb_true_iff in Hc. rewrite (IH Hs), Hc. now destruct s.
Qed.

Lemma strip_id (s : string) : all_chars not_space s = true -> strip s = s.
Proof. intros Hs. unfold strip. now rewrite (lstrip_id s Hs), rstrip_id. Qed.

Lemma hex_not_space (c : ascii) : is_hex c = true -> not_space c = true.
Proof.
  destruct c as [[] [] [] [] [] [] [] []]; vm_compute; congruence.
Qed.

Lemma hex_not_h (c : ascii) : is_hex c = true -> negb (Ascii.eqb "h" c) = true.
Proof.
  destruct c as [[] [] [] [] [] [] [] []]; vm_compute; congruence.
Qed.

Lemma findall_from_cons (r : regex) (c : ascii) (s : string) :
  findall_from r 0 (String c s)
  = match match_here r anywhere (String c s) with
    | Some m => m :: findall_from r (pred (String.length m)) s
    | None => findall_from r 0 s
    end.
Proof. reflexivity. Qed.

Lemma findall_url_without_h (s : string) :
  all_chars (fun c => negb (Ascii.eqb "h" c)) s = true ->
  findall url_pattern s = [].
Proof.
  unfold findall. induction s as [|c s IH]; [done|].
  simpl all_chars. intros [Hc Hs]%andb_true_iff.
  apply negb_true_iff in Hc.
  rewrite findall_from_cons. unfold url_pattern at 1. simpl match_here. rewrite Hc. auto.
Qed.

Lemma solana_match_shape (m : string) :
  matches solana_pattern m <->
  all_chars is_base58 m = true /\ 32 <= String.length m <= 44.
Proof.
  unfold solana_pattern. split.
  - intros Hm. invert_matches. rewrite str_app_nil_r. simpl in *. auto.
  - intros (Hall & Hlo & Hhi). rewrite <- (str_app_nil_r m).
    constructor; try done. constructor.
Qed.

Lemma findall_solana_run (s : string) :
  findall solana_pattern s <> [] <-> has_run is_base58 32 s.
Proof.
  split.
  - intros Hne. pose proof (findall_in_order solana_pattern s) as Hord.
    destruct (findall solana_pattern s) as [|m ms] eqn:Hfind; [done|].
    assert (matches solana_pattern m) as Hm.
    { apply (findall_from_matches _ _ s 0). unfold findall in Hfind.
      rewrite Hfind. now left. }
    apply solana_match_shape in Hm as (Hall & Hlo & _).
    inversion Hord as [|pre m' rest ms' _ Hm' Hs]; subst.
    destruct (str_split_at 32 m Hlo) as (a & b & -> & Ha).
    rewrite all_chars_app in Hall. apply andb_true_iff in Hall as [Hall _].
    exists pre, a, (b +:+ rest). now rewrite str_app_assoc.
  - intros (pre & mid & post & -> & Hlen & Hall). unfold findall.
    assert (is_Some (match_here solana_pattern anywhere (mid +:+ post))) as [m Hm].
    { apply search_complete, solana_match_shape. split; [done | lia]. }
    induction pre as [|c pre IH].
    + destruct mid as [|c mid]; [discriminate|].
      rewrite str_app_nil_l, str_app_cons in *.
      rewrite findall_from_cons, Hm. discriminate.
    + rewrite str_app_cons, findall_from_cons.
      destruct (match_here solana_pattern anywhere (String c _));
        [discriminate | exact IH].
Qed.

(** ** The scan *)

(** C7. The scan lists the matches pattern by pattern, in the order of
    ADDRESS_PATTERNS: first every match of the Solana pattern, then every
    match of the EVM pattern, then every match of the URL pattern, each
    tagged with its own type, and inside one pattern from left to right.
    The order is not the order of the text: in the example the EVM address
    comes first although the URL stands before it. *)
Theorem scan_grouped_by_pattern :
  (forall text : string,
     let content := strip text in
     scan text
     = tagged "Solana" (findall solana_pattern content)
       ++ tagged "EVM (Ethereum/BSC)" (findall evm_pattern content)
       ++ tagged "URL" (findall url_pattern content)
     /\ in_text_order (findall solana_pattern content) content
     /\ in_text_order (findall evm_pattern content) content
     /\ in_text_order (findall url_pattern content) content)
  /\ scan "https://dex.example/t 0x00000000000000000000000000000000000000aa"
     = [("0x00000000000000000000000000000000000000aa", "EVM (Ethereum/BSC)");
        ("https://dex.example/t", "URL")].
Proof.
  split; [|reflexivity].
  intros text content. unfold scan. fold content.
  rewrite find_addresses_by_pattern.
  repeat split; try done; apply findall_in_order.
Qed.

(** C1 (amended). For a text made of [0x] and 40 hex digits, the scan
    reports the whole text once, as an EVM address, and reports no URL. It
    reports a Solana match as well exactly when the text has 32 base58
    characters in a row: the patterns are searched independently, and the
    [x] and every hex digit but [0] are base58 characters. *)
Theorem evm_text_scan (h : string) :
  String.length h = 40 -> all_chars is_hex h = true ->
  let s := "0x" +:+ h in
  scan s = tagged "Solana" (findall solana_pattern s)
           ++ [(s, "EVM (Ethereum/BSC)")]
  /\ (findall solana_pattern s = [] <-> ~ has_run is_base58 32 s).
Proof.
  intros Hlen Hhex s.
  assert (matches evm_pattern s) as Hevm.
  { unfold evm_pattern, s. simpl. do 2 constructor.
    rewrite <- (str_app_nil_r h). constructor; simpl; try done; try lia.
    constructor. }
  assert (strip s = s) as Hstrip.
  { apply strip_id. simpl. apply (all_chars_impl _ _ _ hex_not_space Hhex). }
  assert (findall evm_pattern s = [s]) as Hfind.
  { destruct (search_complete evm_pattern s "" Hevm) as [m Hm].
    rewrite str_app_nil_r in Hm.
    unfold findall. change s with (String "0" (String "x" h)) in *.
    rewrite findall_from_cons, Hm.
    apply search_matches in Hm as [Hm [rest Hrest]].
    apply evm_match_shape in Hm as (h' & -> & Hlen' & _).
    assert (rest = "") as ->.
    { apply (str_app_length_eq (String "0" (String "x" h'))).
      rewrite <- Hrest. simpl. lia. }
    rewrite str_app_nil_r in Hrest. rewrite <- Hrest. f_equal.
    apply findall_from_too_short; [done|]. simpl. lia. }
  assert (findall url_pattern s = []) as Hurl.
  { apply findall_url_without_h. simpl.
    apply (all_chars_impl _ _ _ hex_not_h Hhex). }
  split.
  - unfold scan. rewrite Hstrip, find_addresses_by_pattern, Hfind, Hurl.
    reflexivity.
  - rewrite <- findall_solana_run.
    destruct (findall solana_pattern s) as [|m ms]; split.
    + intros _ Hne. now apply Hne.
    + reflexivity.
    + discriminate.
    + intros Hne. destruct Hne. discriminate.
Qed.

(** A text with a zero in every window of 32 characters. *)
Lemma evm_text_scan_witness :
  String.length "00000000000000000000000000000000000000aa" = 40
  /\ all_chars is_hex "00000000000000000000000000000000000000aa" = true
  /\ scan "0x00000000000000000000000000000000000000aa"
     = [("0x00000000000000000000000000000000000000aa", "EVM (Ethereum/BSC)")].
Proof.
  split; [reflexivity|]. split; [reflexivity|].
  destruct (evm_text_scan "00000000000000000000000000000000000000aa"
              eq_refl eq_refl) as [Hscan _].
  exact Hscan.
Defined.

(** Forty digits 1 after the prefix: the [x] and the digits make a run of
    41 base58 characters, which the Solana pattern matches. *)
Lemma evm_text_with_solana_match :
  String.length "1111111111111111111111111111111111111111" = 40
  /\ all_chars is_hex "1111111111111111111111111111111111111111" = true
  /\ scan "0x1111111111111111111111111111111111111111"
     = [("x1111111111111111111111111111111111111111", "Solana");
        ("0x1111111111111111111111111111111111111111", "EVM (Ethereum/BSC)")].
Proof. repeat split. Qed.

(** ** The resolvers *)

(** *** Running request trees *)

Lemma run_from_bind {A B : Type} (p : prog A) (f : A -> prog B) (w : world) :
  forall n,
  run_from w n (bind p f)
  = match run_from w n p with
    | (t, Ok a) =>
        let '(t', r) := run_from w (n + length t) (f a) in (t ++ t', r)
    | (t, Raise e) => (t, Raise e)
    end.
Proof.
  induction p as [a|e|url k IH|m k IH|target m k IH|k IH]; intros n; simpl.
  - rewrite Nat.add_0_r. now destruct (run_from w n (f a)).
  - reflexivity.
  - rewrite IH. destruct (run_from w (S n) (k _)) as [t [a|e]]; [|reflexivity].
    cbn [length]. rewrite <- plus_n_Sm.
    change (S n + length t) with (S (n + length t)).
    now destruct (run_from w (S (n + length t)) (f a)).
  - rewrite IH. destruct (run_from w (S n) (k _)) as [t [a|e]]; [|reflexivity].
    cbn [length]. rewrite <- plus_n_Sm.
    change (S n + length t) with (S (n + length t)).
    now destruct (run_from w (S (n + length t)) (f a)).
  - rewrite IH. destruct (run_from w (S n) (k _)) as [t [a|e]]; [|reflexivity].
    cbn [length]. rewrite <- plus_n_Sm.
    change (S n + length t) with (S (n + length t)).
    now destruct (run_from w (S (n + length t)) (f a)).
  - rewrite IH. destruct (run_from w (S n) (k _)) as [t [a|e]]; [|reflexivity].
    cbn [length]. rewrite <- plus_n_Sm.
    change (S n + length t) with (S (n + length t)).
    now destruct (run_from w (S (n + length t)) (f a)).
Qed.

Lemma run_from_try {A : Type} (p : prog A) (h : exn -> prog A) (w : world) :
  forall n,
  run_from w n (try_except p h)
  = match run_from w n p with
    | (t, Ok a) => (t, Ok a)
    | (t, Raise e) =>
        let '(t', r) := run_from w (n + length t) (h e) in (t ++ t', r)
    end.
Proof.
  induction p as [a|e|url k IH|m k IH|target m k IH|k IH]; intros n; simpl.
  - reflexivity.
  - rewrite Nat.add_0_r. now destruct (run_from w n (h e)).
  - rewrite IH. destruct (run_from w (S n) (k _)) as [t [a|e]]; [reflexivity|].
    cbn [length]. rewrite <- plus_n_Sm.
    change (S n + length t) with (S (n + length t)).
    now destruct (run_from w (S (n + length t)) (h e)).
  - rewrite IH. destruct (run_from w (S n) (k _)) as [t [a|e]]; [reflexivity|].
    cbn [length]. rewrite <- plus_n_Sm.
    change (S n + length t) with (S (n + length t)).
    now destruct (run_from w (S (n + length t)) (h e)).
  - rewrite IH. destruct (run_from w (S n) (k _)) as [t [a|e]]; [reflexivity|].
    cbn [length]. rewrite <- plus_n_Sm.
    change (S n + length t) with (S (n + length t)).
    now destruct (run_from w (S (n + length t)) (h e)).
  - rewrite IH. destruct (run_from w (S n) (k _)) as [t [a|e]]; [reflexivity|].
    cbn [length]. rewrite <- plus_n_Sm.
    change (S n + length t) with (S (n + length t)).
    now destruct (run_from w (S (n + length t)) (h e)).
Qed.

Lemma run_from_lift {A : Type} (x : exc A) (w : world) (n : nat) :
  run_from w n (lift x) = ([], x).
Proof. now destruct x. Qed.

Section ResolverFacts.
Context `{PyBuiltins}.

Lemma run_from_consult (w : world) (n : nat) (url : string)
    (fields : value -> exc (option (gmap string value)))
    (token_data : gmap string value) :
  run_from w n (consult url fields token_data)
  = ([Requested url],
     Ok (updated token_data (contribution (http w n url) fields))).
Proof.
  unfold consult, session_get, contribution, updated. simpl.
  destruct (http w n url) as [resp|e]; simpl; [|reflexivity].
  destruct (status resp =? 200)%Z; simpl; [|reflexivity].
  destruct (json resp) as [data|e]; simpl; [|reflexivity].
  destruct (fields data) as [[new|]|e]; reflexivity.
Qed.

Lemma updated_keeps (token_data : gmap string value) found (key : string) :
  is_Some (token_data !! key) -> is_Some (updated token_data found !! key).
Proof.
  destruct found as [new|]; simpl; [|done].
  intros Hkey. unfold py_update. apply lookup_union_is_Some. now right.
Qed.

(** The Solana resolver, read as a function of what its three sources
    contribute. *)
Lemma run_get_solana (w : world) (n : nat) (address : string) :
  let dex := contribution (http w n (dexscreener_url address)) solana_dex_fields in
  let td1 := updated solana_defaults dex in
  let ask_jupiter := negb (py_truthy (dict_get td1 "success" VNone)) in
  let jup := contribution (http w (S n) (jupiter_url address)) (jupiter_fields address) in
  let td2 := if ask_jupiter then updated td1 jup else td1 in
  let n2 := if ask_jupiter then S (S n) else S n in
  let ask_solscan := py_eq_str (dict_get td2 "name" VNone) "Unknown Token" in
  let sol := contribution (http w n2 (solscan_url address)) solscan_fields in
  let td3 := if ask_solscan then updated td2 sol else td2 in
  run_from w n (get_solana_token_data address)
  = (Requested (dexscreener_url address)
       :: (if ask_jupiter then [Requested (jupiter_url address)] else [])
       ++ (if ask_solscan then [Requested (solscan_url address)] else []),
     Ok td3).
Proof.
  intros dex td1 ask_jupiter jup td2 n2 ask_solscan sol td3.
  unfold get_solana_token_data.
  rewrite run_from_try, run_from_bind, run_from_consult. fold dex td1.
  cbn [length app]. rewrite run_from_bind.
  assert (is_Some (td2 !! "name")) as [name Hname].
  { unfold td2. destruct ask_jupiter; repeat apply updated_keeps; done. }
  assert (run_from w (n + 1)
            (if negb (py_truthy (dict_get td1 "success" VNone))
             then consult (jupiter_url address) (jupiter_fields address) td1
             else Ret td1)
          = ((if ask_jupiter then [Requested (jupiter_url address)] else []),
             Ok td2)) as ->.
  { fold ask_jupiter. unfold td2, jup. replace (n + 1) with (S n) by lia.
    destruct ask_jupiter; [apply run_from_consult | reflexivity]. }
  rewrite run_from_bind. unfold py_item. rewrite Hname, run_from_lift.
  cbn [length app]. rewrite run_from_bind.
  assert (n + 1 + length (if ask_jupiter then [Requested (jupiter_url address)] else [])
          + 0 = n2) as ->.
  { unfold n2. destruct ask_jupiter; simpl; lia. }
  assert (py_eq_str name "Unknown Token" = ask_solscan) as ->.
  { unfold ask_solscan, dict_get. now rewrite Hname. }
  assert (run_from w n2
            (if ask_solscan
             then consult (solscan_url address) solscan_fields td2
             else Ret td2)
          = ((if ask_solscan then [Requested (solscan_url address)] else []),
             Ok td3)) as ->.
  { unfold td3, sol. destruct ask_solscan; [apply run_from_consult | reflexivity]. }
  cbn [run_from]. rewrite !app_nil_r. reflexivity.
Qed.

(** The EVM resolver, read as a function of what its two sources
    contribute. *)
Lemma run_get_evm (w : world) (n : nat) (address : string) :
  let dex := contribution (http w n (dexscreener_url address)) evm_dex_fields in
  let td1 := updated evm_defaults dex in
  let ask_coingecko := negb (py_truthy (dict_get td1 "success" VNone)) in
  let gecko :=
    contribution (http w (S n) (coingecko_url address)) (coingecko_fields address) in
  let td2 := if ask_coingecko then updated td1 gecko else td1 in
  run_from w n (get_evm_token_data address)
  = (Requested (dexscreener_url address)
       :: (if ask_coingecko then [Requested (coingecko_url address)] else []),
     Ok td2).
Proof.
  intros dex td1 ask_coingecko gecko td2.
  unfold get_evm_token_data.
  rewrite run_from_try, run_from_bind, run_from_consult. fold dex td1.
  cbn [length app]. rewrite run_from_bind.
  assert (run_from w (n + 1)
            (if negb (py_truthy (dict_get td1 "success" VNone))
             then consult (coingecko_url address) (coingecko_fields address) td1
             else Ret td1)
          = ((if ask_coingecko then [Requested (coingecko_url address)] else []),
             Ok td2)) as ->.
  { fold ask_coingecko. unfold td2, gecko. replace (n + 1) with (S n) by lia.
    destruct ask_coingecko; [apply run_from_consult | reflexivity]. }
  cbn [run_from]. rewrite !app_nil_r. reflexivity.
Qed.

End ResolverFacts.

(** *** The order of binary64 floats, away from NaN *)

Ltac compare_cases :=
  repeat match goal with
         | H : context [Pos.compare_cont Eq ?a ?b] |- _ =>
             change (Pos.compare_cont Eq a b) with (Pos.compare a b) in H
         | |- context [Pos.compare_cont Eq ?a ?b] =>
             change (Pos.compare_cont Eq a b) with (Pos.compare a b)
         end;
  repeat match goal with
         | H : context [Z.compare ?a ?b] |- _ =>
             destruct (Z.compare_spec a b); simpl in H; try discriminate H
         | |- context [Z.compare ?a ?b] =>
             destruct (Z.compare_spec a b); simpl
         | H : context [Pos.compare ?a ?b] |- _ =>
             destruct (Pos.compare_spec a b); simpl in H; try discriminate H
         | |- context [Pos.compare ?a ?b] =>
             destruct (Pos.compare_spec a b); simpl
         end;
  try reflexivity; try discriminate; try lia.

Ltac sf_order :=
  unfold SFleb, SFltb, SFeqb, SFcompare;
  repeat match goal with x : spec_float |- _ => destruct x as [[]|[]| |[] ? ?] end;
  simpl; try reflexivity; try discriminate; intros;
  try discriminate; compare_cases.

Lemma SFltb_leb (x y : spec_float) : SFltb x y = true -> SFleb x y = true.
Proof. sf_order. Qed.

Lemma SFltb_false_leb (x y : spec_float) :
  SFeqb x x = true -> SFeqb y y = true -> SFltb x y = false -> SFleb y x = true.
Proof. sf_order. Qed.

Lemma SFltb_not_leb (x y : spec_float) : SFltb x y = true -> SFleb y x = false.
Proof. sf_order. Qed.

Lemma SFltb_not_eqb (x y : spec_float) : SFltb x y = true -> SFeqb y x = false.
Proof. sf_order. Qed.

Lemma SFleb_trans (x y z : spec_float) :
  SFleb x y = true -> SFleb y z = true -> SFleb x z = true.
Proof. sf_order. Qed.

Lemma SFleb_ltb_trans (x y z : spec_float) :
  SFleb x y = true -> SFltb y z = true -> SFltb x z = true.
Proof. sf_order. Qed.

Lemma SFleb_refl (x : spec_float) : SFeqb x x = true -> SFleb x x = true.
Proof. sf_order. Qed.

Lemma is_nan_false (x : float) : is_nan x = false -> SFeqb (Prim2SF x) (Prim2SF x) = true.
Proof.
  unfold is_nan. rewrite FloatAxioms.eqb_spec. intros Hx. now apply negb_false_iff in Hx.
Qed.

Lemma float_ltb_leb (x y : float) : (x <? y)%float = true -> (x <=? y)%float = true.
Proof. rewrite FloatAxioms.ltb_spec, FloatAxioms.leb_spec. apply SFltb_leb. Qed.

Lemma float_ltb_false_leb (x y : float) :
  is_nan x = false -> is_nan y = false ->
  (x <? y)%float = false -> (y <=? x)%float = true.
Proof.
  intros Hx%is_nan_false Hy%is_nan_false. rewrite FloatAxioms.ltb_spec, FloatAxioms.leb_spec.
  now apply SFltb_false_leb.
Qed.

Lemma float_ltb_not_leb (x y : float) :
  (x <? y)%float = true -> (y <=? x)%float = false.
Proof. rewrite FloatAxioms.ltb_spec, FloatAxioms.leb_spec. apply SFltb_not_leb. Qed.

Lemma float_ltb_not_eqb (x y : float) :
  (x <? y)%float = true -> (y =? x)%float = false.
Proof. rewrite FloatAxioms.ltb_spec, FloatAxioms.eqb_spec. apply SFltb_not_eqb. Qed.

Lemma float_leb_trans (x y z : float) :
  (x <=? y)%float = true -> (y <=? z)%float = true -> (x <=? z)%float = true.
Proof. rewrite !FloatAxioms.leb_spec. apply SFleb_trans. Qed.

Lemma float_leb_ltb_trans (x y z : float) :
  (x <=? y)%float = true -> (y <? z)%float = true -> (x <? z)%float = true.
Proof. rewrite !FloatAxioms.leb_spec, !FloatAxioms.ltb_spec. apply SFleb_ltb_trans. Qed.

Lemma float_leb_refl (x : float) : is_nan x = false -> (x <=? x)%float = true.
Proof. intros Hx%is_nan_false. rewrite FloatAxioms.leb_spec. now apply SFleb_refl. Qed.

(** *** [max] returns the first of the greatest *)

Section MaxFacts.
Context `{PyBuiltins}.
Variable key : value -> exc float.

Lemma max_loop_first_greatest (rest : list value) :
  forall (seen : list value) (ks_seen ks_rest : list float)
         (best : value) (best_key : float) (i : nat),
  Forall2 (fun p k => key p = Ok k) rest ks_rest ->
  Forall (fun k => is_nan k = false) (ks_seen ++ ks_rest) ->
  length seen = length ks_seen ->
  seen !! i = Some best -> first_greatest ks_seen i best_key ->
  exists j sel sel_key,
    max_loop key best best_key rest = Ok sel
    /\ (seen ++ rest) !! j = Some sel
    /\ first_greatest (ks_seen ++ ks_rest) j sel_key.
Proof.
  induction rest as [|p rest IH];
    intros seen ks_seen ks_rest best best_key i Hkeys Hnan Hlen Hbest Hfirst.
  - inversion Hkeys; subst. exists i, best, best_key.
    rewrite !app_nil_r. auto.
  - inversion Hkeys as [|p' k rest' ks' Hk Hrest]; subst.
    simpl. rewrite Hk. simpl.
    assert (is_nan k = false) as Hknan.
    { rewrite Forall_app in Hnan. destruct Hnan as [_ Hnan].
      now inversion Hnan. }
    assert (is_nan best_key = false) as Hbnan.
    { rewrite Forall_app in Hnan. destruct Hnan as [Hnan _].
      rewrite Forall_forall in Hnan. apply Hnan.
      destruct Hfirst as [Hi _]. now apply list_elem_of_lookup_2 in Hi. }
    replace (seen ++ p :: rest) with ((seen ++ [p]) ++ rest)
      by now rewrite <- app_assoc.
    replace (ks_seen ++ k :: ks') with ((ks_seen ++ [k]) ++ ks') in *
      by now rewrite <- app_assoc.
    assert (length (seen ++ [p]) = length (ks_seen ++ [k])) as Hlen'.
    { rewrite !length_app. simpl. lia. }
    destruct Hfirst as [Hi Hall].
    assert (i < length ks_seen) as Hlt by (apply lookup_lt_Some in Hi; lia).
    destruct (best_key <? k)%float eqn:Hcmp.
    + apply (IH (seen ++ [p]) (ks_seen ++ [k]) ks' p k (length seen));
        try done.
      * rewrite lookup_app_r by lia. now rewrite Nat.sub_diag.
      * split.
        { rewrite Hlen, lookup_app_r by lia. now rewrite Nat.sub_diag. }
        intros j kj Hj. destruct (decide (j < length ks_seen)) as [Hj'|Hj'].
        -- rewrite lookup_app_l in Hj by done.
           destruct (Hall j kj Hj) as [Hle _].
           pose proof (float_leb_ltb_trans _ _ _ Hle Hcmp) as Hlt'.
           split; [now apply float_ltb_leb | done].
        -- rewrite lookup_app_r in Hj by lia.
           destruct (j - length ks_seen) as [|d] eqn:Hd; [|done].
           injection Hj as <-. split; [now apply float_leb_refl | lia].
    + apply (IH (seen ++ [p]) (ks_seen ++ [k]) ks' best best_key i);
        try done.
      * rewrite lookup_app_l; [done | lia].
      * split; [rewrite lookup_app_l; done|].
        intros j kj Hj. destruct (decide (j < length ks_seen)) as [Hj'|Hj'].
        -- rewrite lookup_app_l in Hj by done. now apply Hall.
        -- rewrite lookup_app_r in Hj by lia.
           destruct (j - length ks_seen) as [|d] eqn:Hd; [|done].
           injection Hj as <-. split; [now apply float_ltb_false_leb | lia].
Qed.

Lemma py_max_first_greatest (items : list value) (ks : list float) :
  items <> [] ->
  Forall2 (fun p k => key p = Ok k) items ks ->
  Forall (fun k => is_nan k = false) ks ->
  exists i sel sel_key,
    py_max key items = Ok sel /\ items !! i = Some sel
    /\ first_greatest ks i sel_key.
Proof.
  intros Hne Hkeys Hnan.
  destruct Hkeys as [|p k rest ks_rest Hk Hrest]; [done|].
  simpl. rewrite Hk. simpl.
  apply (max_loop_first_greatest rest [p] [k] ks_rest p k 0); try done.
  split; [done|]. intros [|j] kj Hj; [|done].
  injection Hj as <-. split; [|lia].
  apply float_leb_refl. now inversion Hnan.
Qed.

End MaxFacts.

(** *** What each source can contribute *)

Lemma exc_bind_ok {A B : Type} (x : exc A) (f : A -> exc B) (b : B) :
  exc_bind x f = Ok b -> exists a, x = Ok a /\ f a = Ok b.
Proof. destruct x as [a|e]; simpl; [eauto | discriminate]. Qed.

Ltac invert_ok :=
  repeat match goal with
         | H : exc_bind _ _ = Ok _ |- _ =>
             let a := fresh "a" in
             let E := fresh "E" in
             apply exc_bind_ok in H as (a & E & H)
         | H : Ok _ = Ok _ |- _ => injection H as H
         end.

Section SourceFacts.
Context `{PyBuiltins}.

Lemma number_at_float (x : value) (key : string) (v : value) :
  number_at x key = Ok v -> exists f, v = VFloat f.
Proof. unfold number_at. intros Hv. invert_ok. subst. eauto. Qed.

Lemma number_in_float (x : value) (outer inner : string) (v : value) :
  number_in x outer inner = Ok v -> exists f, v = VFloat f.
Proof.
  unfold number_in. intros Hv. invert_ok. now apply number_at_float in Hv.
Qed.

Ltac floats :=
  repeat match goal with
         | H : number_at _ _ = Ok _ |- _ => apply number_at_float in H as [? ->]
         | H : number_in _ _ _ = Ok _ |- _ => apply number_in_float in H as [? ->]
         end.

Lemma solana_pair_fields_shape (p : value) (new : gmap string value) :
  solana_pair_fields p = Ok new ->
  exists name symbol price volume liquidity fdv cap change24 change1,
    new = dict [("name", name); ("symbol", symbol); ("price", VFloat price);
                ("volume24h", VFloat volume); ("liquidity", VFloat liquidity);
                ("fdv", VFloat fdv); ("marketCap", VFloat cap);
                ("priceChange24h", VFloat change24);
                ("priceChange1h", VFloat change1); ("success", VBool true)].
Proof.
  unfold solana_pair_fields. intros Hnew. invert_ok. floats. subst.
  repeat eexists.
Qed.

Lemma evm_pair_fields_shape (p : value) (new : gmap string value) :
  evm_pair_fields p = Ok new ->
  exists name symbol price volume liquidity cap change24 change1,
    new = dict [("name", name); ("symbol", symbol); ("price", VFloat price);
                ("volume24h", VFloat volume); ("liquidity", VFloat liquidity);
                ("marketCap", VFloat cap);
                ("priceChange24h", VFloat change24);
                ("priceChange1h", VFloat change1); ("success", VBool true)].
Proof.
  unfold evm_pair_fields. intros Hnew. invert_ok. floats. subst.
  repeat eexists.
Qed.

Lemma coingecko_record_fields_shape (record : value) (new : gmap string value) :
  coingecko_record_fields record = Ok new ->
  exists price change24 volume cap,
    new = dict [("price", VFloat price); ("priceChange24h", VFloat change24);
                ("volume24h", VFloat volume); ("marketCap", VFloat cap);
                ("success", VBool true)].
Proof.
  unfold coingecko_record_fields. intros Hnew. invert_ok. floats. subst.
  repeat eexists.
Qed.

Lemma solana_dex_contribution (r : exc response) (new : gmap string value) :
  contribution r solana_dex_fields = Some new ->
  exists p, solana_pair_fields p = Ok new.
Proof.
  unfold contribution, solana_dex_fields.
  destruct r as [resp|]; [|done]. destruct (status resp =? 200)%Z; [|done].
  destruct (json resp) as [data|]; [|done].
  destruct (most_liquid_pair data) as [[p|]|]; simpl; try discriminate.
  destruct (solana_pair_fields p) as [new'|] eqn:Hp; simpl; [|discriminate].
  intros [= <-]. eauto.
Qed.

Lemma evm_dex_contribution (r : exc response) (new : gmap string value) :
  contribution r evm_dex_fields = Some new ->
  exists p, evm_pair_fields p = Ok new.
Proof.
  unfold contribution, evm_dex_fields.
  destruct r as [resp|]; [|done]. destruct (status resp =? 200)%Z; [|done].
  destruct (json resp) as [data|]; [|done].
  destruct (most_liquid_pair data) as [[p|]|]; simpl; try discriminate.
  destruct (evm_pair_fields p) as [new'|] eqn:Hp; simpl; [|discriminate].
  intros [= <-]. eauto.
Qed.

Lemma jupiter_contribution (address : string) (r : exc response)
    (new : gmap string value) :
  contribution r (jupiter_fields address) = Some new ->
  exists price, new = dict [("price", VFloat price); ("success", VBool true)].
Proof.
  unfold contribution.
  destruct r as [resp|]; [|done]. destruct (status resp =? 200)%Z; [|done].
  destruct (json resp) as [data|]; [|done].
  destruct (jupiter_fields address data) as [found|] eqn:Hf; [|done].
  intros ->. unfold jupiter_fields in Hf.
  apply exc_bind_ok in Hf as (prices & _ & Hf).
  apply exc_bind_ok in Hf as (price_data & _ & Hf).
  destruct (py_truthy price_data); [|discriminate].
  apply exc_bind_ok in Hf as (v & _ & Hf).
  apply exc_bind_ok in Hf as (price & _ & Hf).
  injection Hf as <-. eauto.
Qed.

Lemma solscan_contribution (r : exc response) (new : gmap string value) :
  contribution r solscan_fields = Some new ->
  exists name symbol, new = dict [("name", name); ("symbol", symbol)].
Proof.
  unfold contribution.
  destruct r as [resp|]; [|done]. destruct (status resp =? 200)%Z; [|done].
  destruct (json resp) as [data|]; [|done].
  destruct (solscan_fields data) as [found|] eqn:Hf; [|done].
  intros ->. unfold solscan_fields in Hf.
  apply exc_bind_ok in Hf as (named & _ & Hf).
  destruct named; [|discriminate].
  apply exc_bind_ok in Hf as (name & _ & Hf).
  apply exc_bind_ok in Hf as (symbol & _ & Hf).
  injection Hf as <-. eauto.
Qed.

Lemma coingecko_contribution (address : string) (r : exc response)
    (new : gmap string value) :
  contribution r (coingecko_fields address) = Some new ->
  exists record, coingecko_record_fields record = Ok new.
Proof.
  unfold contribution.
  destruct r as [resp|]; [|done]. destruct (status resp =? 200)%Z; [|done].
  destruct (json resp) as [data|]; [|done].
  destruct (coingecko_fields address data) as [found|] eqn:Hf; [|done].
  intros ->. unfold coingecko_fields in Hf.
  apply exc_bind_ok in Hf as (token_info & _ & Hf).
  destruct (py_truthy token_info); [|discriminate].
  apply exc_bind_ok in Hf as (fields & Hfields & Hf).
  injection Hf as <-. eauto.
Qed.

Lemma metadata_only (name symbol : value) (key : string) :
  key <> "name" -> key <> "symbol" ->
  dict [("name", name); ("symbol", symbol)] !! key = None.
Proof.
  intros Hname Hsymbol. unfold dict. simpl.
  rewrite !lookup_insert_ne by done. apply lookup_empty.
Qed.

End SourceFacts.

(** *** Records stay complete *)

Lemma lookup_py_update (token_data new : gmap string value) (key : string) :
  py_update token_data new !! key
  = match new !! key with Some v => Some v | None => token_data !! key end.
Proof.
  unfold py_update. rewrite lookup_union.
  destruct (new !! key), (token_data !! key); reflexivity.
Qed.

(** Evaluates the lookups of a key in a dictionary display. *)
Ltac dict_lookup :=
  repeat match goal with
         | |- context [dict ?l !! ?k] =>
             let r := eval vm_compute in (dict l !! k) in
             change (dict l !! k) with r
         end.

Ltac each_key Hin :=
  simpl in Hin;
  repeat (destruct Hin as [<-|Hin]; [|try (exfalso; exact Hin)]).

Lemma complete_update (numeric : list string)
    (token_data new : gmap string value) :
  (new !! "success" = None \/ exists b, new !! "success" = Some (VBool b)) ->
  (forall key, In key numeric ->
     new !! key = None \/ exists f, new !! key = Some (VFloat f)) ->
  complete_record numeric token_data ->
  complete_record numeric (py_update token_data new).
Proof.
  intros Hsuccess Hnew [Hb Hnum]. split.
  - rewrite lookup_py_update. now destruct Hsuccess as [->|[b ->]]; eauto.
  - intros key Hkey. rewrite lookup_py_update.
    destruct (Hnew key Hkey) as [->|[f ->]]; [auto|].
    exists (VFloat f). now split.
Qed.

Lemma complete_updated (numeric : list string)
    (token_data : gmap string value) (found : option (gmap string value)) :
  (forall new, found = Some new ->
     (new !! "success" = None \/ exists b, new !! "success" = Some (VBool b))
     /\ (forall key, In key numeric ->
           new !! key = None \/ exists f, new !! key = Some (VFloat f))) ->
  complete_record numeric token_data ->
  complete_record numeric (updated token_data found).
Proof.
  destruct found as [new|]; simpl; [|done].
  intros Hnew. destruct (Hnew new eq_refl). now apply complete_update.
Qed.

Lemma solana_defaults_complete :
  complete_record solana_numeric_fields solana_defaults.
Proof.
  split; [now exists false|].
  intros key Hkey. each_key Hkey; exists (VInt 0); now split.
Qed.

Lemma evm_defaults_complete :
  complete_record evm_numeric_fields evm_defaults.
Proof.
  split; [now exists false|].
  intros key Hkey. each_key Hkey; exists (VInt 0); now split.
Qed.

Section RecordFacts.
Context `{PyBuiltins}.

Ltac shape_facts :=
  subst; split;
  [ dict_lookup; eauto
  | let key := fresh "key" in
    let Hkey := fresh "Hkey" in
    intros key Hkey; each_key Hkey; dict_lookup; eauto ].

Lemma solana_dex_keeps_complete (r : exc response)
    (token_data : gmap string value) :
  complete_record solana_numeric_fields token_data ->
  complete_record solana_numeric_fields
    (updated token_data (contribution r solana_dex_fields)).
Proof.
  apply complete_updated. intros new [p Hp]%solana_dex_contribution.
  apply solana_pair_fields_shape in Hp
    as (name & symbol & f1 & f2 & f3 & f4 & f5 & f6 & f7 & ->).
  shape_facts.
Qed.

Lemma jupiter_keeps_complete (address : string) (r : exc response)
    (numeric : list string) (token_data : gmap string value) :
  incl numeric solana_numeric_fields ->
  complete_record numeric token_data ->
  complete_record numeric
    (updated token_data (contribution r (jupiter_fields address))).
Proof.
  intros Hincl. apply complete_updated.
  intros new [price ->]%jupiter_contribution. split; [dict_lookup; eauto|].
  intros key Hkey%Hincl. each_key Hkey; dict_lookup; eauto.
Qed.

Lemma solscan_keeps_complete (r : exc response)
    (token_data : gmap string value) :
  complete_record solana_numeric_fields token_data ->
  complete_record solana_numeric_fields
    (updated token_data (contribution r solscan_fields)).
Proof.
  apply complete_updated. intros new (name & symbol & ->)%solscan_contribution.
  shape_facts.
Qed.

Lemma evm_dex_keeps_complete (r : exc response)
    (token_data : gmap string value) :
  complete_record evm_numeric_fields token_data ->
  complete_record evm_numeric_fields
    (updated token_data (contribution r evm_dex_fields)).
Proof.
  apply complete_updated. intros new [p Hp]%evm_dex_contribution.
  apply evm_pair_fields_shape in Hp
    as (name & symbol & f1 & f2 & f3 & f4 & f5 & f6 & ->).
  shape_facts.
Qed.

Lemma coingecko_keeps_complete (address : string) (r : exc response)
    (token_data : gmap string value) :
  complete_record evm_numeric_fields token_data ->
  complete_record evm_numeric_fields
    (updated token_data (contribution r (coingecko_fields address))).
Proof.
  apply complete_updated. intros new [record Hr]%coingecko_contribution.
  apply coingecko_record_fields_shape in Hr as (f1 & f2 & f3 & f4 & ->).
  shape_facts.
Qed.

Lemma evm_dex_no_fdv (r : exc response) (token_data : gmap string value) :
  token_data !! "fdv" = None ->
  updated token_data (contribution r evm_dex_fields) !! "fdv" = None.
Proof.
  intros Htd. destruct (contribution r evm_dex_fields) as [new|] eqn:Hnew;
    simpl; [|done].
  apply evm_dex_contribution in Hnew as [p Hp].
  apply evm_pair_fields_shape in Hp
    as (name & symbol & f1 & f2 & f3 & f4 & f5 & f6 & ->).
  rewrite lookup_py_update. now dict_lookup.
Qed.

Lemma coingecko_no_fdv (address : string) (r : exc response)
    (token_data : gmap string value) :
  token_data !! "fdv" = None ->
  updated token_data (contribution r (coingecko_fields address)) !! "fdv" = None.
Proof.
  intros Htd.
  destruct (contribution r (coingecko_fields address)) as [new|] eqn:Hnew;
    simpl; [|done].
  apply coingecko_contribution in Hnew as [record Hr].
  apply coingecko_record_fields_shape in Hr as (f1 & f2 & f3 & f4 & ->).
  rewrite lookup_py_update. now dict_lookup.
Qed.

(** C2 (amended). Whatever the sources answer, neither resolver raises:
    each returns a record whose [success] entry is a boolean and whose
    numeric entries are all present and hold numbers. The numeric entries
    are price, volume24h, liquidity, marketCap, priceChange1h and
    priceChange24h, and for Solana also fdv; the EVM record never has an
    fdv entry. When every request fails the record is the initial one,
    where each numeric entry is the integer 0. *)
Theorem resolvers_never_raise (w : world) (n : nat) (address : string) :
  (exists token_data,
     snd (run_from w n (get_solana_token_data address)) = Ok token_data
     /\ complete_record solana_numeric_fields token_data
     /\ ((forall m url, exists e, http w m url = Raise e) ->
         token_data = solana_defaults))
  /\ (exists token_data,
     snd (run_from w n (get_evm_token_data address)) = Ok token_data
     /\ complete_record evm_numeric_fields token_data
     /\ token_data !! "fdv" = None
     /\ ((forall m url, exists e, http w m url = Raise e) ->
         token_data = evm_defaults))
  /\ (forall key, In key solana_numeric_fields ->
        solana_defaults !! key = Some (VInt 0))
  /\ (forall key, In key evm_numeric_fields ->
        evm_defaults !! key = Some (VInt 0)).
Proof.
  split; [|split; [|split]].
  - pose proof (run_get_solana w n address) as Hrun. cbv zeta in Hrun.
    rewrite Hrun. eexists. split; [reflexivity|]. split.
    + repeat match goal with
             | |- complete_record _ (if ?c then _ else _) => destruct c
             | |- complete_record _ (updated _ (contribution _ solscan_fields)) =>
                 apply solscan_keeps_complete
             | |- complete_record _ (updated _ (contribution _ (jupiter_fields _))) =>
                 apply jupiter_keeps_complete; [apply incl_refl|]
             | |- complete_record _ (updated _ (contribution _ solana_dex_fields)) =>
                 apply solana_dex_keeps_complete
             | |- complete_record _ solana_defaults =>
                 apply solana_defaults_complete
             end.
    + intros Hdown.
      assert (forall m url fields, contribution (http w m url) fields = None)
        as Hnone.
      { intros m url fields. now destruct (Hdown m url) as [e ->]. }
      rewrite !Hnone.
      repeat match goal with
             | |- context [if ?c then _ else _] => destruct c
             end; reflexivity.
  - pose proof (run_get_evm w n address) as Hrun. cbv zeta in Hrun.
    rewrite Hrun. eexists. split; [reflexivity|]. split; [|split].
    + repeat match goal with
             | |- complete_record _ (if ?c then _ else _) => destruct c
             | |- complete_record _ (updated _ (contribution _ (coingecko_fields _))) =>
                 apply coingecko_keeps_complete
             | |- complete_record _ (updated _ (contribution _ evm_dex_fields)) =>
                 apply evm_dex_keeps_complete
             | |- complete_record _ evm_defaults =>
                 apply evm_defaults_complete
             end.
    + repeat match goal with
             | |- (if ?c then _ else _) !! _ = _ => destruct c
             | |- updated _ (contribution _ (coingecko_fields _)) !! _ = _ =>
                 apply coingecko_no_fdv
             | |- updated _ (contribution _ evm_dex_fields) !! _ = _ =>
                 apply evm_dex_no_fdv
             | |- evm_defaults !! _ = _ => reflexivity
             end.
    + intros Hdown.
      assert (forall m url fields, contribution (http w m url) fields = None)
        as Hnone.
      { intros m url fields. now destruct (Hdown m url) as [e ->]. }
      rewrite !Hnone.
      repeat match goal with
             | |- context [if ?c then _ else _] => destruct c
             end; reflexivity.
  - intros key Hkey. each_key Hkey; reflexivity.
  - intros key Hkey. each_key Hkey; reflexivity.
Qed.

End RecordFacts.

Lemma py_eq_str_true (v : value) (s : string) :
  py_eq_str v s = true -> v = VStr s.
Proof.
  destruct v; simpl; try discriminate. now intros ->%String.eqb_eq.
Qed.

Section ResolverTheorems.
Context `{PyBuiltins}.

Lemma contribution_ok_json (data : value)
    (fields : value -> exc (option (gmap string value))) :
  contribution (ok_json data) fields
  = match fields data with Ok found => found | Raise _ => None end.
Proof. reflexivity. Qed.

Lemma most_liquid_pair_first_greatest (d : gmap string value)
    (items : list value) (ks : list float) :
  d !! "pairs" = Some (VList items) -> items <> [] ->
  Forall2 (fun p k => liquidity_usd p = Ok k) items ks ->
  Forall (fun k => is_nan k = false) ks ->
  exists i best best_key,
    most_liquid_pair (VDict d) = Ok (Some best)
    /\ items !! i = Some best /\ first_greatest ks i best_key.
Proof.
  intros Hpairs Hne Hkeys Hnan.
  destruct (py_max_first_greatest liquidity_usd items ks Hne Hkeys Hnan)
    as (i & best & best_key & Hmax & Hi & Hfirst).
  exists i, best, best_key. split; [|done].
  unfold most_liquid_pair. cbn [py_get exc_bind]. rewrite Hpairs.
  destruct items as [|p items]; [done|].
  change (has_pairs (VList (p :: items))) with (Ok (A := bool) true).
  cbn [py_iter exc_bind]. rewrite Hmax. reflexivity.
Qed.

(** C3 (amended). When DexScreener answers with a non-empty list of pairs
    whose liquidity figures can be read and compared, the resolver picks
    the pair with the greatest [liquidity.usd], the first one among equals.
    If the fields of that pair can be read, the record is found and its
    price, 24h volume, liquidity, market cap and 1h and 24h changes are
    those of that pair; so are name and symbol, except that the Solana
    resolver goes on to Solscan when the pair gives no name. The fully
    diluted valuation is taken on Solana only: the EVM record has no fdv
    entry. *)
Theorem most_liquid_pair_taken (w : world) (n : nat) (address : string)
    (d : gmap string value) (items : list value) (ks : list float) :
  http w n (dexscreener_url address) = ok_json (VDict d) ->
  d !! "pairs" = Some (VList items) -> items <> [] ->
  Forall2 (fun p k => liquidity_usd p = Ok k) items ks ->
  Forall (fun k => is_nan k = false) ks ->
  exists i best best_key,
    items !! i = Some best /\ first_greatest ks i best_key
    /\ most_liquid_pair (VDict d) = Ok (Some best)
    /\ (forall new, solana_pair_fields best = Ok new ->
          exists token_data,
            snd (run_from w n (get_solana_token_data address)) = Ok token_data
            /\ token_data !! "success" = Some (VBool true)
            /\ (forall key, key <> "name" -> key <> "symbol" ->
                  token_data !! key = new !! key)
            /\ (new !! "name" <> Some (VStr "Unknown Token") ->
                  run_from w n (get_solana_token_data address)
                  = ([Requested (dexscreener_url address)], Ok new)))
    /\ (forall new, evm_pair_fields best = Ok new ->
          run_from w n (get_evm_token_data address)
          = ([Requested (dexscreener_url address)], Ok new)
          /\ new !! "success" = Some (VBool true)
          /\ new !! "fdv" = None).
Proof.
  intros Hresp Hpairs Hne Hkeys Hnan.
  destruct (most_liquid_pair_first_greatest d items ks Hpairs Hne Hkeys Hnan)
    as (i & best & best_key & Hbest & Hi & Hfirst).
  exists i, best, best_key.
  split; [done|]. split; [done|]. split; [done|]. split.
  - intros new Hnew.
    assert (contribution (http w n (dexscreener_url address)) solana_dex_fields
            = Some new) as Hdex.
    { rewrite Hresp, contribution_ok_json. unfold solana_dex_fields.
      rewrite Hbest. simpl. now rewrite Hnew. }
    pose proof (run_get_solana w n address) as Hrun. cbv zeta in Hrun.
    rewrite Hdex in Hrun. rewrite Hrun. clear Hrun.
    apply solana_pair_fields_shape in Hnew
      as (name & symbol & f1 & f2 & f3 & f4 & f5 & f6 & f7 & ->).
    set (new := dict _) in *.
    assert (updated solana_defaults (Some new) = new) as ->
      by (vm_compute; exact eq_refl).
    assert (negb (py_truthy (dict_get new "success" VNone)) = false) as ->
      by reflexivity.
    assert (dict_get new "name" VNone = name) as -> by reflexivity.
    eexists. split; [reflexivity|].
    destruct (py_eq_str name "Unknown Token") eqn:Hname.
    + destruct (contribution _ solscan_fields) as [meta|] eqn:Hmeta; simpl.
      * apply solscan_contribution in Hmeta as (name' & symbol' & ->).
        split; [reflexivity|]. split.
        -- intros key Hk1 Hk2. rewrite lookup_py_update.
           now rewrite metadata_only.
        -- intros Hnot. apply py_eq_str_true in Hname as ->. now destruct Hnot.
      * split; [reflexivity|]. split; [done|].
        intros Hnot. apply py_eq_str_true in Hname as ->. now destruct Hnot.
    + split; [reflexivity|]. split; [done|]. intros _. reflexivity.
  - intros new Hnew.
    assert (contribution (http w n (dexscreener_url address)) evm_dex_fields
            = Some new) as Hdex.
    { rewrite Hresp, contribution_ok_json. unfold evm_dex_fields.
      rewrite Hbest. simpl. now rewrite Hnew. }
    pose proof (run_get_evm w n address) as Hrun. cbv zeta in Hrun.
    rewrite Hdex in Hrun. rewrite Hrun. clear Hrun.
    apply evm_pair_fields_shape in Hnew
      as (name & symbol & f1 & f2 & f3 & f4 & f5 & f6 & ->).
    set (new := dict _) in *.
    assert (updated evm_defaults (Some new) = new) as ->
      by (vm_compute; exact eq_refl).
    assert (negb (py_truthy (dict_get new "success" VNone)) = false) as ->
      by reflexivity.
    repeat split.
Qed.

End ResolverTheorems.


Section FallbackTheorems.
Context `{PyBuiltins}.

Lemma no_pairs_contribute_nothing (d : gmap string value) :
  d !! "pairs" = Some (VList []) ->
  most_liquid_pair (VDict d) = Ok None.
Proof.
  intros Hpairs. unfold most_liquid_pair. cbn [py_get exc_bind].
  now rewrite Hpairs.
Qed.

Lemma solana_after_nothing (w : world) (n : nat) (address : string)
    (found : option (gmap string value)) :
  contribution (http w n (dexscreener_url address)) solana_dex_fields = None ->
  contribution (http w (S n) (jupiter_url address)) (jupiter_fields address)
  = found ->
  (forall new, found = Some new ->
     exists price, new = dict [("price", VFloat price); ("success", VBool true)]) ->
  run_from w n (get_solana_token_data address)
  = ([Requested (dexscreener_url address); Requested (jupiter_url address);
      Requested (solscan_url address)],
     Ok (updated (updated solana_defaults found)
           (contribution (http w (S (S n)) (solscan_url address))
              solscan_fields))).
Proof.
  intros Hdex Hjup Hshape.
  pose proof (run_get_solana w n address) as Hrun. cbv zeta in Hrun.
  rewrite Hdex, Hjup in Hrun. rewrite Hrun. clear Hrun.
  change (updated solana_defaults None) with solana_defaults.
  assert (negb (py_truthy (dict_get solana_defaults "success" VNone)) = true)
    as -> by (vm_compute; reflexivity).
  assert (py_eq_str (dict_get (updated solana_defaults found) "name" VNone)
            "Unknown Token" = true) as ->; [|reflexivity].
  destruct found as [new|]; [|vm_compute; reflexivity].
  destruct (Hshape new eq_refl) as [price ->]. simpl updated.
  unfold dict_get. rewrite lookup_py_update. dict_lookup. reflexivity.
Qed.

(** C4. A Solana address for which DexScreener answers with an empty list
    of pairs makes the resolver ask Jupiter; when Jupiter gives no record
    either, it asks Solscan. Whatever Solscan answers, the record stays
    not found and every entry but name and symbol keeps its default; name
    and symbol are those of the Solscan payload when it has a name. *)
Theorem solana_falls_through (w : world) (n : nat) (address : string)
    (d : gmap string value) :
  http w n (dexscreener_url address) = ok_json (VDict d) ->
  d !! "pairs" = Some (VList []) ->
  contribution (http w (S n) (jupiter_url address)) (jupiter_fields address)
  = None ->
  exists token_data,
    run_from w n (get_solana_token_data address)
    = ([Requested (dexscreener_url address); Requested (jupiter_url address);
        Requested (solscan_url address)],
       Ok token_data)
    /\ token_data
       = updated solana_defaults
           (contribution (http w (S (S n)) (solscan_url address)) solscan_fields)
    /\ token_data !! "success" = Some (VBool false)
    /\ (forall key, key <> "name" -> key <> "symbol" ->
          token_data !! key = solana_defaults !! key).
Proof.
  intros Hresp Hpairs Hjup.
  assert (contribution (http w n (dexscreener_url address)) solana_dex_fields
          = None) as Hdex.
  { rewrite Hresp, contribution_ok_json. unfold solana_dex_fields.
    now rewrite (no_pairs_contribute_nothing d Hpairs). }
  eexists. split.
  { apply (solana_after_nothing w n address None Hdex Hjup). discriminate. }
  split; [reflexivity|].
  change (updated solana_defaults None) with solana_defaults.
  destruct (contribution _ solscan_fields) as [meta|] eqn:Hmeta; simpl.
  - apply solscan_contribution in Hmeta as (name & symbol & ->). split.
    + rewrite lookup_py_update. dict_lookup. reflexivity.
    + intros key Hk1 Hk2. rewrite lookup_py_update. now rewrite metadata_only.
  - split; [reflexivity | done].
Qed.

(** C5. When DexScreener gave nothing and Jupiter answers with a record
    for the address whose price can be read, the record is found and has
    that price, whatever the price is, zero included, and whatever Solscan
    answers afterwards; liquidity plays no part and keeps its default. *)
Theorem jupiter_price_sets_found (w : world) (n : nat) (address : string)
    (body prices record : gmap string value) (v : value) (x : float) :
  contribution (http w n (dexscreener_url address)) solana_dex_fields = None ->
  http w (S n) (jupiter_url address) = ok_json (VDict body) ->
  body !! "data" = Some (VDict prices) ->
  prices !! address = Some (VDict record) ->
  record !! "price" = Some v ->
  py_float v = Ok x ->
  exists token_data,
    snd (run_from w n (get_solana_token_data address)) = Ok token_data
    /\ token_data !! "price" = Some (VFloat x)
    /\ token_data !! "success" = Some (VBool true)
    /\ token_data !! "liquidity" = Some (VInt 0).
Proof.
  intros Hdex Hresp Hdata Hrecord Hprice Hx.
  assert (contribution (http w (S n) (jupiter_url address))
            (jupiter_fields address)
          = Some (dict [("price", VFloat x); ("success", VBool true)])) as Hjup.
  { rewrite Hresp, contribution_ok_json. unfold jupiter_fields.
    cbn [py_get exc_bind]. rewrite Hdata. cbn [py_get exc_bind].
    rewrite Hrecord.
    assert (py_truthy (VDict record) = true) as ->.
    { simpl. apply negb_true_iff, bool_decide_eq_false. intros ->.
      now rewrite lookup_empty in Hprice. }
    cbn [py_get exc_bind]. rewrite Hprice, Hx. reflexivity. }
  rewrite (solana_after_nothing w n address _ Hdex Hjup) by (intros ? [= <-]; eauto).
  eexists. split; [reflexivity|]. simpl updated at 2.
  destruct (contribution _ solscan_fields) as [meta|] eqn:Hmeta; simpl.
  - apply solscan_contribution in Hmeta as (name & symbol & ->).
    rewrite !lookup_py_update. dict_lookup. repeat split.
  - rewrite !lookup_py_update. dict_lookup. repeat split.
Qed.


End FallbackTheorems.


(** ** Formatting and the message handler *)

Section HandlerTheorems.
Context `{PyBuiltins}.

Lemma positive_is_not_zero (v : value) (x : float) :
  py_float v = Ok x -> (0 <? x)%float = true ->
  v <> VNone /\ py_eq_zero v = false.
Proof.
  intros Hx Hpos. split; [intros ->; discriminate|].
  destruct v as [|[]|z|f|s|l|d]; simpl in *; try done.
  - injection Hx as <-. discriminate.
  - destruct (Z.eqb_spec z 0) as [->|]; [|done].
    injection Hx as <-. discriminate.
  - injection Hx as ->. now apply float_ltb_not_eqb.
Qed.

Lemma format_number_of_float (v : value) (x : float) :
  py_float v = Ok x -> (0 <? x)%float = true ->
  format_number v
  = if (1000000000 <=? x)%float then
      "$" +:+ format_fixed 2 (x / 1000000000)%float +:+ "B"
    else if (1000000 <=? x)%float then
      "$" +:+ format_fixed 2 (x / 1000000)%float +:+ "M"
    else if (1000 <=? x)%float then
      "$" +:+ format_fixed 2 (x / 1000)%float +:+ "K"
    else if (1 <=? x)%float then "$" +:+ format_fixed 4 x
    else "$" +:+ format_fixed 8 x.
Proof.
  intros Hx Hpos. destruct (positive_is_not_zero v x Hx Hpos) as [Hnone Hzero].
  unfold format_number. rewrite Hzero, Hx. now destruct v.
Qed.

(** C8. [format_number] gives the sentinel [N/A], and no number, for
    [None] and for anything equal to zero. For a positive number it gives
    a dollar amount: divided by 1e9 with two decimals and a [B] from 1e9
    on, by 1e6 with an [M] from 1e6 on, by 1e3 with a [K] from 1e3 on,
    with four decimals from 1 on, and with eight decimals below 1. *)
Theorem format_number_cases :
  format_number VNone = "N/A"
  /\ (forall v, py_eq_zero v = true -> format_number v = "N/A")
  /\ (forall v x, py_float v = Ok x -> (0 <? x)%float = true ->
        ((1000000000 <=? x)%float = true ->
           format_number v
           = "$" +:+ format_fixed 2 (x / 1000000000)%float +:+ "B")
        /\ ((1000000 <=? x)%float = true -> (x <? 1000000000)%float = true ->
              format_number v
              = "$" +:+ format_fixed 2 (x / 1000000)%float +:+ "M")
        /\ ((1000 <=? x)%float = true -> (x <? 1000000)%float = true ->
              format_number v
              = "$" +:+ format_fixed 2 (x / 1000)%float +:+ "K")
        /\ ((1 <=? x)%float = true -> (x <? 1000)%float = true ->
              format_number v = "$" +:+ format_fixed 4 x)
        /\ ((x <? 1)%float = true ->
              format_number v = "$" +:+ format_fixed 8 x)).
Proof.
  split; [reflexivity|]. split.
  - intros v Hzero. unfold format_number. rewrite Hzero. now destruct v.
  - intros v x Hx Hpos. rewrite (format_number_of_float v x Hx Hpos).
    assert (forall a : float, (x <? a)%float = true -> (a <=? x)%float = false)
      as Hbelow by (intros a; apply float_ltb_not_leb).
    repeat split.
    + now intros ->.
    + intros -> ->%Hbelow. reflexivity.
    + intros -> Hm%Hbelow. rewrite Hm.
      assert ((1000000000 <=? x)%float = false) as ->; [|reflexivity].
      destruct (1000000000 <=? x)%float eqn:Hb; [|done].
      assert ((1000000 <=? x)%float = true) as Hm'; [|congruence].
      now apply (float_leb_trans _ 1000000000).
    + intros -> Hk%Hbelow. rewrite Hk.
      assert ((1000000 <=? x)%float = false) as Hm.
      { destruct (1000000 <=? x)%float eqn:Hb; [|done].
        assert ((1000 <=? x)%float = true) as Hk'; [|congruence].
        now apply (float_leb_trans _ 1000000). }
      assert ((1000000000 <=? x)%float = false) as ->; [|now rewrite Hm].
      destruct (1000000000 <=? x)%float eqn:Hb; [|done].
      assert ((1000000 <=? x)%float = true) as Hm'; [|congruence].
      now apply (float_leb_trans _ 1000000000).
    + intros Hone%Hbelow.
      assert ((1000 <=? x)%float = false) as Hk.
      { destruct (1000 <=? x)%float eqn:Hb; [|done].
        assert ((1 <=? x)%float = true) as Hk'; [|congruence].
        now apply (float_leb_trans _ 1000). }
      assert ((1000000 <=? x)%float = false) as Hm.
      { destruct (1000000 <=? x)%float eqn:Hb; [|done].
        assert ((1000 <=? x)%float = true) as Hk'; [|congruence].
        now apply (float_leb_trans _ 1000000). }
      assert ((1000000000 <=? x)%float = false) as ->;
        [|now rewrite Hm, Hk, Hone].
      destruct (1000000000 <=? x)%float eqn:Hb; [|done].
      assert ((1000000 <=? x)%float = true) as Hm'; [|congruence].
      now apply (float_leb_trans _ 1000000000).
Qed.

(** C9. A message written by the bot itself ends the handler at once:
    nothing is scanned, requested, sent or edited, and the commands are
    not processed, whatever the message says. *)
Theorem own_message_ignored (msg : message) :
  author_is_bot msg = true ->
  on_message msg = Ret tt
  /\ forall w : world, run w (on_message msg) = ([], Ok tt).
Proof.
  intros Hbot. unfold on_message. rewrite Hbot. split; reflexivity.
Qed.

Lemma fetch_nothing (address addr_type : string) :
  addr_type <> "Solana" -> addr_type <> "EVM (Ethereum/BSC)" ->
  fetch_token_data address addr_type = Ret (dict [("success", VBool false)]).
Proof.
  intros Hsol%String.eqb_neq Hevm%String.eqb_neq. unfold fetch_token_data.
  now rewrite Hsol, Hevm.
Qed.

Lemma final_embed_without_data (msg : message) (address addr_type : string) :
  addr_type <> "Solana" -> addr_type <> "EVM (Ethereum/BSC)" ->
  final_embed msg address addr_type (dict [("success", VBool false)])
  = Ok (warning_embed msg address addr_type).
Proof.
  intros Hsol%String.eqb_neq Hevm%String.eqb_neq.
  unfold final_embed, chain_fields, dict_get. dict_lookup.
  rewrite Hsol, Hevm, !py_str_of_str. cbn [py_gt_zero py_lt_zero exc_bind].
  unfold warning_embed.
  now destruct (String.eqb addr_type "URL").
Qed.

End HandlerTheorems.

Section MatchTheorems.
Context `{PyBuiltins}.

Lemma report_error_requests_nothing (w : world) (n : nat) (e : exn)
    (loading_msg : option sent_message) (address addr_type : string) :
  Forall (fun ev => is_request ev = false)
    (fst (run_from w n (report_error e loading_msg address addr_type))).
Proof.
  unfold report_error, message_edit, channel_send.
  destruct loading_msg as [m|]; cbn [try_except bind run_from lift].
  - destruct (platform_edit w n m _) as [[]|e']; cbn [try_except bind run_from lift fst].
    + repeat constructor.
    + destruct (platform_send w (S n) _) as [m'|e'']; repeat constructor.
  - destruct (platform_send w n _) as [m'|e'']; repeat constructor.
Qed.

(** C10. A match whose type is neither Solana nor EVM, a URL in
    particular, makes the handler ask no resolver: the record stays the
    default [{'success': False}], no request goes out while the match is
    handled, and the embed that replaces the loading message has the
    placeholder title, the grey colour, the chain field, and before it the
    fixed URL warning when the type is URL. *)
Theorem other_types_request_nothing (w : world) (n : nat) (msg : message)
    (loading_msg : option sent_message) (address addr_type : string) :
  addr_type <> "Solana" -> addr_type <> "EVM (Ethereum/BSC)" ->
  fetch_token_data address addr_type = Ret (dict [("success", VBool false)])
  /\ final_embed msg address addr_type (dict [("success", VBool false)])
     = Ok {| title := "🪙 Unknown Token (UNKNOWN)";
             description :=
               "**Contract:** `" +:+ py_first 25 address +:+ "..."
               +:+ py_last 15 address +:+ "`";
             color := 0x808080;
             fields :=
               (if String.eqb addr_type "URL" then [url_warning] else [])
               ++ [ {| field_name := "⛓️ Blockchain";
                       field_value := "**" +:+ addr_type +:+ "**";
                       inline := true |} ];
             footer :=
               Some ("👤 Requested by " +:+ author_display_name msg
                     +:+ " • 🤖 Live Token Scanner • 📡 Real-time Data",
                     author_avatar_url msg);
             timestamped := true |}
  /\ Forall (fun ev => is_request ev = false)
       (fst (run_from w n (process_address msg loading_msg address addr_type))).
Proof.
  intros Hsol Hevm.
  pose proof (fetch_nothing address addr_type Hsol Hevm) as Hfetch.
  pose proof (final_embed_without_data msg address addr_type Hsol Hevm) as Hembed.
  split; [exact Hfetch|]. split; [exact Hembed|].
  unfold process_address. cbn [run_from].
  destruct (platform_send w n _) as [m|e].
  - rewrite Hfetch. cbn [bind]. rewrite Hembed.
    unfold message_edit. cbn [lift bind try_except run_from].
    destruct (platform_edit w (S n) m _) as [[]|e];
      cbn [lift bind try_except run_from fst].
    + repeat constructor.
    + rewrite run_from_bind.
      pose proof (report_error_requests_nothing w (S (S n)) e (Some m)
                    address addr_type) as Hreport.
      destruct (run_from w (S (S n)) (report_error e (Some m) address addr_type))
        as [t [[]|e']]; cbn [fst run_from app] in *.
      * rewrite app_nil_r. repeat constructor. exact Hreport.
      * repeat constructor. exact Hreport.
  - rewrite run_from_bind.
    pose proof (report_error_requests_nothing w (S n) e loading_msg
                  address addr_type) as Hreport.
    destruct (run_from w (S n) (report_error e loading_msg address addr_type))
      as [t [[]|e']]; cbn [fst run_from app] in *.
    + rewrite app_nil_r. repeat constructor. exact Hreport.
    + repeat constructor. exact Hreport.
Qed.

End MatchTheorems.

(** * Further properties *)

(** ** The classifier *)

Lemma is_s_char (c : ascii) : is_s c = true -> c = "s"%char.
Proof. unfold is_s. now intros ->%Ascii.eqb_eq. Qed.

Lemma url_match_shape (m : string) :
  matches url_pattern m <->
  exists rest,
    (m = "http://" +:+ rest \/ m = "https://" +:+ rest)
    /\ rest <> "" /\ all_chars not_space rest = true.
Proof.
  unfold url_pattern. split.
  - intros Hm. invert_matches. rewrite str_app_nil_r.
    match goal with
    | H : all_chars is_s ?a = true, H' : all_chars not_space ?b = true |- _ =>
        rename a into optional; rename b into rest
    end.
    exists rest. split; [|split; [|done]].
    + destruct optional as [|c [|c' optional]]; simpl in *.
      * now left.
      * match goal with
        | H : is_s c && true = true |- _ =>
            apply andb_true_iff in H as [->%is_s_char _]
        end.
        now right.
      * lia.
    + intros ->. simpl in *. lia.
  - intros (rest & [-> | ->] & Hne & Hrest).
    + do 4 constructor. apply (matches_rep is_s 0 (Some 1) _ ""); simpl;
        try done; try lia.
      do 3 constructor. rewrite <- (str_app_nil_r rest).
      constructor; simpl; try done; [|constructor].
      destruct rest; [done | simpl; lia].
    + do 4 constructor. apply (matches_rep is_s 0 (Some 1) _ "s"); simpl;
        try done; try lia.
      do 3 constructor. rewrite <- (str_app_nil_r rest).
      constructor; simpl; try done; [|constructor].
      destruct rest; [done | simpl; lia].
Qed.

Lemma evm_match_iff (m : string) :
  matches evm_pattern m <->
  exists h, m = "0x" +:+ h /\ String.length h = 40 /\ all_chars is_hex h = true.
Proof.
  split; [apply evm_match_shape|].
  intros (h & -> & Hlen & Hhex). unfold evm_pattern. do 2 constructor.
  rewrite <- (str_app_nil_r h). constructor; simpl; try done; try lia.
  constructor.
Qed.

(** X1. [detect_address_type] answers Solana exactly for 32 to 44 base58
    characters, EVM exactly for [0x] and 40 hex digits, URL exactly for
    [http://] or [https://] followed by at least one character and no
    white space, and Unknown for everything else. No text has two of the
    three shapes, so the order of the tests in the function plays no
    part. *)
Theorem detect_address_type_exact (s : string) :
  (detect_address_type s = "Solana"
   <-> all_chars is_base58 s = true /\ 32 <= String.length s <= 44)
  /\ (detect_address_type s = "EVM (Ethereum/BSC)"
      <-> exists h, s = "0x" +:+ h /\ String.length h = 40
                    /\ all_chars is_hex h = true)
  /\ (detect_address_type s = "URL"
      <-> exists rest,
            (s = "http://" +:+ rest \/ s = "https://" +:+ rest)
            /\ rest <> "" /\ all_chars not_space rest = true)
  /\ (detect_address_type s = "Unknown"
      <-> ~ matches solana_pattern s /\ ~ matches evm_pattern s
          /\ ~ matches url_pattern s).
Proof.
  rewrite <- solana_match_shape, <- evm_match_iff, <- url_match_shape.
  assert (forall r, fullmatch r s = false -> ~ matches r s) as Hno.
  { intros r Hr Hm%fullmatch_matches. congruence. }
  repeat split.
  - unfold detect_address_type.
    destruct (fullmatch solana_pattern s) eqn:H1;
      [intros _; now apply fullmatch_matches|].
    destruct (fullmatch evm_pattern s); [discriminate|].
    destruct (fullmatch url_pattern s); discriminate.
  - apply detect_solana.
  - unfold detect_address_type.
    destruct (fullmatch solana_pattern s); [discriminate|].
    destruct (fullmatch evm_pattern s) eqn:H2;
      [intros _; now apply fullmatch_matches|].
    destruct (fullmatch url_pattern s); discriminate.
  - apply detect_evm.
  - unfold detect_address_type.
    destruct (fullmatch solana_pattern s); [discriminate|].
    destruct (fullmatch evm_pattern s); [discriminate|].
    destruct (fullmatch url_pattern s) eqn:H3;
      [intros _; now apply fullmatch_matches | discriminate].
  - apply detect_url.
  - intros Hs%detect_solana. rewrite Hs in H. discriminate.
  - intros He%detect_evm. rewrite He in H. discriminate.
  - intros Hu%detect_url. rewrite Hu in H. discriminate.
  - intros (H1 & H2 & H3). unfold detect_address_type.
    destruct (fullmatch solana_pattern s) eqn:E1;
      [now apply fullmatch_matches in E1|].
    destruct (fullmatch evm_pattern s) eqn:E2;
      [now apply fullmatch_matches in E2|].
    destruct (fullmatch url_pattern s) eqn:E3;
      [now apply fullmatch_matches in E3 | reflexivity].
Qed.
(** ** What a search finds *)

Lemma in_order_piece (ms : list string) (s m : string) :
  in_text_order ms s -> In m ms -> piece_of m s.
Proof.
  induction 1 as [|pre m' rest ms _ IH]; intros Hin; [destruct Hin|].
  destruct Hin as [-> | Hin].
  - now exists pre, rest.
  - destruct (IH Hin) as (a & b & ->).
    exists (pre +:+ m' +:+ a), b. now rewrite !str_app_assoc.
Qed.

Lemma findall_piece (r : regex) (s m : string) :
  In m (findall r s) -> piece_of m s /\ matches r m.
Proof.
  intros Hin. split.
  - exact (in_order_piece _ _ _ (findall_in_order r s) Hin).
  - exact (findall_from_matches r m s 0 Hin).
Qed.

Lemma findall_nil (r : regex) (s : string) :
  findall r s = [] <-> ~ occurs r s.
Proof.
  split.
  - intros Hnil (m & (pre & post & ->) & Hm). revert Hnil. unfold findall.
    destruct (search_complete r m post Hm) as [m' Hm'].
    induction pre as [|c pre IH].
    + rewrite str_app_nil_l in *.
      destruct (m +:+ post) as [|c rest] eqn:Hs.
      * simpl. rewrite Hm'. discriminate.
      * rewrite findall_from_cons, Hm'. discriminate.
    + rewrite str_app_cons, findall_from_cons.
      destruct (match_here r anywhere (String c _)); [discriminate | exact IH].
  - intros Hno. destruct (findall r s) as [|m ms] eqn:Hfind; [reflexivity|].
    exfalso. apply Hno. exists m. apply findall_piece. rewrite Hfind. now left.
Qed.

(** ** White space around the text *)

Lemma lstrip_split (s : string) :
  exists ws, s = ws +:+ lstrip s /\ all_chars is_space ws = true.
Proof.
  induction s as [|c s (ws & IH & Hws)]; [now exists ""|].
  simpl. destruct (is_space c) eqn:Hc.
  - exists (String c ws). rewrite str_app_cons, <- IH. simpl. now rewrite Hc.
  - now exists "".
Qed.

Lemma rstrip_split (s : string) :
  exists ws, s = rstrip s +:+ ws /\ all_chars is_space ws = true.
Proof.
  induction s as [|c s (ws & IH & Hws)]; [now exists ""|].
  simpl. destruct (rstrip s) as [|c' t] eqn:Ht.
  - rewrite str_app_nil_l in IH. subst ws. destruct (is_space c) eqn:Hc.
    + exists (String c s). simpl. now rewrite Hc.
    + now exists s.
  - exists ws. rewrite str_app_cons. now rewrite <- IH.
Qed.

Lemma strip_split (s : string) :
  exists before after,
    s = before +:+ strip s +:+ after
    /\ all_chars is_space before = true /\ all_chars is_space after = true.
Proof.
  destruct (lstrip_split s) as (before & Hs & Hbefore).
  destruct (rstrip_split (lstrip s)) as (after & Hl & Hafter).
  exists before, after. unfold strip. now rewrite <- Hl, <- Hs.
Qed.

Lemma rep_rejects cls lo hi (c : ascii) (s : string) k :
  cls c = false ->
  rep cls (S lo) hi (String c s) k = None.
Proof. intros Hc. simpl. now rewrite Hc. Qed.

Lemma match_here_space (r : regex) (c : ascii) (s : string) k :
  solid r -> takes_a_character r -> is_space c = true ->
  match_here r k (String c s) = None.
Proof.
  intros Hsolid Htakes Hc. destruct r as [|[c0|cls [|lo] hi] r]; try done.
  - destruct Hsolid as [Hc0 _]. simpl.
    destruct (Ascii.eqb c0 c) eqn:Heq; [|reflexivity].
    apply Ascii.eqb_eq in Heq. congruence.
  - destruct Hsolid as [Hcls _]. apply rep_rejects.
    destruct (cls c) eqn:Hcc; [|reflexivity].
    apply Hcls in Hcc. congruence.
Qed.

Lemma match_here_empty (r : regex) k :
  takes_a_character r -> match_here r k "" = None.
Proof. now destruct r as [|[c0|cls [|lo] hi] r]. Qed.

Lemma findall_from_spaces (r : regex) (ws : string) :
  solid r -> takes_a_character r -> all_chars is_space ws = true ->
  forall skip, findall_from r skip ws = [].
Proof.
  intros Hsolid Htakes. induction ws as [|c ws IH]; intros Hws skip.
  - simpl. rewrite match_here_empty by done. now destruct skip.
  - simpl in Hws. apply andb_true_iff in Hws as [Hc Hws].
    destruct skip as [|skip]; [|now apply IH].
    rewrite findall_from_cons, match_here_space by done. now apply IH.
Qed.

Lemma findall_leading (r : regex) (ws s : string) :
  solid r -> takes_a_character r -> all_chars is_space ws = true ->
  findall r (ws +:+ s) = findall r s.
Proof.
  intros Hsolid Htakes. unfold findall.
  induction ws as [|c ws IH]; intros Hws; [reflexivity|].
  simpl in Hws. apply andb_true_iff in Hws as [Hc Hws].
  rewrite str_app_cons, findall_from_cons, match_here_space by done.
  now apply IH.
Qed.

Lemma rep_trailing cls (ws : string) k k' :
  (forall c, cls c = true -> is_space c = false) ->
  all_chars is_space ws = true ->
  (forall t, k (t +:+ ws) = k' t) ->
  forall s lo hi, rep cls lo hi (s +:+ ws) k = rep cls lo hi s k'.
Proof.
  intros Hcls Hws Hk. induction s as [|c s IH]; intros lo hi.
  - rewrite str_app_nil_l. destruct ws as [|w ws'].
    + simpl. destruct lo; [exact (Hk "") | reflexivity].
    + simpl in Hws. apply andb_true_iff in Hws as [Hw _].
      assert (cls w = false) as Hcw.
      { destruct (cls w) eqn:E; [|reflexivity]. apply Hcls in E. congruence. }
      simpl. rewrite Hcw. simpl. destruct lo; [exact (Hk "") | reflexivity].
  - rewrite str_app_cons. simpl. rewrite IH.
    change (String c s +:+ ws) with (String c (s +:+ ws)).
    destruct lo; [|reflexivity].
    now rewrite <- str_app_cons, Hk.
Qed.

Lemma match_here_trailing (r : regex) (ws : string) :
  solid r -> all_chars is_space ws = true ->
  forall k k' s,
  (forall t, k (t +:+ ws) = k' t) ->
  match_here r k (s +:+ ws) = match_here r k' s.
Proof.
  intros Hsolid Hws. induction r as [|[c0|cls lo hi] r IH]; intros k k' s Hk.
  - exact (Hk s).
  - destruct Hsolid as [Hc0 Hsolid]. destruct s as [|c s].
    + rewrite str_app_nil_l. destruct ws as [|w ws']; [reflexivity|].
      simpl in Hws. apply andb_true_iff in Hws as [Hw _]. simpl.
      destruct (Ascii.eqb c0 w) eqn:Heq; [|reflexivity].
      apply Ascii.eqb_eq in Heq. congruence.
    + rewrite str_app_cons. simpl. now rewrite (IH Hsolid k k' s Hk).
  - destruct Hsolid as [Hcls Hsolid]. simpl.
    apply rep_trailing; try done.
    intros t. now apply IH.
Qed.

Lemma findall_trailing (r : regex) (ws s : string) :
  solid r -> takes_a_character r -> all_chars is_space ws = true ->
  findall r (s +:+ ws) = findall r s.
Proof.
  intros Hsolid Htakes Hws. unfold findall. generalize 0 as skip.
  induction s as [|c s IH]; intros skip.
  - rewrite str_app_nil_l, findall_from_spaces by done.
    simpl. rewrite match_here_empty by done. now destruct skip.
  - rewrite str_app_cons. destruct skip as [|skip]; [|apply IH].
    rewrite !findall_from_cons, <- str_app_cons.
    rewrite (match_here_trailing r ws Hsolid Hws anywhere anywhere) by done.
    destruct (match_here r anywhere (String c s)); now rewrite IH.
Qed.

Lemma findall_strip (r : regex) (s : string) :
  solid r -> takes_a_character r -> findall r (strip s) = findall r s.
Proof.
  intros Hsolid Htakes.
  destruct (strip_split s) as (before & after & Hs & Hbefore & Hafter).
  rewrite Hs at 2. now rewrite findall_leading, findall_trailing.
Qed.

Lemma base58_not_space (c : ascii) : is_base58 c = true -> is_space c = false.
Proof. destruct c as [[] [] [] [] [] [] [] []]; vm_compute; congruence. Qed.

Lemma hex_is_not_space (c : ascii) : is_hex c = true -> is_space c = false.
Proof. destruct c as [[] [] [] [] [] [] [] []]; vm_compute; congruence. Qed.

Lemma s_not_space (c : ascii) : is_s c = true -> is_space c = false.
Proof. destruct c as [[] [] [] [] [] [] [] []]; vm_compute; congruence. Qed.

Lemma not_space_false (c : ascii) : not_space c = true -> is_space c = false.
Proof. unfold not_space. now destruct (is_space c). Qed.

Lemma patterns_solid (key : string) (r : regex) :
  In (key, r) ADDRESS_PATTERNS -> solid r /\ takes_a_character r.
Proof.
  intros [[= <- <-] | [[= <- <-] | [[= <- <-] | []]]]; simpl.
  - repeat split. exact base58_not_space.
  - repeat split. exact hex_is_not_space.
  - repeat split; first [exact s_not_space | exact not_space_false].
Qed.

Lemma scan_unstripped (text : string) : scan text = find_addresses text.
Proof.
  unfold scan. rewrite !find_addresses_by_pattern.
  rewrite !findall_strip; try reflexivity;
    first [ apply (patterns_solid "solana"); simpl; tauto
          | apply (patterns_solid "evm"); simpl; tauto
          | apply (patterns_solid "url"); simpl; tauto ].
Qed.

Lemma find_addresses_around (before text after : string) :
  all_chars is_space before = true -> all_chars is_space after = true ->
  find_addresses (before +:+ text +:+ after) = find_addresses text.
Proof.
  intros Hbefore Hafter. rewrite !find_addresses_by_pattern.
  rewrite !(findall_leading _ before), !(findall_trailing _ after);
    try reflexivity; try done;
    first [ apply (patterns_solid "solana"); simpl; tauto
          | apply (patterns_solid "evm"); simpl; tauto
          | apply (patterns_solid "url"); simpl; tauto ].
Qed.

(** X2. Stripping the message before the scan changes nothing: the three
    patterns find in the text as it was sent exactly what they find in
    the stripped text. *)
Theorem strip_changes_nothing (text : string) :
  scan text = find_addresses text.
Proof. apply scan_unstripped. Qed.

Lemma occurs_evm (s : string) :
  occurs evm_pattern s <->
  exists pre h post,
    s = pre +:+ "0x" +:+ h +:+ post /\ String.length h = 40
    /\ all_chars is_hex h = true.
Proof.
  split.
  - intros (m & (pre & post & ->) & (h & -> & Hlen & Hhex)%evm_match_iff).
    exists pre, h, post. now rewrite str_app_assoc.
  - intros (pre & h & post & -> & Hlen & Hhex). exists ("0x" +:+ h). split.
    + exists pre, post. now rewrite str_app_assoc.
    + apply evm_match_iff. eauto.
Qed.

Lemma occurs_url (s : string) :
  occurs url_pattern s <->
  exists pre c post,
    (s = pre +:+ "http://" +:+ String c post
     \/ s = pre +:+ "https://" +:+ String c post)
    /\ is_space c = false.
Proof.
  split.
  - intros (m & (pre & post & ->) & (rest & Hm & Hne & Hrest)%url_match_shape).
    destruct rest as [|c rest]; [done|].
    simpl in Hrest. apply andb_true_iff in Hrest as [Hc%not_space_false _].
    exists pre, c, (rest +:+ post). split; [|done].
    destruct Hm as [-> | ->]; [left | right];
      now rewrite str_app_assoc, str_app_cons.
  - intros (pre & c & post & Hs & Hc).
    assert (all_chars not_space (String c "") = true) as Hone.
    { simpl. unfold not_space. now rewrite Hc. }
    destruct Hs as [-> | ->].
    + exists ("http://" +:+ String c ""). split.
      * exists pre, post. now rewrite str_app_assoc.
      * apply url_match_shape. exists (String c ""). auto.
    + exists ("https://" +:+ String c ""). split.
      * exists pre, post. now rewrite str_app_assoc.
      * apply url_match_shape. exists (String c ""). auto.
Qed.

Lemma tagged_nil (addr_type : string) (ms : list string) :
  tagged addr_type ms = [] <-> ms = [].
Proof. now destruct ms. Qed.

(** X3. The scan finds nothing exactly when the message has no 32 base58
    characters in a row, no [0x] followed by 40 hex digits, and no
    [http://] or [https://] followed by a character that is not white
    space. *)
Theorem nothing_found_iff (text : string) :
  scan text = [] <->
  ~ has_run is_base58 32 text
  /\ ~ (exists pre h post,
          text = pre +:+ "0x" +:+ h +:+ post /\ String.length h = 40
          /\ all_chars is_hex h = true)
  /\ ~ (exists pre c post,
          (text = pre +:+ "http://" +:+ String c post
           \/ text = pre +:+ "https://" +:+ String c post)
          /\ is_space c = false).
Proof.
  rewrite scan_unstripped, find_addresses_by_pattern.
  rewrite <- findall_solana_run, <- occurs_evm, <- occurs_url.
  rewrite <- !findall_nil.
  split.
  - intros Hnil. apply app_eq_nil in Hnil as [Hs Hnil].
    apply app_eq_nil in Hnil as [He Hu].
    apply tagged_nil in Hs, He, Hu. rewrite Hs. split; [|done].
    intros Hne. now apply Hne.
  - intros (Hs & -> & ->).
    destruct (findall solana_pattern text); [reflexivity|].
    exfalso. now apply Hs.
Qed.

Lemma in_tagged (addr_type : string) (ms : list string) (m t : string) :
  In (m, t) (tagged addr_type ms) -> In m ms /\ t = addr_type.
Proof.
  unfold tagged. intros (m' & [= -> <-] & Hin)%in_map_iff. done.
Qed.

Lemma piece_of_strip (m text : string) :
  piece_of m (strip text) -> piece_of m text.
Proof.
  intros (pre & post & Hm).
  destruct (strip_split text) as (before & after & Hs & _).
  exists (before +:+ pre), (post +:+ after).
  rewrite Hs, Hm. now rewrite !str_app_assoc.
Qed.

(** X4. Whatever the scan reports is a piece of the message that has one
    of the three shapes, holds no white space, and carries the type of
    its shape: a match is never reported as Unknown. *)
Theorem reported_matches (text m t : string) :
  In (m, t) (scan text) ->
  piece_of m text
  /\ all_chars not_space m = true
  /\ t = detect_address_type m
  /\ (t = "Solana" /\ all_chars is_base58 m = true
        /\ 32 <= String.length m <= 44
      \/ t = "EVM (Ethereum/BSC)"
         /\ (exists h, m = "0x" +:+ h /\ String.length h = 40
                       /\ all_chars is_hex h = true)
      \/ t = "URL"
         /\ (exists rest,
               (m = "http://" +:+ rest \/ m = "https://" +:+ rest)
               /\ rest <> "" /\ all_chars not_space rest = true)).
Proof.
  rewrite scan_unstripped, find_addresses_by_pattern. intros Hin.
  apply in_app_or in Hin as [Hin | Hin]; [|apply in_app_or in Hin as [Hin | Hin]];
    apply in_tagged in Hin as [[Hpiece Hm]%findall_piece ->];
    (split; [exact Hpiece|]).
  - pose proof Hm as (Hall & Hlen)%solana_match_shape.
    split; [|split; [symmetry; now apply detect_solana | left; done]].
    apply (all_chars_impl is_base58); [|done].
    intros c Hc%base58_not_space. unfold not_space. now rewrite Hc.
  - pose proof Hm as (h & -> & Hlen & Hhex)%evm_match_iff.
    split; [|split; [symmetry; now apply detect_evm | right; left; eauto]].
    simpl. apply (all_chars_impl is_hex); [|done]. apply hex_not_space.
  - pose proof Hm as (rest & Hshape & Hne & Hrest)%url_match_shape.
    split; [|split; [symmetry; now apply detect_url | right; right; eauto]].
    destruct Hshape as [-> | ->]; exact Hrest.
Qed.

Lemma rep_takes_all cls (s : string) k :
  k "" = Some "" -> all_chars cls s = true ->
  forall lo hi, lo <= String.length s -> within hi (String.length s) ->
  rep cls lo hi s k = Some s.
Proof.
  intros Hk. induction s as [|c s IH]; intros Hall lo hi Hlo Hhi.
  - simpl in *. destruct lo; [exact Hk | lia].
  - simpl in Hall. apply andb_true_iff in Hall as [Hc Hall].
    simpl. rewrite Hc.
    assert (may_take hi = true) as ->.
    { destruct hi as [[|h]|]; simpl in *; try reflexivity. lia. }
    simpl. rewrite IH; try done.
    + simpl in Hlo. lia.
    + destruct hi as [h|]; simpl in *; [lia | done].
Qed.

Lemma findall_whole_solana (s : string) :
  matches solana_pattern s -> findall solana_pattern s = [s].
Proof.
  intros (Hall & Hlo & Hhi)%solana_match_shape.
  destruct s as [|c s]; [simpl in Hlo; lia|].
  unfold findall, solana_pattern. rewrite findall_from_cons.
  cbn [match_here].
  rewrite rep_takes_all by first [done | simpl in *; lia].
  f_equal. apply findall_from_too_short; [reflexivity | simpl; lia].
Qed.

(** X5. A message that is one Solana address, with or without white
    space around it, is reported once, as Solana, and as nothing else. *)
Theorem solana_address_alone (before address after : string) :
  all_chars is_base58 address = true ->
  32 <= String.length address <= 44 ->
  all_chars is_space before = true -> all_chars is_space after = true ->
  scan (before +:+ address +:+ after) = [(address, "Solana")].
Proof.
  intros Hall Hlen Hbefore Hafter.
  rewrite scan_unstripped, find_addresses_around by done.
  rewrite find_addresses_by_pattern.
  rewrite findall_whole_solana by now apply solana_match_shape.
  assert (findall evm_pattern address = []) as ->.
  { apply findall_nil. intros (pre & h & post & -> & _)%occurs_evm.
    now apply (all_chars_inside is_base58 pre _ "0"%char) in Hall. }
  assert (findall url_pattern address = []) as ->; [|reflexivity].
  apply findall_nil. intros (pre & c & post & [-> | ->] & _)%occurs_url.
  - change ("http://" +:+ String c post) with ("http" +:+ String ":" ("//" +:+ String c post)) in Hall.
    rewrite <- str_app_assoc in Hall.
    now apply (all_chars_inside is_base58) in Hall.
  - change ("https://" +:+ String c post) with ("https" +:+ String ":" ("//" +:+ String c post)) in Hall.
    rewrite <- str_app_assoc in Hall.
    now apply (all_chars_inside is_base58) in Hall.
Qed.

(** ** The order in which the sources are asked *)

Section RequestOrder.
Context `{PyBuiltins}.

Lemma found_by_dex_solana (r : exc response) (new : gmap string value) :
  contribution r solana_dex_fields = Some new ->
  updated solana_defaults (Some new) = new
  /\ new !! "success" = Some (VBool true)
  /\ exists name, new !! "name" = Some name.
Proof.
  intros [p Hp]%solana_dex_contribution.
  apply solana_pair_fields_shape in Hp
    as (name & symbol & f1 & f2 & f3 & f4 & f5 & f6 & f7 & ->).
  split; [vm_compute; exact eq_refl|]. split; [reflexivity|].
  exists name. reflexivity.
Qed.

Lemma found_by_dex_evm (r : exc response) (new : gmap string value) :
  contribution r evm_dex_fields = Some new ->
  updated evm_defaults (Some new) = new
  /\ new !! "success" = Some (VBool true).
Proof.
  intros [p Hp]%evm_dex_contribution.
  apply evm_pair_fields_shape in Hp
    as (name & symbol & f1 & f2 & f3 & f4 & f5 & f6 & ->).
  split; [vm_compute; exact eq_refl | reflexivity].
Qed.

Lemma name_after_jupiter (address : string) (r : exc response) :
  dict_get (updated solana_defaults (contribution r (jupiter_fields address)))
    "name" VNone
  = VStr "Unknown Token".
Proof.
  destruct (contribution r (jupiter_fields address)) as [new|] eqn:Hnew;
    [|reflexivity].
  apply jupiter_contribution in Hnew as [price ->]. simpl updated.
  unfold dict_get. rewrite lookup_py_update. dict_lookup. reflexivity.
Qed.

(** X6. DexScreener is always asked first. The Solana resolver asks
    Jupiter exactly when DexScreener contributed nothing, and Solscan
    always follows Jupiter; when DexScreener contributed, Solscan is asked
    only if the name of the pair is the placeholder. The EVM resolver asks
    CoinGecko exactly when DexScreener contributed nothing. No other
    request is made. *)
Theorem sources_asked_in_turn (w : world) (n : nat) (address : string) :
  fst (run_from w n (get_solana_token_data address))
  = Requested (dexscreener_url address)
    :: match contribution (http w n (dexscreener_url address))
               solana_dex_fields with
       | None => [Requested (jupiter_url address);
                  Requested (solscan_url address)]
       | Some new =>
           if py_eq_str (dict_get new "name" VNone) "Unknown Token"
           then [Requested (solscan_url address)] else []
       end
  /\ fst (run_from w n (get_evm_token_data address))
     = Requested (dexscreener_url address)
       :: match contribution (http w n (dexscreener_url address))
                  evm_dex_fields with
          | None => [Requested (coingecko_url address)]
          | Some _ => []
          end.
Proof.
  split.
  - pose proof (run_get_solana w n address) as Hrun. cbv zeta in Hrun.
    rewrite Hrun. clear Hrun. cbn [fst]. f_equal.
    destruct (contribution (http w n (dexscreener_url address)) solana_dex_fields)
      as [new|] eqn:Hdex.
    + apply found_by_dex_solana in Hdex as (-> & Hsuccess & _).
      assert (negb (py_truthy (dict_get new "success" VNone)) = false) as ->
        by (unfold dict_get; now rewrite Hsuccess).
      reflexivity.
    + change (updated solana_defaults None) with solana_defaults.
      assert (negb (py_truthy (dict_get solana_defaults "success" VNone)) = true)
        as -> by (vm_compute; reflexivity).
      now rewrite name_after_jupiter.
  - pose proof (run_get_evm w n address) as Hrun. cbv zeta in Hrun.
    rewrite Hrun. clear Hrun. cbn [fst]. f_equal.
    destruct (contribution (http w n (dexscreener_url address)) evm_dex_fields)
      as [new|] eqn:Hdex.
    + apply found_by_dex_evm in Hdex as (-> & Hsuccess).
      unfold dict_get. now rewrite Hsuccess.
    + change (updated evm_defaults None) with evm_defaults.
      now assert (negb (py_truthy (dict_get evm_defaults "success" VNone)) = true)
        as -> by (vm_compute; reflexivity).
Qed.

(** *** The found flag *)

Lemma flag_agrees_priced (numeric : list string)
    (token_data new : gmap string value) :
  new !! "success" = Some (VBool true) ->
  (exists f, new !! "price" = Some (VFloat f)) ->
  flag_agrees numeric (py_update token_data new).
Proof.
  intros Hsuccess [f Hprice]. left. rewrite !lookup_py_update, Hsuccess, Hprice.
  eauto.
Qed.

Lemma flag_agrees_named (numeric : list string)
    (token_data : gmap string value) (name symbol : value) :
  ~ In "name" numeric -> ~ In "symbol" numeric ->
  flag_agrees numeric token_data ->
  flag_agrees numeric
    (py_update token_data (dict [("name", name); ("symbol", symbol)])).
Proof.
  intros Hname Hsymbol [[Hsuccess Hprice] | [Hsuccess Hzero]]; [left | right].
  - rewrite !lookup_py_update. now dict_lookup.
  - rewrite lookup_py_update. dict_lookup. split; [done|].
    intros key Hkey. rewrite lookup_py_update, metadata_only; [auto | |];
      intros ->; tauto.
Qed.

Lemma flag_agrees_solana_dex (r : exc response) (token_data : gmap string value) :
  flag_agrees solana_numeric_fields token_data ->
  flag_agrees solana_numeric_fields
    (updated token_data (contribution r solana_dex_fields)).
Proof.
  destruct (contribution r solana_dex_fields) as [new|] eqn:Hnew; [|done].
  intros _. apply solana_dex_contribution in Hnew as [p Hp].
  apply solana_pair_fields_shape in Hp
    as (name & symbol & f1 & f2 & f3 & f4 & f5 & f6 & f7 & ->).
  apply flag_agrees_priced; dict_lookup; eauto.
Qed.

Lemma flag_agrees_jupiter (address : string) (r : exc response)
    (token_data : gmap string value) :
  flag_agrees solana_numeric_fields token_data ->
  flag_agrees solana_numeric_fields
    (updated token_data (contribution r (jupiter_fields address))).
Proof.
  destruct (contribution r (jupiter_fields address)) as [new|] eqn:Hnew; [|done].
  intros _. apply jupiter_contribution in Hnew as [price ->].
  apply flag_agrees_priced; dict_lookup; eauto.
Qed.

Lemma flag_agrees_solscan (r : exc response) (token_data : gmap string value) :
  flag_agrees solana_numeric_fields token_data ->
  flag_agrees solana_numeric_fields
    (updated token_data (contribution r solscan_fields)).
Proof.
  destruct (contribution r solscan_fields) as [new|] eqn:Hnew; [|done].
  apply solscan_contribution in Hnew as (name & symbol & ->).
  apply flag_agrees_named; simpl; intuition discriminate.
Qed.

Lemma flag_agrees_evm_dex (r : exc response) (token_data : gmap string value) :
  flag_agrees evm_numeric_fields token_data ->
  flag_agrees evm_numeric_fields
    (updated token_data (contribution r evm_dex_fields)).
Proof.
  destruct (contribution r evm_dex_fields) as [new|] eqn:Hnew; [|done].
  intros _. apply evm_dex_contribution in Hnew as [p Hp].
  apply evm_pair_fields_shape in Hp
    as (name & symbol & f1 & f2 & f3 & f4 & f5 & f6 & ->).
  apply flag_agrees_priced; dict_lookup; eauto.
Qed.

Lemma flag_agrees_coingecko (address : string) (r : exc response)
    (token_data : gmap string value) :
  flag_agrees evm_numeric_fields token_data ->
  flag_agrees evm_numeric_fields
    (updated token_data (contribution r (coingecko_fields address))).
Proof.
  destruct (contribution r (coingecko_fields address)) as [new|] eqn:Hnew;
    [|done].
  intros _. apply coingecko_contribution in Hnew as [record Hr].
  apply coingecko_record_fields_shape in Hr as (f1 & f2 & f3 & f4 & ->).
  apply flag_agrees_priced; dict_lookup; eauto.
Qed.

Lemma flag_agrees_solana_defaults :
  flag_agrees solana_numeric_fields solana_defaults.
Proof. right. split; [reflexivity|]. intros key Hkey. each_key Hkey; reflexivity. Qed.

Lemma flag_agrees_evm_defaults :
  flag_agrees evm_numeric_fields evm_defaults.
Proof. right. split; [reflexivity|]. intros key Hkey. each_key Hkey; reflexivity. Qed.

(** X7. The found flag of a resolved record never disagrees with its
    figures, whatever the sources answer: a record marked as found has a
    float price, and in a record marked as not found every numeric entry
    is still the integer 0 it started with. *)
Theorem found_flag_agrees (w : world) (n : nat) (address : string) :
  (exists token_data,
     snd (run_from w n (get_solana_token_data address)) = Ok token_data
     /\ flag_agrees solana_numeric_fields token_data)
  /\ (exists token_data,
        snd (run_from w n (get_evm_token_data address)) = Ok token_data
        /\ flag_agrees evm_numeric_fields token_data).
Proof.
  split.
  - pose proof (run_get_solana w n address) as Hrun. cbv zeta in Hrun.
    rewrite Hrun. eexists. split; [reflexivity|].
    repeat match goal with
           | |- flag_agrees _ (if ?c then _ else _) => destruct c
           | |- flag_agrees _ (updated _ (contribution _ solscan_fields)) =>
               apply flag_agrees_solscan
           | |- flag_agrees _ (updated _ (contribution _ (jupiter_fields _))) =>
               apply flag_agrees_jupiter
           | |- flag_agrees _ (updated _ (contribution _ solana_dex_fields)) =>
               apply flag_agrees_solana_dex
           | |- flag_agrees _ solana_defaults => apply flag_agrees_solana_defaults
           end.
  - pose proof (run_get_evm w n address) as Hrun. cbv zeta in Hrun.
    rewrite Hrun. eexists. split; [reflexivity|].
    repeat match goal with
           | |- flag_agrees _ (if ?c then _ else _) => destruct c
           | |- flag_agrees _ (updated _ (contribution _ (coingecko_fields _))) =>
               apply flag_agrees_coingecko
           | |- flag_agrees _ (updated _ (contribution _ evm_dex_fields)) =>
               apply flag_agrees_evm_dex
           | |- flag_agrees _ evm_defaults => apply flag_agrees_evm_defaults
           end.
Qed.

(** *** Answers without a JSON object *)

Lemma nothing_without_object (r : exc response)
    (fields : value -> exc (option (gmap string value))) :
  (forall data, (forall d, data <> VDict d) ->
     fields data = Ok None \/ exists e, fields data = Raise e) ->
  no_json_object r -> contribution r fields = None.
Proof.
  intros Hfields Hr. destruct r as [resp|e]; [|reflexivity]. simpl in *.
  destruct (Z.eqb_spec (status resp) 200) as [Hs|Hs]; [|reflexivity].
  destruct Hr as [Hr|Hr]; [done|].
  destruct (json resp) as [data|e]; [|reflexivity].
  destruct (Hfields data) as [-> | [e ->]]; try reflexivity.
  intros d ->. exact Hr.
Qed.

Lemma dex_needs_object (data : value) :
  (forall d, data <> VDict d) -> exists e, most_liquid_pair data = Raise e.
Proof. destruct data; try (now eexists). intros Hd. now destruct (Hd d). Qed.

Lemma solana_dex_without_object (r : exc response) :
  no_json_object r -> contribution r solana_dex_fields = None.
Proof.
  apply nothing_without_object. intros data [e He]%dex_needs_object. right.
  unfold solana_dex_fields. rewrite He. now exists e.
Qed.

Lemma evm_dex_without_object (r : exc response) :
  no_json_object r -> contribution r evm_dex_fields = None.
Proof.
  apply nothing_without_object. intros data [e He]%dex_needs_object. right.
  unfold evm_dex_fields. rewrite He. now exists e.
Qed.

Lemma jupiter_without_object (address : string) (r : exc response) :
  no_json_object r -> contribution r (jupiter_fields address) = None.
Proof.
  apply nothing_without_object. intros data Hd. right.
  destruct data; try (now eexists). now destruct (Hd d).
Qed.

Lemma coingecko_without_object (address : string) (r : exc response) :
  no_json_object r -> contribution r (coingecko_fields address) = None.
Proof.
  apply nothing_without_object. intros data Hd. right.
  destruct data; try (now eexists). now destruct (Hd d).
Qed.

Lemma solscan_without_object (r : exc response) :
  no_json_object r -> contribution r solscan_fields = None.
Proof.
  apply nothing_without_object. intros data Hd. unfold solscan_fields.
  destruct data as [|b|z|f|s|l|d]; cbn [py_in exc_bind py_get].
  - now left.
  - destruct (py_truthy (VBool b)); [right | left]; now eexists.
  - destruct (py_truthy (VInt z)); [right | left]; now eexists.
  - destruct (py_truthy (VFloat f)); [right | left]; now eexists.
  - destruct (py_truthy (VStr s)); cbn [exc_bind]; [|now left].
    destruct (is_infix "name" s); [right | left]; now eexists.
  - destruct (py_truthy (VList l)); cbn [exc_bind]; [|now left].
    destruct (existsb _ l); [right | left]; now eexists.
  - now destruct (Hd d).
Qed.

(** X8. When no answer carries a JSON object (the request raises, the
    status is not 200, the body is not JSON, or the JSON is a list, a
    string, a number, a boolean or null), each resolver asks every one of
    its sources in turn and returns its initial record. *)
Theorem answers_without_object (w : world) (n : nat) (address : string) :
  (forall m url, no_json_object (http w m url)) ->
  run_from w n (get_solana_token_data address)
  = ([Requested (dexscreener_url address); Requested (jupiter_url address);
      Requested (solscan_url address)], Ok solana_defaults)
  /\ run_from w n (get_evm_token_data address)
     = ([Requested (dexscreener_url address);
         Requested (coingecko_url address)], Ok evm_defaults).
Proof.
  intros Hw. split.
  - pose proof (run_get_solana w n address) as Hrun. cbv zeta in Hrun.
    rewrite Hrun. clear Hrun.
    rewrite solana_dex_without_object, jupiter_without_object by apply Hw.
    cbn [updated].
    assert (negb (py_truthy (dict_get solana_defaults "success" VNone)) = true)
      as -> by (vm_compute; reflexivity).
    cbn [updated].
    assert (py_eq_str (dict_get solana_defaults "name" VNone) "Unknown Token"
            = true) as -> by (vm_compute; reflexivity).
    now rewrite solscan_without_object by apply Hw.
  - pose proof (run_get_evm w n address) as Hrun. cbv zeta in Hrun.
    rewrite Hrun. clear Hrun.
    rewrite evm_dex_without_object by apply Hw. cbn [updated].
    assert (negb (py_truthy (dict_get evm_defaults "success" VNone)) = true)
      as -> by (vm_compute; reflexivity).
    now rewrite coingecko_without_object by apply Hw.
Qed.

(** *** Where a DexScreener record comes from *)

Lemma max_loop_among (key : value -> exc float) (rest : list value) :
  forall best best_key sel,
  max_loop key best best_key rest = Ok sel ->
  In sel (best :: rest) /\ Forall (fun p => exists k, key p = Ok k) rest.
Proof.
  induction rest as [|p rest IH]; intros best best_key sel Hsel.
  - injection Hsel as <-. split; [now left | constructor].
  - simpl in Hsel. destruct (key p) as [k|e] eqn:Hk; [|discriminate].
    simpl in Hsel. destruct (best_key <? k)%float.
    + apply IH in Hsel as [Hin Hall]. split.
      * right. exact Hin.
      * constructor; eauto.
    + apply IH in Hsel as [Hin Hall]. split.
      * destruct Hin as [<- | Hin]; [now left | right; now right].
      * constructor; eauto.
Qed.

Lemma py_max_among (key : value -> exc float) (items : list value) (sel : value) :
  py_max key items = Ok sel ->
  In sel items /\ Forall (fun p => exists k, key p = Ok k) items.
Proof.
  destruct items as [|p rest]; [discriminate|]. simpl.
  destruct (key p) as [k|e] eqn:Hk; [|discriminate]. simpl.
  intros [Hin Hall]%max_loop_among. split; [done|]. constructor; eauto.
Qed.

Lemma liquidity_needs_object (p : value) (k : float) :
  liquidity_usd p = Ok k -> exists d, p = VDict d.
Proof. destruct p; try discriminate. eauto. Qed.

Lemma most_liquid_pair_among (data best : value) :
  most_liquid_pair data = Ok (Some best) ->
  exists d items,
    data = VDict d /\ d !! "pairs" = Some (VList items) /\ In best items
    /\ Forall (fun p => exists k, liquidity_usd p = Ok k) items.
Proof.
  unfold most_liquid_pair. intros Hbest.
  apply exc_bind_ok in Hbest as (pairs & Hpairs & Hbest).
  apply exc_bind_ok in Hbest as (some & Hsome & Hbest).
  destruct some; [|discriminate].
  apply exc_bind_ok in Hbest as (items & Hitems & Hbest).
  apply exc_bind_ok in Hbest as (sel & Hmax & Hbest).
  injection Hbest as ->.
  apply py_max_among in Hmax as [Hin Hall].
  destruct data as [| | | | | |d]; try discriminate.
  exists d. simpl in Hpairs. injection Hpairs as Hpairs.
  assert (exists l, pairs = VList l) as [l ->].
  { destruct pairs as [| | | |s|l|d']; try discriminate; [| eauto |].
    - exfalso. simpl in Hitems. injection Hitems as <-.
      apply in_map_iff in Hin as (c & <- & Hc).
      rewrite Forall_forall in Hall.
      destruct (Hall (VStr (String c ""))) as [k Hk]; [|discriminate].
      apply list_elem_of_In, in_map_iff. eauto.
    - exfalso. simpl in Hitems. injection Hitems as <-.
      apply in_map_iff in Hin as (kv & <- & Hkv).
      rewrite Forall_forall in Hall.
      destruct (Hall (VStr (fst kv))) as [k Hk]; [|discriminate].
      apply list_elem_of_In, in_map_iff. eauto. }
  simpl in Hitems. injection Hitems as <-. exists l.
  destruct (d !! "pairs") as [v|] eqn:Hv.
  - subst v. done.
  - injection Hpairs as <-. destruct Hin.
Qed.

(** X9. DexScreener contributes to a record only from a list of pairs:
    the answer has status 200 and a JSON object whose [pairs] entry is a
    list, the liquidity of every pair in the list can be read, and the
    fields are those of one of the listed pairs. *)
Theorem dex_record_from_listed_pair (r : exc response)
    (new : gmap string value) :
  contribution r solana_dex_fields = Some new
  \/ contribution r evm_dex_fields = Some new ->
  exists resp d items best,
    r = Ok resp /\ status resp = 200%Z /\ json resp = Ok (VDict d)
    /\ d !! "pairs" = Some (VList items) /\ In best items
    /\ Forall (fun p => exists k, liquidity_usd p = Ok k) items
    /\ (solana_pair_fields best = Ok new \/ evm_pair_fields best = Ok new).
Proof.
  unfold contribution, solana_dex_fields, evm_dex_fields.
  destruct r as [resp|e]; [|now intros [|]].
  destruct (Z.eqb_spec (status resp) 200) as [Hs|Hs]; [|now intros [|]].
  destruct (json resp) as [data|e] eqn:Hjson; [|now intros [|]].
  destruct (most_liquid_pair data) as [[best|]|e] eqn:Hbest;
    cbn [exc_bind]; try (now intros [|]).
  apply most_liquid_pair_among in Hbest as (d & items & -> & Hpairs & Hin & Hall).
  intros Hnew. exists resp, d, items, best. repeat (split; [done|]).
  destruct Hnew as [Hnew | Hnew]; [left | right].
  - destruct (solana_pair_fields best) as [new'|]; [|done].
    simpl in Hnew. now injection Hnew as ->.
  - destruct (evm_pair_fields best) as [new'|]; [|done].
    simpl in Hnew. now injection Hnew as ->.
Qed.

End RequestOrder.

(** ** The keys of a record *)

Lemma dict_keys (items : list (string * value)) (key : string) :
  is_Some (dict items !! key) -> In key (map fst items).
Proof.
  intros [v Hv]. unfold dict in Hv. apply elem_of_list_to_map_2 in Hv.
  apply list_elem_of_In in Hv. apply in_map_iff. now exists (key, v).
Qed.

Lemma same_keys_updated (initial token_data : gmap string value)
    (found : option (gmap string value)) :
  (forall new key, found = Some new -> is_Some (new !! key) ->
     is_Some (initial !! key)) ->
  same_keys token_data initial ->
  same_keys (updated token_data found) initial.
Proof.
  destruct found as [new|]; simpl; [|done].
  intros Hnew Hsame key. rewrite lookup_py_update.
  destruct (new !! key) as [v|] eqn:Hv; [|apply Hsame].
  split; [intros _ | eauto]. apply (Hnew new key eq_refl). rewrite Hv. eauto.
Qed.

Section RecordKeys.
Context `{PyBuiltins}.

Ltac known_key Hkey :=
  apply dict_keys in Hkey; simpl in Hkey;
  repeat (destruct Hkey as [<-|Hkey]; [now eexists|]); destruct Hkey.

Lemma solana_dex_keys (r : exc response) (new : gmap string value) (key : string) :
  contribution r solana_dex_fields = Some new -> is_Some (new !! key) ->
  is_Some (solana_defaults !! key).
Proof.
  intros [p Hp]%solana_dex_contribution Hkey.
  apply solana_pair_fields_shape in Hp
    as (name & symbol & f1 & f2 & f3 & f4 & f5 & f6 & f7 & ->).
  known_key Hkey.
Qed.

Lemma jupiter_keys (address : string) (r : exc response)
    (new : gmap string value) (key : string) :
  contribution r (jupiter_fields address) = Some new -> is_Some (new !! key) ->
  is_Some (solana_defaults !! key).
Proof. intros [price ->]%jupiter_contribution Hkey. known_key Hkey. Qed.

Lemma solscan_keys (r : exc response) (new : gmap string value) (key : string) :
  contribution r solscan_fields = Some new -> is_Some (new !! key) ->
  is_Some (solana_defaults !! key).
Proof. intros (name & symbol & ->)%solscan_contribution Hkey. known_key Hkey. Qed.

Lemma evm_dex_keys (r : exc response) (new : gmap string value) (key : string) :
  contribution r evm_dex_fields = Some new -> is_Some (new !! key) ->
  is_Some (evm_defaults !! key).
Proof.
  intros [p Hp]%evm_dex_contribution Hkey.
  apply evm_pair_fields_shape in Hp
    as (name & symbol & f1 & f2 & f3 & f4 & f5 & f6 & ->).
  known_key Hkey.
Qed.

Lemma coingecko_keys (address : string) (r : exc response)
    (new : gmap string value) (key : string) :
  contribution r (coingecko_fields address) = Some new -> is_Some (new !! key) ->
  is_Some (evm_defaults !! key).
Proof.
  intros [record Hr]%coingecko_contribution Hkey.
  apply coingecko_record_fields_shape in Hr as (f1 & f2 & f3 & f4 & ->).
  known_key Hkey.
Qed.

(** X19. A resolved record has exactly the keys of the initial record of
    its resolver, whatever the sources answer: no source adds an entry
    and none is ever removed. The defaults that the handler passes to
    [get] are therefore never used on a record that a resolver returned. *)
Theorem resolved_record_keys (w : world) (n : nat) (address : string) :
  (exists token_data,
     snd (run_from w n (get_solana_token_data address)) = Ok token_data
     /\ same_keys token_data solana_defaults)
  /\ (exists token_data,
        snd (run_from w n (get_evm_token_data address)) = Ok token_data
        /\ same_keys token_data evm_defaults).
Proof.
  split.
  - pose proof (run_get_solana w n address) as Hrun. cbv zeta in Hrun.
    rewrite Hrun. eexists. split; [reflexivity|].
    repeat match goal with
           | |- same_keys (if ?c then _ else _) _ => destruct c
           | |- same_keys (updated _ (contribution _ solscan_fields)) _ =>
               apply same_keys_updated;
               [intros new key; apply solscan_keys|]
           | |- same_keys (updated _ (contribution _ (jupiter_fields _))) _ =>
               apply same_keys_updated;
               [intros new key; apply jupiter_keys|]
           | |- same_keys (updated _ (contribution _ solana_dex_fields)) _ =>
               apply same_keys_updated;
               [intros new key; apply solana_dex_keys|]
           | |- same_keys solana_defaults _ => done
           end.
  - pose proof (run_get_evm w n address) as Hrun. cbv zeta in Hrun.
    rewrite Hrun. eexists. split; [reflexivity|].
    repeat match goal with
           | |- same_keys (if ?c then _ else _) _ => destruct c
           | |- same_keys (updated _ (contribution _ (coingecko_fields _))) _ =>
               apply same_keys_updated;
               [intros new key; apply coingecko_keys|]
           | |- same_keys (updated _ (contribution _ evm_dex_fields)) _ =>
               apply same_keys_updated;
               [intros new key; apply evm_dex_keys|]
           | |- same_keys evm_defaults _ => done
           end.
Qed.

End RecordKeys.

(** ** Numbers that are not positive *)

Lemma SFltb_not_eqb_l (x y : spec_float) : SFltb x y = true -> SFeqb x y = false.
Proof. sf_order. Qed.

Lemma SFltb_trans (x y z : spec_float) :
  SFltb x y = true -> SFltb y z = true -> SFltb x z = true.
Proof. sf_order. Qed.

Lemma SFnan_eqb (x y : spec_float) : SFeqb x x = false -> SFeqb x y = false.
Proof. sf_order. Qed.

Lemma SFnan_leb (x y : spec_float) : SFeqb x x = false -> SFleb y x = false.
Proof. sf_order. Qed.

Lemma SFnan_ltb (x y : spec_float) :
  SFeqb x x = false -> SFltb y x = false /\ SFltb x y = false.
Proof. sf_order; split; reflexivity. Qed.

Lemma float_ltb_not_eqb_l (x y : float) :
  (x <? y)%float = true -> (x =? y)%float = false.
Proof. rewrite FloatAxioms.ltb_spec, FloatAxioms.eqb_spec. apply SFltb_not_eqb_l. Qed.

Lemma float_ltb_trans (x y z : float) :
  (x <? y)%float = true -> (y <? z)%float = true -> (x <? z)%float = true.
Proof. rewrite !FloatAxioms.ltb_spec. apply SFltb_trans. Qed.

Lemma is_nan_true (x : float) :
  is_nan x = true -> SFeqb (Prim2SF x) (Prim2SF x) = false.
Proof.
  unfold is_nan. rewrite FloatAxioms.eqb_spec. intros Hx.
  now apply negb_true_iff in Hx.
Qed.

Lemma float_nan_eqb (x y : float) : is_nan x = true -> (x =? y)%float = false.
Proof. intros Hx%is_nan_true. rewrite FloatAxioms.eqb_spec. now apply SFnan_eqb. Qed.

Lemma float_nan_leb (x y : float) : is_nan x = true -> (y <=? x)%float = false.
Proof. intros Hx%is_nan_true. rewrite FloatAxioms.leb_spec. now apply SFnan_leb. Qed.

Lemma float_nan_ltb (x y : float) :
  is_nan x = true -> (y <? x)%float = false /\ (x <? y)%float = false.
Proof. intros Hx%is_nan_true. rewrite !FloatAxioms.ltb_spec. now apply SFnan_ltb. Qed.

Section Formatting.
Context `{PyBuiltins}.

Lemma below_every_threshold (x a : float) :
  (x <? 0)%float = true -> (0 <? a)%float = true -> (a <=? x)%float = false.
Proof.
  intros Hx Ha. apply float_ltb_not_leb. now apply (float_ltb_trans _ 0).
Qed.

Lemma negative_is_not_zero (v : value) (x : float) :
  py_float v = Ok x -> (x <? 0)%float = true ->
  v <> VNone /\ py_eq_zero v = false.
Proof.
  intros Hx Hneg. split; [intros ->; discriminate|].
  destruct v as [|[]|z|f|s|l|d]; simpl in *; try done.
  - injection Hx as <-. discriminate.
  - destruct (Z.eqb_spec z 0) as [->|]; [|done].
    injection Hx as <-. discriminate.
  - injection Hx as ->. now apply float_ltb_not_eqb_l.
Qed.

Lemma nan_is_not_zero (v : value) (x : float) :
  py_float v = Ok x -> is_nan x = true ->
  v <> VNone /\ py_eq_zero v = false.
Proof.
  intros Hx Hnan. split; [intros ->; discriminate|].
  destruct v as [|[]|z|f|s|l|d]; simpl in *; try done.
  - injection Hx as <-. discriminate.
  - destruct (Z.eqb_spec z 0) as [->|]; [|done].
    injection Hx as <-. discriminate.
  - injection Hx as ->. now apply float_nan_eqb.
Qed.

(** X10. [format_number] has no suffix and no rounding to two decimals
    for a number that is not positive: a negative number is written with
    eight decimals whatever its size, and so is a NaN. Anything that
    [float] refuses gives the sentinel. *)
Theorem format_number_not_positive :
  (forall v x, py_float v = Ok x -> (x <? 0)%float = true ->
     format_number v = "$" +:+ format_fixed 8 x)
  /\ (forall v x, py_float v = Ok x -> is_nan x = true ->
        format_number v = "$" +:+ format_fixed 8 x)
  /\ (forall v e, py_float v = Raise e -> format_number v = "N/A").
Proof.
  split; [|split].
  - intros v x Hx Hneg. destruct (negative_is_not_zero v x Hx Hneg) as [Hv Hz].
    unfold format_number. rewrite Hz, Hx.
    rewrite !(below_every_threshold x) by done. now destruct v.
  - intros v x Hx Hnan. destruct (nan_is_not_zero v x Hx Hnan) as [Hv Hz].
    unfold format_number. rewrite Hz, Hx.
    rewrite !(float_nan_leb x) by done. now destruct v.
  - intros v e He. unfold format_number. rewrite He.
    destruct v; try reflexivity; now destruct (py_eq_zero _).
Qed.

End Formatting.

(** ** Slices of the address in the embeds *)

Lemma substring_all (s : string) : forall n,
  String.length s <= n -> substring 0 n s = s.
Proof.
  induction s as [|c s IH]; intros [|n] Hn; simpl in *; try reflexivity; try lia.
  f_equal. apply IH. lia.
Qed.

Lemma substring_head (a b : string) :
  substring 0 (String.length a) (a +:+ b) = a.
Proof.
  induction a as [|c a IH]; simpl; [now destruct b | now rewrite IH].
Qed.

Lemma substring_skip (a b : string) (n : nat) :
  substring (String.length a) n (a +:+ b) = substring 0 n b.
Proof. induction a as [|c a IH]; simpl; [reflexivity | exact IH]. Qed.

Lemma py_first_all (n : nat) (s : string) :
  String.length s <= n -> py_first n s = s.
Proof. apply substring_all. Qed.

Lemma py_last_all (n : nat) (s : string) :
  String.length s <= n -> py_last n s = s.
Proof.
  intros Hn. unfold py_last.
  replace (String.length s - n) with 0 by lia. now apply substring_all.
Qed.

Lemma py_first_head (a b : string) : py_first (String.length a) (a +:+ b) = a.
Proof. apply substring_head. Qed.

Lemma py_last_tail (a b : string) : py_last (String.length b) (a +:+ b) = b.
Proof.
  unfold py_last. rewrite str_length_app.
  replace (String.length a + String.length b - String.length b)
    with (String.length a) by lia.
  rewrite substring_skip. now apply substring_all.
Qed.

Lemma py_first_prefix (n : nat) (s : string) :
  (exists rest, s = py_first n s +:+ rest)
  /\ String.length (py_first n s) = Nat.min n (String.length s).
Proof.
  destruct (Nat.le_gt_cases (String.length s) n) as [Hle | Hgt].
  - rewrite py_first_all by done. split; [|lia].
    exists "". now rewrite str_app_nil_r.
  - destruct (str_split_at n s) as (a & b & -> & Ha); [lia|].
    subst n. rewrite py_first_head, str_length_app.
    split; [eauto | lia].
Qed.

Lemma py_last_suffix (n : nat) (s : string) :
  (exists rest, s = rest +:+ py_last n s)
  /\ String.length (py_last n s) = Nat.min n (String.length s).
Proof.
  destruct (Nat.le_gt_cases (String.length s) n) as [Hle | Hgt].
  - rewrite py_last_all by done. split; [|lia]. now exists "".
  - destruct (str_split_at (String.length s - n) s) as (a & b & -> & Ha); [lia|].
    rewrite str_length_app in *.
    assert (String.length b = n) as Hb by lia.
    subst n. rewrite py_last_tail.
    split; [eauto | lia].
Qed.

Section Slices.
Context `{PyBuiltins}.

(** X17. For a text of any length, the loading embed shows the first 20
    characters of the text, or all of it when it has fewer, then the dots,
    then its last 10 characters, or all of it when it has fewer. So a text
    of up to 10 characters is shown in full twice, a text of up to 30
    characters has every character shown, and from 30 characters on the
    two pieces are apart, with a middle part of the text left out; an
    address has at least 32 characters and loses at least two. *)
Theorem address_in_loading_embed (address addr_type : string) :
  exists head tail,
    description (loading_embed address addr_type)
    = "**Address:** `" +:+ head +:+ "..." +:+ tail +:+ "`" +:+ nl
      +:+ "**Chain:** " +:+ addr_type
    /\ (exists rest, address = head +:+ rest)
    /\ (exists rest, address = rest +:+ tail)
    /\ String.length head = Nat.min 20 (String.length address)
    /\ String.length tail = Nat.min 10 (String.length address)
    /\ (String.length address <= 10 -> head = address /\ tail = address)
    /\ (String.length address <= 30 ->
        String.length address <= String.length head + String.length tail)
    /\ (30 <= String.length address ->
        exists middle,
          address = head +:+ middle +:+ tail
          /\ String.length middle = String.length address - 30).
Proof.
  exists (py_first 20 address), (py_last 10 address).
  destruct (py_first_prefix 20 address) as [Hprefix Hhead].
  destruct (py_last_suffix 10 address) as [Hsuffix Htail].
  split; [reflexivity|]. repeat (split; [done|]). split; [|split].
  - intros Hlen. now rewrite py_first_all, py_last_all by lia.
  - lia.
  - intros Hlen.
    destruct (str_split_at 20 address) as (head & rest & -> & Hlhead); [lia|].
    rewrite str_length_app in Hlen.
    destruct (str_split_at (String.length rest - 10) rest)
      as (middle & tail & -> & Hmiddle); [lia|].
    rewrite str_length_app in *.
    assert (String.length tail = 10) as Hltail by lia.
    exists middle. split; [|rewrite !str_length_app; lia].
    rewrite <- Hlhead at 1. rewrite py_first_head.
    rewrite <- (str_app_assoc head middle tail), <- Hltail, py_last_tail.
    now rewrite str_app_assoc.
Qed.

End Slices.

(** ** format_percentage *)

Section Percentages.
Context `{PyBuiltins}.

(** X18. [format_percentage] gives [0.00%] without a mark for [None] and
    for anything equal to zero. A positive float gets the green mark, and
    every other float that is not zero the red one: a negative float, and
    a NaN as well. A string is refused with a ValueError even when it
    spells a number, although [format_number] accepts it. *)
Theorem format_percentage_cases :
  format_percentage VNone = Ok "0.00%"
  /\ (forall v, py_eq_zero v = true -> format_percentage v = Ok "0.00%")
  /\ (forall f, (0 <? f)%float = true ->
        format_percentage (VFloat f)
        = Ok ("🟢 " +:+ format_signed_fixed 2 f +:+ "%"))
  /\ (forall f, (f <? 0)%float = true \/ is_nan f = true ->
        format_percentage (VFloat f)
        = Ok ("🔴 " +:+ format_signed_fixed 2 f +:+ "%"))
  /\ (forall s, format_percentage (VStr s) = Raise ValueError).
Proof.
  split; [reflexivity|]. split; [|split; [|split]].
  - intros v Hzero. unfold format_percentage. rewrite Hzero. now destruct v.
  - intros f Hpos. unfold format_percentage. cbn [py_eq_zero].
    rewrite (float_ltb_not_eqb _ _ Hpos). cbn [py_number py_gt_zero exc_bind].
    now rewrite Hpos.
  - intros f Hf. unfold format_percentage. cbn [py_eq_zero].
    assert ((f =? 0)%float = false /\ (0 <? f)%float = false) as [-> Hnot].
    { destruct Hf as [Hneg | Hnan].
      - split; [now apply float_ltb_not_eqb_l|].
        destruct (0 <? f)%float eqn:Hpos; [|reflexivity].
        pose proof (float_ltb_trans _ _ _ Hneg Hpos) as Hff.
        apply float_ltb_not_eqb in Hff. apply float_ltb_leb in Hneg.
        apply float_ltb_not_leb in Hpos. congruence.
      - split; [now apply float_nan_eqb|].
        now destruct (float_nan_ltb f 0 Hnan). }
    cbn [py_number py_gt_zero exc_bind]. now rewrite Hnot.
  - reflexivity.
Qed.

End Percentages.

(** ** Records as the resolvers leave them *)

Lemma settled_updated (numeric : list string)
    (token_data : gmap string value) (found : option (gmap string value)) :
  (forall new, found = Some new ->
     (new !! "success" = None \/ exists b, new !! "success" = Some (VBool b))
     /\ (forall key, In key numeric ->
           new !! key = None \/ exists f, new !! key = Some (VFloat f))) ->
  settled_record numeric token_data ->
  settled_record numeric (updated token_data found).
Proof.
  destruct found as [new|]; simpl; [|done].
  intros Hnew [Hb Hnum]. destruct (Hnew new eq_refl) as [Hsuccess Hkeys]. split.
  - rewrite lookup_py_update. now destruct Hsuccess as [->|[b ->]]; eauto.
  - intros key Hkey. rewrite lookup_py_update.
    destruct (Hkeys key Hkey) as [->|[f ->]]; [auto|].
    exists (VFloat f). split; [done|]. right. eauto.
Qed.

Lemma solana_defaults_settled :
  settled_record solana_numeric_fields solana_defaults.
Proof.
  split; [now exists false|].
  intros key Hkey. each_key Hkey; exists (VInt 0); split; try reflexivity; now left.
Qed.

Lemma evm_defaults_settled :
  settled_record evm_numeric_fields evm_defaults.
Proof.
  split; [now exists false|].
  intros key Hkey. each_key Hkey; exists (VInt 0); split; try reflexivity; now left.
Qed.

Section SettledRecords.
Context `{PyBuiltins}.

Ltac settled_facts :=
  subst; split;
  [ dict_lookup; eauto
  | let key := fresh "key" in
    let Hkey := fresh "Hkey" in
    intros key Hkey; each_key Hkey; dict_lookup; eauto ].

Lemma solana_dex_keeps_settled (r : exc response)
    (token_data : gmap string value) :
  settled_record solana_numeric_fields token_data ->
  settled_record solana_numeric_fields
    (updated token_data (contribution r solana_dex_fields)).
Proof.
  apply settled_updated. intros new [p Hp]%solana_dex_contribution.
  apply solana_pair_fields_shape in Hp
    as (name & symbol & f1 & f2 & f3 & f4 & f5 & f6 & f7 & ->).
  settled_facts.
Qed.

Lemma jupiter_keeps_settled (address : string) (r : exc response)
    (token_data : gmap string value) :
  settled_record solana_numeric_fields token_data ->
  settled_record solana_numeric_fields
    (updated token_data (contribution r (jupiter_fields address))).
Proof.
  apply settled_updated. intros new [price ->]%jupiter_contribution.
  settled_facts.
Qed.

Lemma solscan_keeps_settled (r : exc response)
    (token_data : gmap string value) :
  settled_record solana_numeric_fields token_data ->
  settled_record solana_numeric_fields
    (updated token_data (contribution r solscan_fields)).
Proof.
  apply settled_updated. intros new (name & symbol & ->)%solscan_contribution.
  settled_facts.
Qed.

Lemma evm_dex_keeps_settled (r : exc response)
    (token_data : gmap string value) :
  settled_record evm_numeric_fields token_data ->
  settled_record evm_numeric_fields
    (updated token_data (contribution r evm_dex_fields)).
Proof.
  apply settled_updated. intros new [p Hp]%evm_dex_contribution.
  apply evm_pair_fields_shape in Hp
    as (name & symbol & f1 & f2 & f3 & f4 & f5 & f6 & ->).
  settled_facts.
Qed.

Lemma coingecko_keeps_settled (address : string) (r : exc response)
    (token_data : gmap string value) :
  settled_record evm_numeric_fields token_data ->
  settled_record evm_numeric_fields
    (updated token_data (contribution r (coingecko_fields address))).
Proof.
  apply settled_updated. intros new [record Hr]%coingecko_contribution.
  apply coingecko_record_fields_shape in Hr as (f1 & f2 & f3 & f4 & ->).
  settled_facts.
Qed.

Lemma solana_record_settled (w : world) (n : nat) (address : string) :
  exists requests token_data,
    run_from w n (get_solana_token_data address) = (requests, Ok token_data)
    /\ Forall (fun ev => is_request ev = true) requests
    /\ settled_record solana_numeric_fields token_data.
Proof.
  pose proof (run_get_solana w n address) as Hrun. cbv zeta in Hrun.
  rewrite Hrun. eexists _, _. split; [reflexivity|]. split.
  - constructor; [reflexivity|]. apply Forall_app. split.
    + destruct (negb _); repeat constructor.
    + destruct (py_eq_str _ _); repeat constructor.
  - repeat match goal with
           | |- settled_record _ (if ?c then _ else _) => destruct c
           | |- settled_record _ (updated _ (contribution _ solscan_fields)) =>
               apply solscan_keeps_settled
           | |- settled_record _ (updated _ (contribution _ (jupiter_fields _))) =>
               apply jupiter_keeps_settled
           | |- settled_record _ (updated _ (contribution _ solana_dex_fields)) =>
               apply solana_dex_keeps_settled
           | |- settled_record _ solana_defaults => apply solana_defaults_settled
           end.
Qed.

Lemma evm_record_settled (w : world) (n : nat) (address : string) :
  exists requests token_data,
    run_from w n (get_evm_token_data address) = (requests, Ok token_data)
    /\ Forall (fun ev => is_request ev = true) requests
    /\ settled_record evm_numeric_fields token_data.
Proof.
  pose proof (run_get_evm w n address) as Hrun. cbv zeta in Hrun.
  rewrite Hrun. eexists _, _. split; [reflexivity|]. split.
  - constructor; [reflexivity|]. destruct (negb _); repeat constructor.
  - repeat match goal with
           | |- settled_record _ (if ?c then _ else _) => destruct c
           | |- settled_record _ (updated _ (contribution _ (coingecko_fields _))) =>
               apply coingecko_keeps_settled
           | |- settled_record _ (updated _ (contribution _ evm_dex_fields)) =>
               apply evm_dex_keeps_settled
           | |- settled_record _ evm_defaults => apply evm_defaults_settled
           end.
Qed.

(** ** The final embed *)

Lemma figure_at (numeric : list string) (token_data : gmap string value)
    (key : string) :
  settled_record numeric token_data -> In key numeric ->
  figure (dict_get token_data key (VInt 0)).
Proof.
  intros [_ Hnum] Hkey. destruct (Hnum key Hkey) as (v & Hv & Hfig).
  unfold dict_get. now rewrite Hv.
Qed.

Lemma figure_gt_zero (v : value) : figure v -> exists b, py_gt_zero v = Ok b.
Proof. intros [-> | [f ->]]; simpl; eauto. Qed.

Lemma figure_lt_zero (v : value) : figure v -> exists b, py_lt_zero v = Ok b.
Proof. intros [-> | [f ->]]; simpl; eauto. Qed.

Lemma figure_percentage (v : value) :
  figure v -> exists text, format_percentage v = Ok text.
Proof.
  intros [-> | [f ->]]; simpl; [eauto|].
  destruct (f =? 0)%float; simpl; eauto.
Qed.

Lemma figure_add_if_positive (v : value) (label text : string) :
  figure v -> exists text', add_if_positive v label text = Ok text'.
Proof.
  intros [b Hb]%figure_gt_zero. unfold add_if_positive. rewrite Hb. simpl. eauto.
Qed.

Lemma figure_add_if_nonzero (v : value) (label text : string) :
  figure v -> exists text', add_if_nonzero v label text = Ok text'.
Proof.
  intros Hv. unfold add_if_nonzero. destruct (negb (py_eq_zero v)); [|eauto].
  destruct (figure_percentage v Hv) as [shown ->]. simpl. eauto.
Qed.

Lemma performance_of_settled (numeric : list string)
    (token_data : gmap string value) :
  settled_record numeric token_data ->
  In "priceChange1h" numeric -> In "priceChange24h" numeric ->
  exists f, performance_field token_data = Ok f.
Proof.
  intros Htd H1 H24. unfold performance_field.
  destruct (figure_add_if_nonzero (dict_get token_data "priceChange1h" (VInt 0))
              "🕐 **1H:** " "" (figure_at _ _ _ Htd H1)) as [t1 ->].
  cbn [exc_bind].
  destruct (figure_add_if_nonzero (dict_get token_data "priceChange24h" (VInt 0))
              "📅 **24H:** " t1 (figure_at _ _ _ Htd H24)) as [t2 ->].
  cbn [exc_bind]. eauto.
Qed.

Ltac add_positive Htd key :=
  match goal with
  | |- context [add_if_positive (dict_get ?td key (VInt 0)) ?label ?text] =>
      let t := fresh "text" in
      let Ht := fresh "Ht" in
      destruct (figure_add_if_positive (dict_get td key (VInt 0)) label text)
        as [t Ht];
      [ apply (figure_at _ _ _ Htd); simpl; tauto
      | rewrite Ht; cbn [exc_bind] ]
  end.

Lemma solana_fields_of_settled (address : string)
    (token_data : gmap string value) :
  settled_record solana_numeric_fields token_data ->
  exists fs, solana_fields address token_data = Ok fs.
Proof.
  intros Htd. unfold solana_fields.
  destruct (py_truthy (dict_get token_data "success" VNone));
    [|cbn [exc_bind]; eauto].
  cbv zeta.
  add_positive Htd "marketCap". add_positive Htd "fdv".
  add_positive Htd "liquidity". add_positive Htd "volume24h".
  destruct (performance_of_settled _ _ Htd) as [f ->]; [simpl; tauto..|].
  cbn [exc_bind]. eauto.
Qed.

Lemma evm_fields_of_settled (address : string)
    (token_data : gmap string value) :
  settled_record evm_numeric_fields token_data ->
  exists fs, evm_fields address token_data = Ok fs.
Proof.
  intros Htd. unfold evm_fields.
  destruct (py_truthy (dict_get token_data "success" VNone));
    [|cbn [exc_bind]; eauto].
  cbv zeta.
  add_positive Htd "marketCap".
  add_positive Htd "liquidity". add_positive Htd "volume24h".
  destruct (performance_of_settled _ _ Htd) as [f ->]; [simpl; tauto..|].
  cbn [exc_bind]. eauto.
Qed.

Lemma final_embed_of_fields (msg : message) (address addr_type : string)
    (token_data : gmap string value) :
  figure (dict_get token_data "priceChange24h" (VInt 0)) ->
  (exists fs, chain_fields address addr_type token_data = Ok fs) ->
  exists e, final_embed msg address addr_type token_data = Ok e.
Proof.
  intros Hchange [fs Hfs]. unfold final_embed. cbv zeta.
  destruct (figure_gt_zero _ Hchange) as [up ->]. cbn [exc_bind].
  destruct (figure_lt_zero _ Hchange) as [down ->].
  destruct up; cbn [exc_bind]; rewrite Hfs; cbn [exc_bind]; eauto.
Qed.

Lemma fetch_then_embed (w : world) (n : nat) (msg : message)
    (address addr_type : string) :
  exists requests token_data e,
    run_from w n (fetch_token_data address addr_type)
    = (requests, Ok token_data)
    /\ Forall (fun ev => is_request ev = true) requests
    /\ final_embed msg address addr_type token_data = Ok e.
Proof.
  unfold fetch_token_data.
  destruct (String.eqb addr_type "Solana") eqn:Hsol.
  - apply String.eqb_eq in Hsol as ->.
    destruct (solana_record_settled w n address) as (rs & td & Hrun & Hrs & Htd).
    destruct (final_embed_of_fields msg address "Solana" td) as [e He].
    + apply (figure_at _ _ _ Htd). simpl. tauto.
    + now apply solana_fields_of_settled.
    + exists rs, td, e. auto.
  - destruct (String.eqb addr_type "EVM (Ethereum/BSC)") eqn:Hevm.
    + apply String.eqb_eq in Hevm as ->.
      destruct (evm_record_settled w n address) as (rs & td & Hrun & Hrs & Htd).
      destruct (final_embed_of_fields msg address "EVM (Ethereum/BSC)" td)
        as [e He].
      * apply (figure_at _ _ _ Htd). simpl. tauto.
      * now apply evm_fields_of_settled.
      * exists rs, td, e. auto.
    + apply String.eqb_neq in Hsol, Hevm.
      exists [], (dict [("success", VBool false)]), (warning_embed msg address addr_type).
      split; [reflexivity|]. split; [constructor|].
      now apply final_embed_without_data.
Qed.

(** X11. Whatever the type of a match and whatever the sources answer,
    fetching its data asks the sources and nothing else, ends with a
    record, and the final embed is built from that record without an
    exception: between the loading message and the edit, nothing in the
    handling of a match can fail. *)
Theorem final_embed_is_built (w : world) (n : nat) (msg : message)
    (address addr_type : string) :
  exists requests token_data e,
    run_from w n (fetch_token_data address addr_type)
    = (requests, Ok token_data)
    /\ Forall (fun ev => is_request ev = true) requests
    /\ final_embed msg address addr_type token_data = Ok e.
Proof. apply fetch_then_embed. Qed.

End SettledRecords.

(** ** The handling of one match *)

Section MatchHandling.
Context `{PyBuiltins}.

Lemma run_report_error (w : world) (n : nat) (e : exn)
    (loading_msg : option sent_message) (address addr_type : string) :
  run_from w n (report_error e loading_msg address addr_type)
  = match loading_msg with
    | Some m =>
        match platform_edit w n m (error_edit e address addr_type) with
        | Ok _ => ([Edited m (error_edit e address addr_type)], Ok tt)
        | Raise _ =>
            ([Edited m (error_edit e address addr_type);
              Sent (error_notice address addr_type)],
             match platform_send w (S n) (error_notice address addr_type) with
             | Ok _ => Ok tt
             | Raise e' => Raise e'
             end)
        end
    | None =>
        ([Sent (error_notice address addr_type)],
         match platform_send w n (error_notice address addr_type) with
         | Ok _ => Ok tt
         | Raise e' => Raise e'
         end)
    end.
Proof.
  unfold report_error, message_edit, channel_send, error_edit, error_notice.
  destruct loading_msg as [m|]; cbn [try_except bind run_from lift].
  - destruct (platform_edit w n m _) as [[]|e'];
      cbn [try_except bind run_from lift]; [reflexivity|].
    now destruct (platform_send w (S n) _).
  - now destruct (platform_send w n _).
Qed.

Lemma run_process_address (w : world) (n : nat) (msg : message)
    (loading_msg : option sent_message) (address addr_type : string)
    (m : sent_message) :
  platform_send w n (WithEmbed (loading_embed address addr_type)) = Ok m ->
  exists requests token_data e,
    run_from w (S n) (fetch_token_data address addr_type)
    = (requests, Ok token_data)
    /\ Forall (fun ev => is_request ev = true) requests
    /\ final_embed msg address addr_type token_data = Ok e
    /\ let k := S n + length requests in
       let before :=
         Sent (WithEmbed (loading_embed address addr_type))
         :: requests ++ [Edited m (WithEmbed e)] in
       run_from w n (process_address msg loading_msg address addr_type)
       = match platform_edit w k m (WithEmbed e) with
         | Ok _ => (before, Ok (Some m))
         | Raise err =>
             match platform_edit w (S k) m (error_edit err address addr_type) with
             | Ok _ =>
                 (before ++ [Edited m (error_edit err address addr_type)],
                  Ok (Some m))
             | Raise _ =>
                 (before ++ [Edited m (error_edit err address addr_type);
                             Sent (error_notice address addr_type)],
                  match platform_send w (S (S k))
                          (error_notice address addr_type) with
                  | Ok _ => Ok (Some m)
                  | Raise e' => Raise e'
                  end)
             end
         end.
Proof.
  intros Hsent.
  destruct (fetch_then_embed w (S n) msg address addr_type)
    as (requests & token_data & e & Hfetch & Hrequests & Hembed).
  exists requests, token_data, e. repeat (split; [done|]). cbv zeta.
  unfold process_address. cbn [run_from]. rewrite Hsent.
  rewrite run_from_bind, run_from_try, run_from_bind, Hfetch.
  rewrite run_from_bind, Hembed. cbn [lift run_from length].
  rewrite Nat.add_0_r. unfold message_edit. cbn [run_from].
  destruct (platform_edit w (S n + length requests) m (WithEmbed e)) as [[]|err].
  - cbn [lift run_from app length]. now rewrite !app_nil_r.
  - cbn [lift run_from app]. rewrite length_app. cbn [length].
    rewrite run_report_error.
    replace (S n + (length requests + 1)) with (S (S n + length requests)) by lia.
    destruct (platform_edit w (S (S n + length requests)) m
                (error_edit err address addr_type)) as [[]|err'].
    + cbn [app]. now rewrite app_nil_r.
    + destruct (platform_send w (S (S (S n + length requests)))
                  (error_notice address addr_type)) as [m'|e'];
        cbn [app]; now rewrite ?app_nil_r.
Qed.

(** X12. Once the platform has taken the loading message of a match, the
    handler asks the sources, builds the final embed and edits that very
    message with it. If the edit is accepted nothing else happens. If it
    is refused, the same message is edited again with the error text, and
    if that is refused too a plain error message is sent; only a refusal
    of this last message makes the handler raise. *)
Theorem match_is_handled (w : world) (n : nat) (msg : message)
    (loading_msg : option sent_message) (address addr_type : string)
    (m : sent_message) :
  platform_send w n (WithEmbed (loading_embed address addr_type)) = Ok m ->
  exists requests token_data e,
    run_from w (S n) (fetch_token_data address addr_type)
    = (requests, Ok token_data)
    /\ Forall (fun ev => is_request ev = true) requests
    /\ final_embed msg address addr_type token_data = Ok e
    /\ let k := S n + length requests in
       let before :=
         Sent (WithEmbed (loading_embed address addr_type))
         :: requests ++ [Edited m (WithEmbed e)] in
       run_from w n (process_address msg loading_msg address addr_type)
       = match platform_edit w k m (WithEmbed e) with
         | Ok _ => (before, Ok (Some m))
         | Raise err =>
             match platform_edit w (S k) m (error_edit err address addr_type) with
             | Ok _ =>
                 (before ++ [Edited m (error_edit err address addr_type)],
                  Ok (Some m))
             | Raise _ =>
                 (before ++ [Edited m (error_edit err address addr_type);
                             Sent (error_notice address addr_type)],
                  match platform_send w (S (S k))
                          (error_notice address addr_type) with
                  | Ok _ => Ok (Some m)
                  | Raise e' => Raise e'
                  end)
             end
         end.
Proof. apply run_process_address. Qed.

Lemma run_refused_loading (w : world) (n : nat) (msg : message)
    (loading_msg : option sent_message) (address addr_type : string)
    (err : exn) :
  platform_send w n (WithEmbed (loading_embed address addr_type)) = Raise err ->
  run_from w n (process_address msg loading_msg address addr_type)
  = match loading_msg with
    | Some previous =>
        match platform_edit w (S n) previous
                (error_edit err address addr_type) with
        | Ok _ =>
            ([Sent (WithEmbed (loading_embed address addr_type));
              Edited previous (error_edit err address addr_type)],
             Ok loading_msg)
        | Raise _ =>
            ([Sent (WithEmbed (loading_embed address addr_type));
              Edited previous (error_edit err address addr_type);
              Sent (error_notice address addr_type)],
             match platform_send w (S (S n))
                     (error_notice address addr_type) with
             | Ok _ => Ok loading_msg
             | Raise e' => Raise e'
             end)
        end
    | None =>
        ([Sent (WithEmbed (loading_embed address addr_type));
          Sent (error_notice address addr_type)],
         match platform_send w (S n) (error_notice address addr_type) with
         | Ok _ => Ok None
         | Raise e' => Raise e'
         end)
    end.
Proof.
  intros Hsent. unfold process_address. cbn [run_from]. rewrite Hsent.
  rewrite run_from_bind, run_report_error.
  destruct loading_msg as [previous|].
  - destruct (platform_edit w (S n) previous _) as [[]|err']; [reflexivity|].
    now destruct (platform_send w (S (S n)) _).
  - now destruct (platform_send w (S n) _).
Qed.

(** X13. When the platform refuses the loading message of a match, no
    source is asked for that match. The error text goes to the loading
    message of the match handled before it, which the variable still
    holds, and to a new message when there is no such match or when that
    edit is refused as well. *)
Theorem refused_loading_message (w : world) (n : nat) (msg : message)
    (loading_msg : option sent_message) (address addr_type : string)
    (err : exn) :
  platform_send w n (WithEmbed (loading_embed address addr_type)) = Raise err ->
  run_from w n (process_address msg loading_msg address addr_type)
  = match loading_msg with
    | Some previous =>
        match platform_edit w (S n) previous
                (error_edit err address addr_type) with
        | Ok _ =>
            ([Sent (WithEmbed (loading_embed address addr_type));
              Edited previous (error_edit err address addr_type)],
             Ok loading_msg)
        | Raise _ =>
            ([Sent (WithEmbed (loading_embed address addr_type));
              Edited previous (error_edit err address addr_type);
              Sent (error_notice address addr_type)],
             match platform_send w (S (S n))
                     (error_notice address addr_type) with
             | Ok _ => Ok loading_msg
             | Raise e' => Raise e'
             end)
        end
    | None =>
        ([Sent (WithEmbed (loading_embed address addr_type));
          Sent (error_notice address addr_type)],
         match platform_send w (S n) (error_notice address addr_type) with
         | Ok _ => Ok None
         | Raise e' => Raise e'
         end)
    end.
Proof. apply run_refused_loading. Qed.

(** ** The whole handler *)

Lemma embeds_sent_app (t1 t2 : list event) :
  embeds_sent (t1 ++ t2) = embeds_sent t1 ++ embeds_sent t2.
Proof.
  induction t1 as [|[url|[e|text]|target out|] t1 IH]; simpl; try done.
  now rewrite IH.
Qed.

Lemma embeds_sent_requests (t : list event) :
  Forall (fun ev => is_request ev = true) t -> embeds_sent t = [].
Proof.
  induction 1 as [|[url|out|target out|] t Hev _ IH]; simpl; try done.
Qed.

Lemma process_address_accepted (w : world) (n : nat) (msg : message)
    (loading_msg : option sent_message) (address addr_type : string) :
  (forall k out, exists m, platform_send w k out = Ok m) ->
  exists t loading_msg',
    run_from w n (process_address msg loading_msg address addr_type)
    = (t, Ok loading_msg')
    /\ embeds_sent t = [loading_embed address addr_type].
Proof.
  intros Hsend.
  destruct (Hsend n (WithEmbed (loading_embed address addr_type))) as [m Hm].
  destruct (run_process_address w n msg loading_msg address addr_type m Hm)
    as (requests & token_data & e & _ & Hrequests & _ & Hrun).
  cbv zeta in Hrun. rewrite Hrun. clear Hrun.
  assert (embeds_sent (requests ++ [Edited m (WithEmbed e)]) = []) as Hbefore.
  { rewrite embeds_sent_app, embeds_sent_requests by done. reflexivity. }
  destruct (platform_edit w _ m (WithEmbed e)) as [[]|err].
  - eexists _, _. split; [reflexivity|]. simpl. now rewrite Hbefore.
  - destruct (platform_edit w _ m (error_edit err address addr_type))
      as [[]|err'].
    + eexists _, _. split; [reflexivity|].
      rewrite embeds_sent_app. simpl. now rewrite Hbefore.
    + destruct (Hsend (S (S (S n + length requests)))
                  (error_notice address addr_type)) as [m' ->].
      eexists _, _. split; [reflexivity|].
      rewrite embeds_sent_app. simpl. now rewrite Hbefore.
Qed.

Lemma process_found_accepted (w : world) (msg : message)
    (found : list (string * string)) :
  (forall k out, exists m, platform_send w k out = Ok m) ->
  forall n loading_msg,
  exists t,
    run_from w n (process_found msg loading_msg found) = (t, Ok tt)
    /\ embeds_sent t = map (fun m => loading_embed (fst m) (snd m)) found.
Proof.
  intros Hsend. induction found as [|[address addr_type] found IH];
    intros n loading_msg.
  - now exists [].
  - cbn [process_found]. rewrite run_from_bind.
    destruct (process_address_accepted w n msg loading_msg address addr_type Hsend)
      as (t & loading_msg' & -> & Ht).
    destruct (IH (n + length t) loading_msg') as (t' & -> & Ht').
    exists (t ++ t'). split; [reflexivity|].
    rewrite embeds_sent_app, Ht, Ht'. reflexivity.
Qed.

(** X14. While the platform accepts new messages, the handler of a
    message that is not the bot's own never stops early: it sends one
    loading embed for each match of the scan, in the order of the scan
    and with repetitions, no other embed as a new message, then hands
    the message to the command processor, and raises only if that does;
    sources that fail and edits that are refused change none of this. *)
Theorem every_match_is_announced (w : world) (msg : message) :
  author_is_bot msg = false ->
  (forall k out, exists m, platform_send w k out = Ok m) ->
  exists t,
    run w (on_message msg)
    = (t ++ [CommandsProcessed], platform_commands w (length t))
    /\ embeds_sent t
       = map (fun m => loading_embed (fst m) (snd m)) (scan (content msg)).
Proof.
  intros Hbot Hsend. unfold run, on_message. rewrite Hbot.
  rewrite run_from_bind.
  destruct (process_found_accepted w msg (scan (content msg)) Hsend 0 None)
    as (t & Ht & Hembeds).
  change (find_addresses (strip (content msg))) with (scan (content msg)).
  rewrite Ht. exists t. split; [|exact Hembeds].
  unfold process_commands. cbn [run_from Nat.add].
  now destruct (platform_commands w (length t)).
Qed.

(** X15. While the platform refuses new messages, the handler of a
    message with a match stops at the first match: the loading message and
    the plain error message are both refused, the handler raises, no
    source is asked, the other matches are not handled and the message
    never reaches the command processor. *)
Theorem refused_messages_end_the_handler (w : world) (msg : message)
    (address addr_type : string) (others : list (string * string)) :
  author_is_bot msg = false ->
  scan (content msg) = (address, addr_type) :: others ->
  (forall k out, exists e, platform_send w k out = Raise e) ->
  exists e,
    platform_send w 1 (error_notice address addr_type) = Raise e
    /\ run w (on_message msg)
       = ([Sent (WithEmbed (loading_embed address addr_type));
           Sent (error_notice address addr_type)], Raise e).
Proof.
  intros Hbot Hscan Hsend. unfold run, on_message. rewrite Hbot.
  change (find_addresses (strip (content msg))) with (scan (content msg)).
  rewrite Hscan. cbn [process_found].
  destruct (Hsend 0 (WithEmbed (loading_embed address addr_type))) as [err Herr].
  destruct (Hsend 1 (error_notice address addr_type)) as [e He].
  exists e. split; [exact He|].
  rewrite !run_from_bind, (run_refused_loading w 0 msg None _ _ err Herr), He.
  reflexivity.
Qed.

End MatchHandling.

(** ** The test command *)

Section CommandFacts.
Context `{PyBuiltins}.
Variable json_dumps : gmap string value -> string.

Lemma run_send_accepted (w : world) (n : nat) (out : outgoing) :
  (forall k out, exists m, platform_send w k out = Ok m) ->
  run_from w n (bind (channel_send out) (fun _ => Ret tt)) = ([Sent out], Ok tt).
Proof.
  intros Hsend. unfold channel_send. cbn [bind run_from].
  now destruct (Hsend n out) as [m ->].
Qed.

Lemma detect_other (s : string) :
  ~ matches solana_pattern s -> ~ matches evm_pattern s ->
  detect_address_type s = "URL" \/ detect_address_type s = "Unknown".
Proof.
  intros Hsol Hevm. unfold detect_address_type.
  destruct (fullmatch solana_pattern s) eqn:E1;
    [now apply fullmatch_matches in E1|].
  destruct (fullmatch evm_pattern s) eqn:E2;
    [now apply fullmatch_matches in E2|].
  destruct (fullmatch url_pattern s); tauto.
Qed.

Ltac accept_message Hsend :=
  match goal with
  | |- context [platform_send ?w ?k ?out] =>
      let m := fresh "m" in
      let Hm := fresh "Hm" in
      destruct (Hsend k out) as [m Hm]; rewrite Hm; clear Hm
  end.

(** X16. The test command classifies its whole argument. While the
    platform accepts messages it announces the type, and then asks the
    Solana resolver exactly when the argument is 32 to 44 base58
    characters, the EVM resolver exactly when it is [0x] and 40 hex
    digits, and sends the resolved record; for anything else, a URL
    included, it answers that the type is invalid and asks no source. *)
Theorem test_command_asks (w : world) (address : string) :
  address <> "" ->
  (forall k out, exists m, platform_send w k out = Ok m) ->
  let announce :=
    Sent (WithContent ("🧪 Testing " +:+ detect_address_type address
                       +:+ " address: `" +:+ address +:+ "`")) in
  (matches solana_pattern address ->
     exists requests data,
       run_from w 1 (get_solana_token_data address) = (requests, Ok data)
       /\ run w (test_command json_dumps (Some address))
          = (announce :: requests ++ [Sent (test_result json_dumps data)], Ok tt))
  /\ (matches evm_pattern address ->
        exists requests data,
          run_from w 1 (get_evm_token_data address) = (requests, Ok data)
          /\ run w (test_command json_dumps (Some address))
             = (announce :: requests ++ [Sent (test_result json_dumps data)],
                Ok tt))
  /\ (~ matches solana_pattern address -> ~ matches evm_pattern address ->
        run w (test_command json_dumps (Some address))
        = ([announce; Sent (WithContent "❌ Invalid address type!")], Ok tt)).
Proof.
  intros Hne Hsend announce. subst announce.
  destruct address as [|c address]; [done|].
  unfold run. cbn [test_command]. generalize dependent (String c address).
  intros a _.
  split; [|split].
  - intros Hsol. rewrite (detect_solana a Hsol).
    destruct (solana_record_settled w 1 a) as (requests & data & Hrun & _).
    exists requests, data. split; [exact Hrun|].
    unfold channel_send at 1. cbn [bind run_from String.eqb Ascii.eqb Bool.eqb].
    accept_message Hsend. cbn [lift bind]. rewrite run_from_bind, Hrun.
    rewrite run_send_accepted by done. reflexivity.
  - intros Hevm. rewrite (detect_evm a Hevm).
    destruct (evm_record_settled w 1 a) as (requests & data & Hrun & _).
    exists requests, data. split; [exact Hrun|].
    unfold channel_send at 1.
    cbn [bind run_from String.eqb Ascii.eqb Bool.eqb is_prefix andb].
    accept_message Hsend. cbn [lift bind]. rewrite run_from_bind, Hrun.
    rewrite run_send_accepted by done. reflexivity.
  - intros Hsol Hevm.
    destruct (detect_other a Hsol Hevm) as [-> | ->];
      unfold channel_send at 1;
      cbn [bind run_from String.eqb Ascii.eqb Bool.eqb is_prefix andb];
      accept_message Hsend; cbn [lift bind];
      now rewrite run_send_accepted by done.
Qed.

End CommandFacts.

(** ** The theorems at work, with the reference builtins *)

#[local] Existing Instance Reference.builtins.

(** A closed equation, settled by evaluating its left side. *)
Ltac by_evaluation :=
  match goal with
  | |- ?a = ?b => vm_cast_no_check (@eq_refl _ b)
  end.

Lemma deep_pair_is_most_liquid :
  most_liquid_pair (VDict two_pairs) = Ok (Some deep_pair).
Proof. by_evaluation. Qed.

(** With pairs of liquidity 100 and 50,000 the record is the one of the
    second pair. *)
Lemma deeper_pair_taken :
  run (serving [(dexscreener_url solana_address, VDict two_pairs)])
    (get_solana_token_data solana_address)
  = ([Requested (dexscreener_url solana_address)], Ok deep_pair_solana_fields)
  /\ run (serving [(dexscreener_url evm_address, VDict two_pairs)])
       (get_evm_token_data evm_address)
     = ([Requested (dexscreener_url evm_address)], Ok deep_pair_evm_fields).
Proof.
  split.
  - destruct (most_liquid_pair_taken
                (serving [(dexscreener_url solana_address, VDict two_pairs)])
                0 solana_address two_pairs [thin_pair; deep_pair]
                [100%float; 50000%float])
      as (i & best & best_key & _ & _ & Hbest & Hsolana & _).
    + by_evaluation.
    + reflexivity.
    + discriminate.
    + repeat constructor; by_evaluation.
    + repeat constructor.
    + rewrite deep_pair_is_most_liquid in Hbest. injection Hbest as <-.
      destruct (Hsolana deep_pair_solana_fields) as (td & _ & _ & _ & Hrun).
      * by_evaluation.
      * apply Hrun. intros Hname.
        assert (deep_pair_solana_fields !! "name" = Some (VStr "Moro")) as Hmoro
          by by_evaluation.
        rewrite Hmoro in Hname. discriminate Hname.
  - destruct (most_liquid_pair_taken
                (serving [(dexscreener_url evm_address, VDict two_pairs)])
                0 evm_address two_pairs [thin_pair; deep_pair]
                [100%float; 50000%float])
      as (i & best & best_key & _ & _ & Hbest & _ & Hevm).
    + by_evaluation.
    + reflexivity.
    + discriminate.
    + repeat constructor; by_evaluation.
    + repeat constructor.
    + rewrite deep_pair_is_most_liquid in Hbest. injection Hbest as <-.
      destruct (Hevm deep_pair_evm_fields) as (Hrun & _).
      * by_evaluation.
      * exact Hrun.
Defined.

(** The EVM record has no fdv entry although the chosen pair has one, and
    a pair whose liquidity entry is [null] leaves a Solana token not
    found although the list of pairs is not empty. *)
Lemma pairs_not_always_taken :
  (exists fdv, deep_pair = VDict fdv /\ fdv !! "fdv" = Some (VInt 3000))
  /\ snd (run (serving [(dexscreener_url evm_address, VDict two_pairs)])
            (get_evm_token_data evm_address))
     = Ok deep_pair_evm_fields
  /\ deep_pair_evm_fields !! "fdv" = None
  /\ snd (run (serving [(dexscreener_url solana_address,
                         VDict (dict [("pairs", VList [pair_without_liquidity])]))])
            (get_solana_token_data solana_address))
     = Ok solana_defaults
  /\ solana_defaults !! "success" = Some (VBool false).
Proof.
  split; [eexists; split; [reflexivity | by_evaluation]|].
  repeat split; by_evaluation.
Qed.

(** Empty pairs, no Jupiter record, and a Solscan payload with a name. *)
Lemma fall_through_to_metadata :
  exists token_data,
    run (serving [(dexscreener_url solana_address, VDict no_pairs);
                  (jupiter_url solana_address, VDict (dict [("data", VDict ∅)]));
                  (solscan_url solana_address,
                   VDict (dict [("name", VStr "Moro"); ("symbol", VStr "MORO")]))])
      (get_solana_token_data solana_address)
    = ([Requested (dexscreener_url solana_address);
        Requested (jupiter_url solana_address);
        Requested (solscan_url solana_address)], Ok token_data)
    /\ token_data !! "success" = Some (VBool false)
    /\ token_data !! "name" = Some (VStr "Moro")
    /\ token_data !! "price" = Some (VInt 0).
Proof.
  destruct (solana_falls_through
              (serving [(dexscreener_url solana_address, VDict no_pairs);
                        (jupiter_url solana_address, VDict (dict [("data", VDict ∅)]));
                        (solscan_url solana_address,
                         VDict (dict [("name", VStr "Moro"); ("symbol", VStr "MORO")]))])
              0 solana_address no_pairs)
    as (token_data & Hrun & Hdata & Hsuccess & Hrest).
  - by_evaluation.
  - reflexivity.
  - by_evaluation.
  - exists token_data. split; [exact Hrun|]. split; [exact Hsuccess|]. split.
    + rewrite Hdata. by_evaluation.
    + rewrite Hrest by discriminate. by_evaluation.
Defined.

(** A Jupiter record with the price 0. *)
Lemma zero_price_is_found :
  exists token_data,
    snd (run (serving [(jupiter_url solana_address,
                        VDict (dict [("data",
                                      VDict (dict [(solana_address,
                                                    VDict zero_price_record)]))]))])
           (get_solana_token_data solana_address))
    = Ok token_data
    /\ token_data !! "price" = Some (VFloat 0)
    /\ token_data !! "success" = Some (VBool true)
    /\ token_data !! "liquidity" = Some (VInt 0).
Proof.
  apply (jupiter_price_sets_found
           (serving [(jupiter_url solana_address,
                      VDict (dict [("data",
                                    VDict (dict [(solana_address,
                                                  VDict zero_price_record)]))]))])
           0 solana_address
           (dict [("data", VDict (dict [(solana_address, VDict zero_price_record)]))])
           (dict [(solana_address, VDict zero_price_record)])
           zero_price_record (VInt 0) 0%float).
  - by_evaluation.
  - by_evaluation.
  - by_evaluation.
  - by_evaluation.
  - by_evaluation.
  - reflexivity.
Defined.



(** When no source can be reached the EVM record is the initial one,
    which has no fdv entry: the seven numeric fields are not all there. *)
Lemma evm_record_without_fdv :
  snd (run unreachable (get_evm_token_data evm_address)) = Ok evm_defaults
  /\ evm_defaults !! "fdv" = None
  /\ ~ complete_record solana_numeric_fields evm_defaults.
Proof.
  split; [by_evaluation|]. split; [by_evaluation|].
  intros [_ Hnumeric].
  destruct (Hnumeric "fdv") as (v & Hv & _); [simpl; tauto|].
  assert (evm_defaults !! "fdv" = None) as Hnone by by_evaluation.
  rewrite Hnone in Hv. discriminate Hv.
Qed.

(** A message of the bot that holds an address. *)
Lemma own_message_ignored_witness :
  author_is_bot own_message = true
  /\ scan (content own_message) <> []
  /\ run unreachable (on_message own_message) = ([], Ok tt).
Proof.
  split; [reflexivity|]. split; [discriminate|].
  apply (own_message_ignored own_message eq_refl).
Defined.

(** A URL found in a message. *)
Lemma url_requests_nothing :
  scan (content user_message) = [("https://dex.example/t", "URL")]
  /\ Forall (fun ev => is_request ev = false)
       (fst (run unreachable
               (process_address user_message None "https://dex.example/t" "URL"))).
Proof.
  split; [reflexivity|].
  apply (other_types_request_nothing unreachable 0 user_message None
           "https://dex.example/t" "URL"); discriminate.
Defined.

(** The scan on the example texts of the specification. *)
Lemma scan_examples :
  scan "gm, nothing to see here" = []
  /\ scan "So11111111111111111111111111111111111111112 "
     = [("So11111111111111111111111111111111111111112", "Solana")]
  /\ scan "https://example.com/path"
     = [("https://example.com/path", "URL")]
  /\ scan "0x00000000000000000000000000000000000000aa and again 0x00000000000000000000000000000000000000aa"
     = [("0x00000000000000000000000000000000000000aa", "EVM (Ethereum/BSC)");
        ("0x00000000000000000000000000000000000000aa", "EVM (Ethereum/BSC)")].
Proof. repeat split. Qed.

(** Some amounts, formatted with the reference builtins. *)
Lemma format_number_examples :
  map format_number
    [VNone; VInt 0; VFloat 0; VFloat 2500000000; VFloat 1500000; VFloat 1234.5;
     VFloat 12.5; VFloat 0.125]
  = ["N/A"; "N/A"; "N/A"; "$2.50B"; "$1.50M"; "$1.23K"; "$12.5000";
     "$0.12500000"].
Proof. by_evaluation. Qed.

(** ** The further properties at work *)

(** A URL after a word. *)
Lemma reported_matches_witness :
  In ("https://dex.example/t", "URL") (scan "see https://dex.example/t")
  /\ piece_of "https://dex.example/t" "see https://dex.example/t"
  /\ all_chars not_space "https://dex.example/t" = true.
Proof.
  assert (In ("https://dex.example/t", "URL") (scan "see https://dex.example/t"))
    as Hin by (left; reflexivity).
  split; [exact Hin|].
  destruct (reported_matches _ _ _ Hin) as (Hpiece & Hsolid & _).
  split; [exact Hpiece | exact Hsolid].
Defined.

(** An address between a blank and a line break. *)
Lemma solana_address_alone_witness :
  scan (" " +:+ solana_address +:+ nl) = [(solana_address, "Solana")].
Proof.
  apply (solana_address_alone " " solana_address nl).
  - reflexivity.
  - vm_compute. split; lia.
  - reflexivity.
  - reflexivity.
Defined.

(** Sources that answer with a list. *)
Lemma answers_without_object_witness :
  run answering_with_lists (get_solana_token_data solana_address)
  = ([Requested (dexscreener_url solana_address);
      Requested (jupiter_url solana_address);
      Requested (solscan_url solana_address)], Ok solana_defaults)
  /\ run answering_with_lists (get_evm_token_data solana_address)
     = ([Requested (dexscreener_url solana_address);
         Requested (coingecko_url solana_address)], Ok evm_defaults).
Proof.
  apply (answers_without_object answering_with_lists 0 solana_address).
  intros m url. right. exact I.
Defined.

(** The record of the deeper of two pairs. *)
Lemma dex_record_from_listed_pair_witness :
  exists resp d items best,
    ok_json (VDict two_pairs) = Ok resp /\ status resp = 200%Z
    /\ json resp = Ok (VDict d)
    /\ d !! "pairs" = Some (VList items) /\ In best items
    /\ Forall (fun p => exists k, liquidity_usd p = Ok k) items
    /\ (solana_pair_fields best = Ok deep_pair_solana_fields
        \/ evm_pair_fields best = Ok deep_pair_solana_fields).
Proof.
  apply (dex_record_from_listed_pair (ok_json (VDict two_pairs))
           deep_pair_solana_fields).
  left. by_evaluation.
Defined.

(** A URL on a platform that accepts everything: one loading message,
    one edit of it. *)
Lemma match_is_handled_witness :
  exists e,
    run unreachable
      (process_address user_message None "https://dex.example/t" "URL")
    = ([Sent (WithEmbed (loading_embed "https://dex.example/t" "URL"));
        Edited 0 (WithEmbed e)], Ok (Some 0)).
Proof.
  destruct (match_is_handled unreachable 0 user_message None
              "https://dex.example/t" "URL" 0 eq_refl)
    as (requests & token_data & e & Hfetch & _ & _ & Hrun).
  injection Hfetch as <- _. exists e. exact Hrun.
Defined.

(** The loading message of a second match is refused: the error goes to
    the message of the first. *)
Lemma refused_loading_message_witness :
  run refusing
    (process_address user_message (Some 7) "https://dex.example/t" "URL")
  = ([Sent (WithEmbed (loading_embed "https://dex.example/t" "URL"));
      Edited 7 (error_edit (HTTPException "503 Service Unavailable")
                  "https://dex.example/t" "URL")],
     Ok (Some 7)).
Proof.
  exact (refused_loading_message refusing 0 user_message (Some 7)
           "https://dex.example/t" "URL"
           (HTTPException "503 Service Unavailable") eq_refl).
Defined.

(** A message with one URL, while no source can be reached. *)
Lemma every_match_is_announced_witness :
  exists t,
    run unreachable (on_message user_message)
    = (t ++ [CommandsProcessed], platform_commands unreachable (length t))
    /\ embeds_sent t = [loading_embed "https://dex.example/t" "URL"].
Proof.
  apply (every_match_is_announced unreachable user_message).
  - reflexivity.
  - intros k out. exists k. reflexivity.
Defined.

(** The same message on a platform that takes no new message. *)
Lemma refused_messages_end_the_handler_witness :
  exists e,
    platform_send refusing 1 (error_notice "https://dex.example/t" "URL")
    = Raise e
    /\ run refusing (on_message user_message)
       = ([Sent (WithEmbed (loading_embed "https://dex.example/t" "URL"));
           Sent (error_notice "https://dex.example/t" "URL")], Raise e).
Proof.
  apply (refused_messages_end_the_handler refusing user_message
           "https://dex.example/t" "URL" []).
  - reflexivity.
  - reflexivity.
  - intros k out. eexists. reflexivity.
Defined.

(** The test command on a URL. *)
Lemma test_command_asks_witness :
  run unreachable (test_command (fun _ => "{}") (Some "https://dex.example/t"))
  = ([Sent (WithContent "🧪 Testing URL address: `https://dex.example/t`");
      Sent (WithContent "❌ Invalid address type!")], Ok tt).
Proof.
  destruct (test_command_asks (fun _ => "{}") unreachable "https://dex.example/t")
    as (_ & _ & Hother).
  - discriminate.
  - intros k out. exists k. reflexivity.
  - apply Hother.
    + intros Hm%fullmatch_matches. vm_compute in Hm. discriminate Hm.
    + intros Hm%fullmatch_matches. vm_compute in Hm. discriminate Hm.
Defined.
